(** * MT5 gateway: the signal-to-order pipeline of [app/mt5/trading.py]
      and the margin check of [app/mt5/account.py]

    Shallow embedding of [TradingEngine] and [AccountManager].

    Conventions of the embedding.
    - A Python [float] is a rational [Q] and Python [int] is [Z].  The
      functions under their source names compute with exact arithmetic
      and their results are compared with [==].  Where a comparison or a
      count of steps depends on how a float operation rounds, a second
      definition with the suffix [_fp] takes the float operations as an
      argument ([Fp.arith]); at [Fp.exact] it is the first one.
    - [Optional[T]] is [option T].  A Python truth test ([if x:],
      [x or y], [not x]) on an optional number takes [None] and zero for
      false: [Py.if_num], [Py.if_int], [Py.truthy], [Py.or_else].
    - [datetime] values are microseconds since the epoch, in [Z];
      [timedelta(seconds=s)] is [s * 1000000].
    - A [try: ... except Exception] block that returns a default value is
      written out: every operation that can raise (a division by zero, an
      attribute access on [None]) yields the handler's result.
    - [datetime.fromtimestamp] raises on a time outside the range the
      platform supports; it is a partial function of the world.
    - The [MetaTrader5] package and the injected [MT5Client] are the
      outside world.  During one call they are a snapshot, a record of the
      answers they give; the calls that act on the terminal are recorded
      in the call's [Outcome].  Log output is not modelled. *)

From Stdlib Require Import ZArith QArith Qround Qabs Qminmax Lia Lqa Bool List.
From Stdlib Require Import Sorted.
From stdpp Require Import gmap strings.
Import ListNotations.

Local Open Scope Q_scope.

(** ** Python primitives *)

Module Py.

(** [bool(x)] for a float or an int seen as a rational. *)
Definition truthy_num (x : Q) : bool := negb (Qeq_bool x 0).

(** [if o: then_(o) else: else_] for an [Optional[float]]: [None] and
    [0.0] take the [else] branch. *)
Definition if_num {A : Type} (o : option Q) (then_ : Q -> A) (else_ : A) : A :=
  match o with
  | Some x => if truthy_num x then then_ x else else_
  | None => else_
  end.

(** The same test for an [Optional[int]]. *)
Definition if_int {A : Type} (o : option Z) (then_ : Z -> A) (else_ : A) : A :=
  match o with
  | Some n => if (n =? 0)%Z then else_ else then_ n
  | None => else_
  end.

(** [bool(o)] for an [Optional[float]]. *)
Definition truthy (o : option Q) : bool := if_num o (fun _ => true) false.

(** [o or d] where [d] is a number. *)
Definition or_else (o : option Q) (d : Q) : Q := if_num o (fun x => x) d.

(** [a < b]. *)
Definition ltb (a b : Q) : bool := negb (Qle_bool b a).

(** [min(a, b)]: the first argument unless the second is smaller. *)
Definition min (a b : Q) : Q := if ltb b a then b else a.

(** [max(a, b)]: the first argument unless the second is larger. *)
Definition max (a b : Q) : Q := if ltb a b then b else a.

(** [a / b] on floats: [None] stands for [ZeroDivisionError]. *)
Definition div (a b : Q) : option Q :=
  if Qeq_bool b 0 then None else Some (a / b).

(** [round(x)] with one argument: the nearest integer, a tie going to
    the even neighbour. *)
Definition round (x : Q) : Z :=
  let f := Qfloor x in
  match Qcompare (x - inject_Z f) (1 # 2) with
  | Lt => f
  | Gt => (f + 1)%Z
  | Eq => if Z.even f then f else (f + 1)%Z
  end.

(** An [Optional[float]] that a truth test takes for false: [None] or
    zero.  [falsy_int] is the same for an [Optional[int]]. *)
Definition falsy (o : option Q) : Prop :=
  match o with
  | Some x => x == 0
  | None => True
  end.

Definition falsy_int (o : option Z) : Prop := o = None \/ o = Some 0%Z.

(** [timedelta(seconds=s)] in microseconds. *)
Definition timedelta_seconds (s : Z) : Z := (s * 1000000)%Z.

End Py.

(** ** Float arithmetic

    A float is a rational, and an operation on floats returns the exact
    result rounded to a float.  [arith] holds the rounded operations the
    embedded code uses: [x * y], [x / y] for a divisor other than zero,
    the conversion of an [int] operand and the value of a decimal
    literal.  Comparisons, [min], [max] and [round] read the exact value
    of a float and need no rounding.  Infinities and NaN are not values
    of the embedding: an operation is taken to stay within the finite
    floats. *)

Module Fp.

Record arith := {
  mul : Q -> Q -> Q;
  div : Q -> Q -> Q;
  of_int : Z -> Q;
  lit : Q -> Q
}.

(** Arithmetic without rounding. *)
Definition exact : arith :=
  {| mul := Qmult; div := Qdiv; of_int := inject_Z; lit := fun q => q |}.

(** [2 ** e]. *)
Definition pow2 (e : Z) : Q :=
  if (0 <=? e)%Z then inject_Z (2 ^ e) else 1 # Z.to_pos (2 ^ (- e)).

(** The exponent [k] with [2 ** k <= x < 2 ** (k + 1)], for [0 < x]. *)
Definition ilog2 (x : Q) : Z :=
  let k := (Z.log2 (Qnum x) - Z.log2 (Zpos (Qden x)))%Z in
  if Qle_bool (pow2 k) x then k else (k - 1)%Z.

(** The IEEE 754 double nearest to [x], a tie going to the even
    mantissa: 53 bits of mantissa, exponents from [-1074].  Values
    beyond the largest double are not cut off. *)
Definition round64 (x : Q) : Q :=
  if Qeq_bool x 0 then 0
  else
    let e := Z.max (ilog2 (Qabs x) - 52) (-1074) in
    inject_Z (Py.round (x / pow2 e)) * pow2 e.

(** The arithmetic of CPython's [float]. *)
Definition binary64 : arith :=
  {| mul := fun x y => round64 (x * y);
     div := fun x y => round64 (x / y);
     of_int := fun n => round64 (inject_Z n);
     lit := round64 |}.

End Fp.

(** ** Data model ([app/mt5/trading.py], [app/mt5/__init__.py]) *)

Inductive OrderType := MARKET | LIMIT | STOP | STOP_LIMIT.

Inductive OrderSide := BUY | SELL.

Record RiskConfig := {
  percent : Q;
  fixed_amount : option Q;
  max_risk_per_trade : Q
}.

Record StopLossConfig := {
  sl_pips : option Z;
  sl_price_cfg : option Q;
  atr_multiplier : option Q
}.

Record TakeProfitConfig := {
  tp_pips : option Z;
  tp_price_cfg : option Q;
  risk_reward_ratio : option Q
}.

Record TradingSignal := {
  strategy : string;
  symbol : string;
  side : OrderSide;
  order_type : OrderType;
  risk : RiskConfig;
  sl : StopLossConfig;
  tp : TakeProfitConfig;
  price : option Q;
  comment : string;
  idempotency_key : string;
  magic_number : Z
}.

(** [SymbolInfo] of [app/mt5/__init__.py]. *)
Record SymbolInfo := {
  name : string;
  digits : Z;
  point : Q;
  tick_value : Q;
  contract_size : Q;
  margin_required : Q;
  spread : Z;
  is_trade_allowed : bool
}.

(** The dictionary built by [MT5Client.get_account_info]. *)
Record AccountInfo := {
  login : Z;
  server : string;
  balance : Q;
  equity : Q;
  margin : Q;
  free_margin : Q;
  margin_level : Q;
  currency : string;
  leverage : Z;
  profit : Q;
  company : string;
  account_name : string;
  server_time : Z
}.

(** The trading limits of [Config] ([app/config.py]); its other fields are
    not read by the engine. *)
Record Config := {
  MIN_LOT_SIZE : Q;
  MAX_LOT_SIZE : Q;
  LOT_STEP : Q;
  STOP_LEVEL_PIPS : Z
}.

(** The methods of the injected [MT5Client] the engine calls.  Each one
    catches its own exceptions and answers [None] or [False]. *)
Record MT5Client := {
  get_symbol_info : string -> option SymbolInfo;
  get_account_info : option AccountInfo;
  subscribe_symbol : string -> bool
}.

(** ** The engine: [TradingEngine]

    The record holds what the engine owns.  [self.mt5_client] is handed
    to each method as an argument, since its answers change from call to
    call. *)

Record TradingEngine := {
  config : Config;
  idempotency_cache : gmap string Z;
  idempotency_ttl : Z
}.

(** [TradingEngine.__init__]. *)
Definition init_engine (cfg : Config) : TradingEngine :=
  {| config := cfg; idempotency_cache := ∅; idempotency_ttl := 3600 |}.

Definition set_cache (self : TradingEngine) (c : gmap string Z) : TradingEngine :=
  {| config := config self;
     idempotency_cache := c;
     idempotency_ttl := idempotency_ttl self |}.

(** *** [calculate_lot_size]

    In exact arithmetic; [calculate_lot_size_fp] below is the body with
    its float operations. *)

Definition calculate_lot_size (self : TradingEngine) (mt5_client : MT5Client)
    (sym : string) (risk_config : RiskConfig) (sl_points : Q) : option Q :=
  match get_symbol_info mt5_client sym with
  | None => None
  | Some symbol_info =>
    match get_account_info mt5_client with
    | None => None
    | Some account_info =>
      let bal := balance account_info in
      let risk_amount :=
        Py.if_num (fixed_amount risk_config)
          (fun fixed => fixed)
          (bal * (percent risk_config / 100)) in
      let max_risk := bal * (max_risk_per_trade risk_config / 100) in
      let risk_amount := Py.min risk_amount max_risk in
      let point_value := tick_value symbol_info * contract_size symbol_info in
      let loss_per_lot := sl_points * point symbol_info * point_value in
      if Qle_bool loss_per_lot 0 then None (* loss_per_lot <= 0 *)
      else
        let lot_size := risk_amount / loss_per_lot in
        let lot_size := Py.max lot_size (MIN_LOT_SIZE (config self)) in
        let lot_size := Py.min lot_size (MAX_LOT_SIZE (config self)) in
        match Py.div lot_size (LOT_STEP (config self)) with
        | None => None
        | Some steps =>
            Some (inject_Z (Py.round steps) * LOT_STEP (config self))
        end
    end
  end.

(** The same body with the float operations written out.  [/ 100]
    divides by the [int] 100, [round(...) * lot_step] multiplies the
    [int] that [round] returns; [round] itself and the comparisons are
    exact on the floats they are given. *)
Definition calculate_lot_size_fp (fp : Fp.arith) (self : TradingEngine)
    (mt5_client : MT5Client) (sym : string) (risk_config : RiskConfig)
    (sl_points : Q) : option Q :=
  match get_symbol_info mt5_client sym with
  | None => None
  | Some symbol_info =>
    match get_account_info mt5_client with
    | None => None
    | Some account_info =>
      let bal := balance account_info in
      let risk_amount :=
        Py.if_num (fixed_amount risk_config)
          (fun fixed => fixed)
          (Fp.mul fp bal
             (Fp.div fp (percent risk_config) (Fp.of_int fp 100))) in
      let max_risk :=
        Fp.mul fp bal
          (Fp.div fp (max_risk_per_trade risk_config) (Fp.of_int fp 100)) in
      let risk_amount := Py.min risk_amount max_risk in
      let point_value :=
        Fp.mul fp (tick_value symbol_info) (contract_size symbol_info) in
      let loss_per_lot :=
        Fp.mul fp (Fp.mul fp sl_points (point symbol_info)) point_value in
      if Qle_bool loss_per_lot 0 then None (* loss_per_lot <= 0 *)
      else
        let lot_size := Fp.div fp risk_amount loss_per_lot in
        let lot_size := Py.max lot_size (MIN_LOT_SIZE (config self)) in
        let lot_size := Py.min lot_size (MAX_LOT_SIZE (config self)) in
        if Qeq_bool (LOT_STEP (config self)) 0 then None
        else
          let steps := Fp.div fp lot_size (LOT_STEP (config self)) in
          Some (Fp.mul fp (Fp.of_int fp (Py.round steps))
                  (LOT_STEP (config self)))
    end
  end.

(** *** [validate_idempotency]

    [now1] and [now2] are the two readings of [datetime.utcnow()], the
    first stamping the record, the second giving the sweep's cutoff.
    [if not idempotency_key] holds of the empty string only. *)

Definition validate_idempotency (self : TradingEngine) (now1 now2 : Z)
    (key : string) : bool * TradingEngine :=
  if decide (key = EmptyString) then (true, self)
  else
    match idempotency_cache self !! key with
    | Some _ => (false, self)
    | None =>
        let cache := <[key := now1]> (idempotency_cache self) in
        let cutoff := (now2 - Py.timedelta_seconds (idempotency_ttl self))%Z in
        (true, set_cache self (filter (λ kv, (cutoff < kv.2)%Z) cache))
    end.

(** *** [calculate_sl_tp_prices]

    The function is one body of three commented blocks; each block is a
    definition here and [calculate_sl_tp_prices] chains them as the body
    does. *)

(** Lines 149-157, "Stop-Loss berechnen". *)
Definition compute_stop_loss (symbol_info : SymbolInfo) (sd : OrderSide)
    (entry_price : Q) (sl_config : StopLossConfig) : option Q :=
  Py.if_int (sl_pips sl_config)
    (fun pips =>
       let pip_value := inject_Z pips * point symbol_info in
       match sd with
       | BUY => Some (entry_price - pip_value)
       | SELL => Some (entry_price + pip_value)
       end)
    (Py.if_num (sl_price_cfg sl_config) (fun p => Some p) None).

(** Lines 159-174, "Take-Profit berechnen"; [sl_price] is the stop the
    block above has just computed. *)
Definition compute_take_profit (symbol_info : SymbolInfo) (sd : OrderSide)
    (entry_price : Q) (tp_config : TakeProfitConfig) (sl_price : option Q)
    : option Q :=
  Py.if_int (tp_pips tp_config)
    (fun pips =>
       let pip_value := inject_Z pips * point symbol_info in
       match sd with
       | BUY => Some (entry_price + pip_value)
       | SELL => Some (entry_price - pip_value)
       end)
    (Py.if_num (tp_price_cfg tp_config) (fun p => Some p)
       (Py.if_num (risk_reward_ratio tp_config)
          (fun ratio =>
             Py.if_num sl_price
               (fun slp =>
                  let risk_dist := Qabs (entry_price - slp) in
                  let reward := risk_dist * ratio in
                  match sd with
                  | BUY => Some (entry_price + reward)
                  | SELL => Some (entry_price - reward)
                  end)
               None)
          None)).

(** Lines 178-182, "Mindestabstand pruefen" for the stop. *)
Definition check_min_distance_sl (sd : OrderSide) (entry_price min_distance : Q)
    (sl_price : option Q) : option Q :=
  Py.if_num sl_price
    (fun slp =>
       if Py.ltb (Qabs (entry_price - slp)) min_distance then
         match sd with
         | BUY => Some (entry_price - min_distance)
         | SELL => Some (entry_price + min_distance)
         end
       else sl_price)
    sl_price.

(** Lines 184-188, the same for the target. *)
Definition check_min_distance_tp (sd : OrderSide) (entry_price min_distance : Q)
    (tp_price : option Q) : option Q :=
  Py.if_num tp_price
    (fun tpp =>
       if Py.ltb (Qabs (entry_price - tpp)) min_distance then
         match sd with
         | BUY => Some (entry_price + min_distance)
         | SELL => Some (entry_price - min_distance)
         end
       else tp_price)
    tp_price.

Definition calculate_sl_tp_prices (self : TradingEngine) (mt5_client : MT5Client)
    (sym : string) (sd : OrderSide) (entry_price : Q)
    (sl_config : StopLossConfig) (tp_config : TakeProfitConfig)
    : option Q * option Q :=
  match get_symbol_info mt5_client sym with
  | None => (None, None)
  | Some symbol_info =>
    let sl_price := compute_stop_loss symbol_info sd entry_price sl_config in
    let tp_price :=
      compute_take_profit symbol_info sd entry_price tp_config sl_price in
    let min_distance :=
      inject_Z (STOP_LEVEL_PIPS (config self)) * point symbol_info in
    let sl_price := check_min_distance_sl sd entry_price min_distance sl_price in
    let tp_price := check_min_distance_tp sd entry_price min_distance tp_price in
    (sl_price, tp_price)
  end.

(** ** The [MetaTrader5] package as the engine sees it *)

Inductive TradeAction := TRADE_ACTION_DEAL | TRADE_ACTION_SLTP.
Inductive Mt5OrderType := ORDER_TYPE_BUY | ORDER_TYPE_SELL.
Inductive TypeTime := ORDER_TIME_GTC.
Inductive TypeFilling := ORDER_FILLING_IOC.

(** The [comment] entry of a request: the signal's text, or the
    f-string [Close position {ticket}]. *)
Inductive RequestComment :=
| SignalComment (text : string)
| ClosePositionComment (ticket : Z).

(** A request dictionary handed to [mt5.order_send]; a key the dictionary
    does not have is [None]. *)
Record TradeRequest := {
  req_action : TradeAction;
  req_symbol : string;
  req_volume : option Q;
  req_type : option Mt5OrderType;
  req_position : option Z;
  req_price : option Q;
  req_sl : option Q;
  req_tp : option Q;
  req_deviation : option Z;
  req_magic : option Z;
  req_comment : option RequestComment;
  req_type_time : option TypeTime;
  req_type_filling : option TypeFilling
}.

(** The object [mt5.order_send] returns. *)
Record OrderSendResult := {
  retcode : Z;
  res_order : Z;
  res_position : Z;
  res_price : Q;
  res_comment : string;
  res_time : Z
}.

Record Tick := { bid : Q; ask : Q }.

(** An element of the tuple [mt5.positions_get] returns. *)
Record Position := {
  pos_ticket : Z;
  pos_symbol : string;
  pos_type : Z;
  pos_volume : Q;
  pos_sl : Q;
  pos_tp : Q;
  pos_magic : Z
}.

(** The attributes of the object [mt5.symbol_info] returns that
    [AccountManager] reads. *)
Record Mt5SymbolInfo := {
  mt5_margin_required : Q;
  mt5_margin_mode : Z;
  mt5_margin_currency : string;
  mt5_margin_rate : Q;
  trade_contract_size : Q
}.

(** The package itself: its constants, whose values the repository does
    not fix, and the answers of its functions.  [None] is the Python
    [None] the package returns on an error.  The last field is the
    platform's [datetime.fromtimestamp], which the engine applies to the
    time of an order result: [None] stands for the exception it raises
    on a time it cannot convert. *)
Record MetaTrader5 := {
  TRADE_RETCODE_DONE : Z;
  POSITION_TYPE_BUY : Z;
  SYMBOL_CALC_MODE_FOREX : Z;
  SYMBOL_CALC_MODE_FUTURES : Z;
  symbol_info : string -> option Mt5SymbolInfo;
  symbol_info_tick : string -> option Tick;
  positions_get : Z -> option (list Position);
  order_send : TradeRequest -> option OrderSendResult;
  datetime_fromtimestamp : Z -> option Z
}.

(** ** [OrderResult] and the messages of [execute_signal] *)

Inductive ErrorMessage :=
| KeyAlreadyUsed                       (* Idempotency-Key bereits verwendet *)
| SymbolNotAvailable (sym : string)    (* Symbol ... nicht verfuegbar *)
| SymbolInfoNotAvailable (sym : string)
| PriceNotAvailable (sym : string)     (* Aktueller Preis ... nicht verfuegbar *)
| LotSizeNotComputed                   (* Lot-Groesse konnte nicht berechnet werden *)
| OrderFailed (broker_comment : string) (* Order fehlgeschlagen: ... *)
| InternalError.                       (* Interner Fehler: ... *)

Record OrderResult := {
  success : bool;
  order_id : option Z;
  position_id : option Z;
  executed_price : option Q;
  sl_price : option Q;
  tp_price : option Q;
  lot_size : option Q;
  error_message : option ErrorMessage;
  result_server_time : option Z
}.

(** [OrderResult(success=False, error_message=msg)]. *)
Definition failure (msg : ErrorMessage) : OrderResult :=
  {| success := false; order_id := None; position_id := None;
     executed_price := None; sl_price := None; tp_price := None;
     lot_size := None; error_message := Some msg;
     result_server_time := None |}.

(** A call that acts on the terminal: [mt5.symbol_select], which
    [MT5Client.subscribe_symbol] wraps, and [mt5.order_send].  The
    read-only queries are answered from the snapshot and leave no trace. *)
Inductive TerminalCall :=
| SymbolSelect (sym : string)
| OrderSend (request : TradeRequest).

(** What one call of the engine leaves behind: its return value, the
    engine afterwards and the calls it made on the terminal, in order. *)
Record Outcome (A : Type) := {
  returned : A;
  engine : TradingEngine;
  calls : list TerminalCall
}.
Arguments returned {A} _.
Arguments engine {A} _.
Arguments calls {A} _.

(** The requests handed to [mt5.order_send] among the calls. *)
Definition orders (cs : list TerminalCall) : list TradeRequest :=
  omap (fun c => match c with
                 | OrderSend request => Some request
                 | SymbolSelect _ => None
                 end) cs.

(** *** [execute_signal] *)

(** Lines 252-257: the stop distance in points; [None] is the
    [ZeroDivisionError] of a zero point size. *)
Definition derive_sl_points (signal : TradingSignal) (current_price : Q)
    (si : SymbolInfo) : option Q :=
  Py.if_int (sl_pips (sl signal))
    (fun pips => Some (inject_Z pips))
    (Py.if_num (sl_price_cfg (sl signal))
       (fun p => Py.div (Qabs (current_price - p)) (point si))
       (Some 0)).

Definition execute_signal (mt5 : MetaTrader5) (mt5_client : MT5Client)
    (now1 now2 : Z) (self : TradingEngine) (signal : TradingSignal)
    : Outcome OrderResult :=
  let (admitted, self) :=
    validate_idempotency self now1 now2 (idempotency_key signal) in
  if negb admitted then
    {| returned := failure KeyAlreadyUsed; engine := self; calls := [] |}
  else
    let subscribed := [SymbolSelect (symbol signal)] in
    let stop msg :=
      {| returned := failure msg; engine := self; calls := subscribed |} in
    if negb (subscribe_symbol mt5_client (symbol signal)) then
      stop (SymbolNotAvailable (symbol signal))
    else
      match get_symbol_info mt5_client (symbol signal) with
      | None => stop (SymbolInfoNotAvailable (symbol signal))
      | Some si =>
        match symbol_info_tick mt5 (symbol signal) with
        | None => stop (PriceNotAvailable (symbol signal))
        | Some tick =>
          let current_price :=
            match side signal with BUY => ask tick | SELL => bid tick end in
          match derive_sl_points signal current_price si with
          | None => stop InternalError
          | Some sl_points =>
            let lot := calculate_lot_size self mt5_client (symbol signal)
                          (risk signal) sl_points in
            if negb (Py.truthy lot) then stop LotSizeNotComputed
            else
              let (slp, tpp) :=
                calculate_sl_tp_prices self mt5_client (symbol signal)
                  (side signal) current_price (sl signal) (tp signal) in
              let request :=
                {| req_action := TRADE_ACTION_DEAL;
                   req_symbol := symbol signal;
                   req_volume := lot;
                   req_type := Some (match side signal with
                                     | BUY => ORDER_TYPE_BUY
                                     | SELL => ORDER_TYPE_SELL
                                     end);
                   req_position := None;
                   req_price := Some current_price;
                   req_sl := Some (Py.or_else slp 0);
                   req_tp := Some (Py.or_else tpp 0);
                   req_deviation := Some 20%Z;
                   req_magic := Some (magic_number signal);
                   req_comment := Some (SignalComment (comment signal));
                   req_type_time := Some ORDER_TIME_GTC;
                   req_type_filling := Some ORDER_FILLING_IOC |} in
              let done := subscribed ++ [OrderSend request] in
              match order_send mt5 request with
              | None =>
                  {| returned := failure InternalError; engine := self;
                     calls := done |}
              | Some result =>
                  if negb (retcode result =? TRADE_RETCODE_DONE mt5)%Z then
                    {| returned := failure (OrderFailed (res_comment result));
                       engine := self; calls := done |}
                  else
                    (* server_time=datetime.fromtimestamp(result.time) *)
                    match datetime_fromtimestamp mt5 (res_time result) with
                    | None =>
                        {| returned := failure InternalError; engine := self;
                           calls := done |}
                    | Some time =>
                        {| returned :=
                             {| success := true;
                                order_id := Some (res_order result);
                                position_id := Some (res_position result);
                                executed_price := Some (res_price result);
                                sl_price := slp;
                                tp_price := tpp;
                                lot_size := lot;
                                error_message := None;
                                result_server_time := Some time |};
                           engine := self; calls := done |}
                    end
              end
          end
        end
      end.

(** *** [modify_position] and [close_position] *)

Definition modify_position (mt5 : MetaTrader5) (self : TradingEngine)
    (ticket : Z) (new_sl new_tp : option Q) : Outcome bool :=
  match positions_get mt5 ticket with
  | None | Some [] => {| returned := false; engine := self; calls := [] |}
  | Some (pos :: _) =>
      let request :=
        {| req_action := TRADE_ACTION_SLTP;
           req_symbol := pos_symbol pos;
           req_volume := None;
           req_type := None;
           req_position := Some ticket;
           req_price := None;
           req_sl := Some (Py.or_else new_sl (pos_sl pos));
           req_tp := Some (Py.or_else new_tp (pos_tp pos));
           req_deviation := None;
           req_magic := None;
           req_comment := None;
           req_type_time := None;
           req_type_filling := None |} in
      match order_send mt5 request with
      | None => {| returned := false; engine := self; calls := [OrderSend request] |}
      | Some result =>
          {| returned := (retcode result =? TRADE_RETCODE_DONE mt5)%Z;
             engine := self; calls := [OrderSend request] |}
      end
  end.

Definition close_position (mt5 : MetaTrader5) (self : TradingEngine)
    (ticket : Z) (volume : option Q) : Outcome bool :=
  match positions_get mt5 ticket with
  | None | Some [] => {| returned := false; engine := self; calls := [] |}
  | Some (pos :: _) =>
      let close_volume := Py.or_else volume (pos_volume pos) in
      let ot :=
        if (pos_type pos =? POSITION_TYPE_BUY mt5)%Z then ORDER_TYPE_SELL
        else ORDER_TYPE_BUY in
      let request :=
        {| req_action := TRADE_ACTION_DEAL;
           req_symbol := pos_symbol pos;
           req_volume := Some close_volume;
           req_type := Some ot;
           req_position := Some ticket;
           req_price := None;
           req_sl := None;
           req_tp := None;
           req_deviation := Some 20%Z;
           req_magic := Some (pos_magic pos);
           req_comment := Some (ClosePositionComment ticket);
           req_type_time := Some ORDER_TIME_GTC;
           req_type_filling := Some ORDER_FILLING_IOC |} in
      match order_send mt5 request with
      | None => {| returned := false; engine := self; calls := [OrderSend request] |}
      | Some result =>
          {| returned := (retcode result =? TRADE_RETCODE_DONE mt5)%Z;
             engine := self; calls := [OrderSend request] |}
      end
  end.

(** ** [AccountManager] ([app/mt5/account.py]) *)

Record MarginInfo := {
  mi_symbol : string;
  mi_margin_required : Q;
  mi_margin_mode : Z;
  mi_margin_currency : string;
  mi_margin_rate : Q
}.

(** [get_account_summary] copies the client's dictionary field by field
    into an [AccountSummary]; the two are the same record here. *)
Definition get_account_summary (mt5_client : MT5Client) : option AccountInfo :=
  get_account_info mt5_client.

Definition get_margin_info (mt5 : MetaTrader5) (sym : string) : option MarginInfo :=
  match symbol_info mt5 sym with
  | None => None
  | Some si =>
      Some {| mi_symbol := sym;
              mi_margin_required := mt5_margin_required si;
              mi_margin_mode := mt5_margin_mode si;
              mi_margin_currency := mt5_margin_currency si;
              mi_margin_rate := mt5_margin_rate si |}
  end.

(** [calculate_margin_required] and [check_margin_sufficient] in exact
    arithmetic; the [_fp] definitions below are the bodies with their
    float operations. *)
Definition calculate_margin_required (mt5 : MetaTrader5) (mt5_client : MT5Client)
    (sym : string) (volume price : Q) : option Q :=
  match get_margin_info mt5 sym with
  | None => None
  | Some margin_info =>
      if (mi_margin_mode margin_info =? SYMBOL_CALC_MODE_FOREX mt5)%Z then
        match get_account_summary mt5_client with
        | None => None
        | Some account_info =>
            let lev := leverage account_info in
            match symbol_info mt5 sym with
            | None => None
            | Some si =>
                Py.div (trade_contract_size si * volume) (inject_Z lev)
            end
        end
      else if (mi_margin_mode margin_info =? SYMBOL_CALC_MODE_FUTURES mt5)%Z then
        match symbol_info mt5 sym with
        | None => None
        | Some si =>
            Some (trade_contract_size si * volume * mi_margin_rate margin_info)
        end
      else Some (mi_margin_required margin_info * volume)
  end.

Definition check_margin_sufficient (mt5 : MetaTrader5) (mt5_client : MT5Client)
    (sym : string) (volume price : Q) : bool :=
  match get_account_summary mt5_client with
  | None => false
  | Some account_summary =>
      match calculate_margin_required mt5 mt5_client sym volume price with
      | None => false
      | Some required_margin =>
          Qle_bool required_margin (free_margin account_summary)
      end
  end.

(** [calculate_margin_required] and [check_margin_sufficient] with the
    float operations written out.  The leverage is an [int]: a zero
    raises [ZeroDivisionError], any other value is converted for the
    division. *)
Definition calculate_margin_required_fp (fp : Fp.arith) (mt5 : MetaTrader5)
    (mt5_client : MT5Client) (sym : string) (volume price : Q) : option Q :=
  match get_margin_info mt5 sym with
  | None => None
  | Some margin_info =>
      if (mi_margin_mode margin_info =? SYMBOL_CALC_MODE_FOREX mt5)%Z then
        match get_account_summary mt5_client with
        | None => None
        | Some account_info =>
            let lev := leverage account_info in
            match symbol_info mt5 sym with
            | None => None
            | Some si =>
                if (lev =? 0)%Z then None
                else
                  Some (Fp.div fp (Fp.mul fp (trade_contract_size si) volume)
                          (Fp.of_int fp lev))
            end
        end
      else if (mi_margin_mode margin_info =? SYMBOL_CALC_MODE_FUTURES mt5)%Z then
        match symbol_info mt5 sym with
        | None => None
        | Some si =>
            Some (Fp.mul fp (Fp.mul fp (trade_contract_size si) volume)
                    (mi_margin_rate margin_info))
        end
      else Some (Fp.mul fp (mi_margin_required margin_info) volume)
  end.

Definition check_margin_sufficient_fp (fp : Fp.arith) (mt5 : MetaTrader5)
    (mt5_client : MT5Client) (sym : string) (volume price : Q) : bool :=
  match get_account_summary mt5_client with
  | None => false
  | Some account_summary =>
      match calculate_margin_required_fp fp mt5 mt5_client sym volume price with
      | None => false
      | Some required_margin =>
          Qle_bool required_margin (free_margin account_summary)
      end
  end.

(** ** Sequences of calls on one engine *)

(** One [execute_signal] call: the signal, the two clock readings of the
    idempotency guard and the world's answers during the call. *)
Record Call := {
  call_mt5 : MetaTrader5;
  call_client : MT5Client;
  call_now1 : Z;
  call_now2 : Z;
  call_signal : TradingSignal
}.

Definition step (self : TradingEngine) (c : Call) : Outcome OrderResult :=
  execute_signal (call_mt5 c) (call_client c) (call_now1 c) (call_now2 c)
    self (call_signal c).

(** The engine after a list of calls made one after the other. *)
Fixpoint run (self : TradingEngine) (calls : list Call) : TradingEngine :=
  match calls with
  | [] => self
  | c :: rest => run (engine (step self c)) rest
  end.


(** ** [MT5Client] ([app/mt5/__init__.py])

    The methods the engine and the account manager call, on the client's
    own state.  The terminal is the snapshot [ClientTerminal]; a clock
    reading is an argument of the method that takes it. *)

(** The attributes of [mt5.symbol_info(symbol)] that [get_symbol_info]
    reads. *)
Record TerminalSymbol := {
  ts_digits : Z;
  ts_point : Q;
  ts_trade_tick_value : Q;
  ts_trade_contract_size : Q;
  ts_margin_required : Q;
  ts_spread : Z;
  ts_trade_mode : Z
}.

(** The object [mt5.account_info()] returns. *)
Record TerminalAccount := {
  ta_login : Z;
  ta_server : string;
  ta_balance : Q;
  ta_equity : Q;
  ta_margin : Q;
  ta_margin_free : Q;
  ta_margin_level : Q;
  ta_currency : string;
  ta_leverage : Z;
  ta_profit : Q;
  ta_company : string;
  ta_name : string;
  ta_server_time : Z
}.

(** The package as the client sees it.  [fromtimestamp] is
    [datetime.fromtimestamp], the conversion to local time; [None]
    stands for the exception it raises on a time it cannot convert. *)
Record ClientTerminal := {
  SYMBOL_TRADE_MODE_FULL : Z;
  mt5_initialize : bool;
  mt5_login : bool;
  mt5_symbol_info : string -> option TerminalSymbol;
  mt5_account_info : option TerminalAccount;
  mt5_symbol_select : string -> bool;
  fromtimestamp : Z -> option Z
}.

(** A value of [symbols_cache]: the dictionary with the keys [info] and
    [timestamp]. *)
Record CacheEntry := {
  entry_info : SymbolInfo;
  entry_timestamp : Z
}.

Record ClientState := {
  is_connected : bool;
  last_heartbeat : option Z;
  symbols_cache : gmap string CacheEntry;
  client_account_info : option TerminalAccount
}.

(** [MT5Client.__init__]. *)
Definition init_client : ClientState :=
  {| is_connected := false; last_heartbeat := None; symbols_cache := ∅;
     client_account_info := None |}.

(** [timedelta(minutes=m)] in microseconds. *)
Definition timedelta_minutes (m : Z) : Z := (m * 60 * 1000000)%Z.

(** [initialize]: [now] is the reading stored as [last_heartbeat]. *)
Definition client_initialize (t : ClientTerminal) (now : Z) (self : ClientState)
    : bool * ClientState :=
  if negb (mt5_initialize t) then (false, self)
  else if negb (mt5_login t) then (false, self)
  else
    match mt5_account_info t with
    | None => (false, self)
    | Some account_info =>
        (true,
         {| is_connected := true;
            last_heartbeat := Some now;
            symbols_cache := symbols_cache self;
            client_account_info := Some account_info |})
    end.

Definition client_heartbeat (t : ClientTerminal) (now : Z) (self : ClientState)
    : bool * ClientState :=
  if negb (is_connected self) then (false, self)
  else
    match mt5_account_info t with
    | None =>
        (false,
         {| is_connected := false;
            last_heartbeat := last_heartbeat self;
            symbols_cache := symbols_cache self;
            client_account_info := client_account_info self |})
    | Some account_info =>
        (true,
         {| is_connected := true;
            last_heartbeat := Some now;
            symbols_cache := symbols_cache self;
            client_account_info := Some account_info |})
    end.

(** The [SymbolInfo] built from the terminal's answer.  The source stores
    the integer [trade_mode & SYMBOL_TRADE_MODE_FULL] in the field typed
    [bool]; the field here is its truth value. *)
Definition symbol_info_of (t : ClientTerminal) (sym : string)
    (symbol_info : TerminalSymbol) : SymbolInfo :=
  {| name := sym;
     digits := ts_digits symbol_info;
     point := ts_point symbol_info;
     tick_value := ts_trade_tick_value symbol_info;
     contract_size := ts_trade_contract_size symbol_info;
     margin_required := ts_margin_required symbol_info;
     spread := ts_spread symbol_info;
     is_trade_allowed :=
       negb (Z.land (ts_trade_mode symbol_info) (SYMBOL_TRADE_MODE_FULL t) =? 0)%Z |}.

(** [get_symbol_info]: [now_check] is the reading compared with a cached
    timestamp, [now_store] the one stamped on a new cache entry. *)
Definition client_get_symbol_info (t : ClientTerminal) (now_check now_store : Z)
    (self : ClientState) (sym : string) : option SymbolInfo * ClientState :=
  let fetch :=
    match mt5_symbol_info t sym with
    | None => (None, self)
    | Some symbol_info =>
        let info := symbol_info_of t sym symbol_info in
        (Some info,
         {| is_connected := is_connected self;
            last_heartbeat := last_heartbeat self;
            symbols_cache :=
              <[sym := {| entry_info := info; entry_timestamp := now_store |}]>
                (symbols_cache self);
            client_account_info := client_account_info self |})
    end in
  match symbols_cache self !! sym with
  | Some cached_info =>
      if (now_check - entry_timestamp cached_info <? timedelta_minutes 5)%Z
      then (Some (entry_info cached_info), self)
      else fetch
  | None => fetch
  end.

Definition client_subscribe_symbol (t : ClientTerminal) (self : ClientState)
    (sym : string) : bool :=
  mt5_symbol_select t sym.

(** [get_account_info]: the dictionary built from the account the
    heartbeat has just stored.  When the conversion of the server time
    raises, the handler returns [None]; the heartbeat has been recorded
    by then. *)
Definition client_get_account_info (t : ClientTerminal) (now : Z)
    (self : ClientState) : option AccountInfo * ClientState :=
  let (alive, self) := client_heartbeat t now self in
  if negb alive then (None, self)
  else
    match client_account_info self with
    | None => (None, self)
    | Some account =>
        match fromtimestamp t (ta_server_time account) with
        | None => (None, self)
        | Some time =>
            (Some {| login := ta_login account;
                     server := ta_server account;
                     balance := ta_balance account;
                     equity := ta_equity account;
                     margin := ta_margin account;
                     free_margin := ta_margin_free account;
                     margin_level := ta_margin_level account;
                     currency := ta_currency account;
                     leverage := ta_leverage account;
                     profit := ta_profit account;
                     company := ta_company account;
                     account_name := ta_name account;
                     server_time := time |},
             self)
        end
    end.

(** One call on the client, and the client after a list of calls, each
    against the terminal of its moment. *)
Inductive ClientCall :=
| Heartbeat (t : ClientTerminal) (now : Z)
| GetAccountInfo (t : ClientTerminal) (now : Z)
| GetSymbolInfo (t : ClientTerminal) (now_check now_store : Z) (sym : string)
| SubscribeSymbol (t : ClientTerminal) (sym : string).

Definition client_step (self : ClientState) (c : ClientCall) : ClientState :=
  match c with
  | Heartbeat t now => (client_heartbeat t now self).2
  | GetAccountInfo t now => (client_get_account_info t now self).2
  | GetSymbolInfo t now_check now_store sym =>
      (client_get_symbol_info t now_check now_store self sym).2
  | SubscribeSymbol _ _ => self
  end.

Definition client_run (self : ClientState) (cs : list ClientCall) : ClientState :=
  fold_left client_step cs self.

(** ** [AccountManager]: risk metrics and history ([app/mt5/account.py]) *)

(** The texts appended to [warnings]. *)
Inductive RiskWarning :=
| MarginLevelBelow200   (* Margin Level unter 200% *)
| MarginCallRisk        (* Margin Call Risiko *)
| LowFreeMargin.        (* Niedrige freie Margin *)

(** The dictionary [get_risk_metrics] returns. *)
Record RiskMetrics := {
  rm_balance : Q;
  rm_equity : Q;
  rm_margin : Q;
  rm_free_margin : Q;
  rm_margin_level : Q;
  rm_profit : Q;
  rm_profit_percent : Q;
  rm_margin_used_percent : Q;
  rm_currency : string;
  rm_leverage : Z;
  rm_server_time : Z;
  rm_warnings : list RiskWarning
}.

(** [get_risk_metrics] in exact arithmetic. *)
Definition get_risk_metrics (mt5_client : MT5Client) : option RiskMetrics :=
  match get_account_summary mt5_client with
  | None => None
  | Some account_summary =>
      let warnings := [] in
      let warnings :=
        if Py.ltb (margin_level account_summary) 200
        then warnings ++ [MarginLevelBelow200] else warnings in
      let warnings :=
        if Py.ltb (margin_level account_summary) 100
        then warnings ++ [MarginCallRisk] else warnings in
      let warnings :=
        if Py.ltb (free_margin account_summary) (balance account_summary * 0.1)
        then warnings ++ [LowFreeMargin] else warnings in
      Some {| rm_balance := balance account_summary;
              rm_equity := equity account_summary;
              rm_margin := margin account_summary;
              rm_free_margin := free_margin account_summary;
              rm_margin_level := margin_level account_summary;
              rm_profit := profit account_summary;
              rm_profit_percent :=
                if Py.ltb 0 (balance account_summary)
                then profit account_summary / balance account_summary * 100
                else 0;
              rm_margin_used_percent :=
                if Py.ltb 0 (equity account_summary)
                then margin account_summary / equity account_summary * 100
                else 0;
              rm_currency := currency account_summary;
              rm_leverage := leverage account_summary;
              rm_server_time := server_time account_summary;
              rm_warnings := warnings |}
  end.

(** The same body with the float operations written out: the threshold
    of the third warning is the rounded product of the balance and the
    literal [0.1], the percentages multiply a rounded quotient by the
    [int] 100.  The comparisons with [200], [100] and [0] are exact. *)
Definition get_risk_metrics_fp (fp : Fp.arith) (mt5_client : MT5Client)
    : option RiskMetrics :=
  match get_account_summary mt5_client with
  | None => None
  | Some account_summary =>
      let warnings := [] in
      let warnings :=
        if Py.ltb (margin_level account_summary) 200
        then warnings ++ [MarginLevelBelow200] else warnings in
      let warnings :=
        if Py.ltb (margin_level account_summary) 100
        then warnings ++ [MarginCallRisk] else warnings in
      let warnings :=
        if Py.ltb (free_margin account_summary)
             (Fp.mul fp (balance account_summary) (Fp.lit fp 0.1))
        then warnings ++ [LowFreeMargin] else warnings in
      Some {| rm_balance := balance account_summary;
              rm_equity := equity account_summary;
              rm_margin := margin account_summary;
              rm_free_margin := free_margin account_summary;
              rm_margin_level := margin_level account_summary;
              rm_profit := profit account_summary;
              rm_profit_percent :=
                if Py.ltb 0 (balance account_summary)
                then Fp.mul fp
                       (Fp.div fp (profit account_summary)
                          (balance account_summary))
                       (Fp.of_int fp 100)
                else 0;
              rm_margin_used_percent :=
                if Py.ltb 0 (equity account_summary)
                then Fp.mul fp
                       (Fp.div fp (margin account_summary)
                          (equity account_summary))
                       (Fp.of_int fp 100)
                else 0;
              rm_currency := currency account_summary;
              rm_leverage := leverage account_summary;
              rm_server_time := server_time account_summary;
              rm_warnings := warnings |}
  end.

(** *** Dates

    A [datetime] with its fields, for the code that reads and replaces
    them. *)
Record DateTime := {
  dt_year : Z;
  dt_month : Z;
  dt_day : Z;
  dt_hour : Z;
  dt_minute : Z;
  dt_second : Z;
  dt_microsecond : Z
}.

Definition is_leap (year : Z) : bool :=
  ((year mod 4 =? 0) && (negb (year mod 100 =? 0) || (year mod 400 =? 0)))%Z.

Definition days_in_month (year month : Z) : Z :=
  if (month =? 2)%Z then (if is_leap year then 29 else 28)%Z
  else if ((month =? 4) || (month =? 6) || (month =? 9) || (month =? 11))%Z
       then 30%Z
  else 31%Z.

(** [d.replace(hour=0, minute=0, second=0, microsecond=0)]. *)
Definition at_midnight (d : DateTime) : DateTime :=
  {| dt_year := dt_year d; dt_month := dt_month d; dt_day := dt_day d;
     dt_hour := 0; dt_minute := 0; dt_second := 0; dt_microsecond := 0 |}.

(** [d.replace(day=day)]: [None] is the [ValueError] of a day that the
    month does not have. *)
Definition replace_day (d : DateTime) (day : Z) : option DateTime :=
  if ((1 <=? day) && (day <=? days_in_month (dt_year d) (dt_month d)))%Z then
    Some {| dt_year := dt_year d; dt_month := dt_month d; dt_day := day;
            dt_hour := dt_hour d; dt_minute := dt_minute d;
            dt_second := dt_second d; dt_microsecond := dt_microsecond d |}
  else None.

(** *** [sorted(history, key=..., reverse=True)]

    Python's sort is stable, also when reversed: of two entries with the
    same key the one that came first stays first.  [insert_desc] puts an
    entry before the first one whose key is not larger. *)
Fixpoint insert_desc {A : Type} (key : A -> Z) (x : A) (l : list A) : list A :=
  match l with
  | [] => [x]
  | y :: rest =>
      if (key y <=? key x)%Z then x :: y :: rest
      else y :: insert_desc key x rest
  end.

Fixpoint sorted_reverse {A : Type} (key : A -> Z) (l : list A) : list A :=
  match l with
  | [] => []
  | x :: rest => insert_desc key x (sorted_reverse key rest)
  end.

(** *** [get_trading_history] and [get_order_history] *)

(** An element of what [mt5.history_deals_get] returns. *)
Record Deal := {
  deal_ticket : Z;
  deal_order : Z;
  deal_symbol : string;
  deal_type : Z;
  deal_volume : Q;
  deal_price : Q;
  deal_profit : Q;
  deal_swap : Q;
  deal_commission : Q;
  deal_comment : string;
  deal_magic : Z;
  deal_time : Z
}.

(** An element of what [mt5.history_orders_get] returns. *)
Record HistoryOrder := {
  ho_ticket : Z;
  ho_symbol : string;
  ho_type : Z;
  ho_volume : Q;
  ho_price_open : Q;
  ho_price_current : Q;
  ho_sl : Q;
  ho_tp : Q;
  ho_state : Z;
  ho_comment : string;
  ho_magic : Z;
  ho_time_setup : Z;
  ho_time_done : Z
}.

(** The package as the history functions see it.  [local_time] is
    [datetime.fromtimestamp]; [None] stands for the exception it raises
    on a time it cannot convert. *)
Record HistoryTerminal := {
  DEAL_TYPE_BUY : Z;
  ORDER_TYPE_BUY_code : Z;
  history_deals_get : DateTime -> DateTime -> option (list Deal);
  history_orders_get : DateTime -> DateTime -> option (list HistoryOrder);
  local_time : Z -> option Z
}.

Inductive BuySell := buy | sell.

(** The dictionaries of the two histories. *)
Record DealEntry := {
  de_ticket : Z;
  de_order : Z;
  de_symbol : string;
  de_type : BuySell;
  de_volume : Q;
  de_price : Q;
  de_profit : Q;
  de_swap : Q;
  de_commission : Q;
  de_comment : string;
  de_magic : Z;
  de_time : Z
}.

Record OrderEntry := {
  oe_ticket : Z;
  oe_symbol : string;
  oe_type : BuySell;
  oe_volume : Q;
  oe_price_open : Q;
  oe_price_current : Q;
  oe_sl : Q;
  oe_tp : Q;
  oe_state : Z;
  oe_comment : string;
  oe_magic : Z;
  oe_time_setup : Z;
  oe_time_done : option Z
}.

(** The dictionary appended for one deal; [None] when the conversion of
    its time raises. *)
Definition deal_entry (t : HistoryTerminal) (deal : Deal) : option DealEntry :=
  match local_time t (deal_time deal) with
  | None => None
  | Some time =>
      Some {| de_ticket := deal_ticket deal;
              de_order := deal_order deal;
              de_symbol := deal_symbol deal;
              de_type :=
                if (deal_type deal =? DEAL_TYPE_BUY t)%Z then buy else sell;
              de_volume := deal_volume deal;
              de_price := deal_price deal;
              de_profit := deal_profit deal;
              de_swap := deal_swap deal;
              de_commission := deal_commission deal;
              de_comment := deal_comment deal;
              de_magic := deal_magic deal;
              de_time := time |}
  end.

(** The dictionary appended for one order.  [time_setup] is always
    converted, [time_done] only when it is positive; [None] when a
    conversion raises. *)
Definition order_entry (t : HistoryTerminal) (order : HistoryOrder)
    : option OrderEntry :=
  match local_time t (ho_time_setup order) with
  | None => None
  | Some time_setup =>
      let entry time_done :=
        {| oe_ticket := ho_ticket order;
           oe_symbol := ho_symbol order;
           oe_type :=
             if (ho_type order =? ORDER_TYPE_BUY_code t)%Z then buy else sell;
           oe_volume := ho_volume order;
           oe_price_open := ho_price_open order;
           oe_price_current := ho_price_current order;
           oe_sl := ho_sl order;
           oe_tp := ho_tp order;
           oe_state := ho_state order;
           oe_comment := ho_comment order;
           oe_magic := ho_magic order;
           oe_time_setup := time_setup;
           oe_time_done := time_done |} in
      if (0 <? ho_time_done order)%Z then
        match local_time t (ho_time_done order) with
        | None => None
        | Some time_done => Some (entry (Some time_done))
        end
      else Some (entry None)
  end.

(** [now1] and [now2] are the two readings of [datetime.now()]: the day
    the range starts from and the end of the range.  The loop that builds
    [history] runs inside the [try]: when one conversion raises, the
    handler returns the empty list for the whole history. *)
Definition get_trading_history (t : HistoryTerminal) (now1 now2 : DateTime)
    (days : Z) : list DealEntry :=
  let from_date := at_midnight now1 in
  match replace_day from_date (dt_day from_date - days) with
  | None => []
  | Some from_date =>
      match history_deals_get t from_date now2 with
      | None => []
      | Some deals =>
          match mapM (deal_entry t) deals with
          | None => []
          | Some history => sorted_reverse de_time history
          end
      end
  end.

Definition get_order_history (t : HistoryTerminal) (now1 now2 : DateTime)
    (days : Z) : list OrderEntry :=
  let from_date := at_midnight now1 in
  match replace_day from_date (dt_day from_date - days) with
  | None => []
  | Some from_date =>
      match history_orders_get t from_date now2 with
      | None => []
      | Some orders =>
          match mapM (order_entry t) orders with
          | None => []
          | Some history => sorted_reverse oe_time_setup history
          end
      end
  end.

(** ** The direct-order route ([app/api/routes.py], [post_order]) *)

(** [OrderRequest] of [app/api/schemas.py]: the fields of the request
    body.  The bounds the schema puts on them are [order_request_valid]. *)
Record OrderRequest := {
  or_symbol : string;
  or_side : OrderSide;
  or_type : OrderType;
  or_volume : Q;
  or_price : option Q;
  or_sl : option Q;
  or_tp : option Q;
  or_comment : string;
  or_magic_number : Z
}.

(** [Field(None, gt=0)] on an [Optional[float]]. *)
Definition optional_gt_0 (o : option Q) : bool :=
  match o with
  | None => true
  | Some x => Py.ltb 0 x
  end.

(** The [Field] bounds of [OrderRequest]; a body that breaks one makes
    the constructor raise, which [post_order] answers with HTTP 400
    before it builds a signal. *)
Definition order_request_valid (order_data : OrderRequest) : bool :=
  (3 <=? String.length (or_symbol order_data))%nat
  && (String.length (or_symbol order_data) <=? 20)%nat
  && Py.ltb 0 (or_volume order_data)
  && Qle_bool (or_volume order_data) 100
  && optional_gt_0 (or_price order_data)
  && optional_gt_0 (or_sl order_data)
  && optional_gt_0 (or_tp order_data)
  && (String.length (or_comment order_data) <=? 100)%nat
  && (0 <=? or_magic_number order_data)%Z
  && (or_magic_number order_data <=? 999999)%Z.

(** Lines 141-155, "Signal erstellen": the signal [post_order] hands to
    [execute_signal].  [RiskConfig(percent=0.0)] takes the defaults of the
    dataclass for its other fields. *)
Definition direct_order_signal (order_data : OrderRequest) : TradingSignal :=
  {| strategy := "direct_order";
     symbol := or_symbol order_data;
     side := or_side order_data;
     order_type := or_type order_data;
     risk := {| percent := 0; fixed_amount := None; max_risk_per_trade := 2 |};
     sl := {| sl_pips := None; sl_price_cfg := or_sl order_data;
              atr_multiplier := None |};
     tp := {| tp_pips := None; tp_price_cfg := or_tp order_data;
              risk_reward_ratio := None |};
     price := or_price order_data;
     comment := or_comment order_data;
     idempotency_key := EmptyString;
     magic_number := or_magic_number order_data |}.

(** ** The test double [MockTradingEngine] ([app/mt5/mock.py]) *)

(** [MockTradingEngine.calculate_lot_size]; the mock client offers the
    same methods as [MT5Client]. *)
Definition mock_calculate_lot_size (mock_client : MT5Client) (sym : string)
    (risk_config : RiskConfig) (sl_points : Q) : option Q :=
  match get_symbol_info mock_client sym with
  | None => None
  | Some symbol_info =>
    match get_account_info mock_client with
    | None => None
    | Some account_info =>
      let bal := balance account_info in
      let risk_amount := bal * (percent risk_config / 100) in
      let point_value := tick_value symbol_info * contract_size symbol_info in
      let loss_per_lot := sl_points * point symbol_info * point_value in
      if Qle_bool loss_per_lot 0 then None
      else
        let lot_size := risk_amount / loss_per_lot in
        let lot_size := Py.max lot_size 0.01 in
        let lot_size := Py.min lot_size 100 in
        Some (inject_Z (Py.round (lot_size / 0.01)) * 0.01)
    end
  end.

(** [MockTradingEngine.validate_idempotency]: the mock's cache and the
    verdict; it stamps the key and never sweeps. *)
Definition mock_validate_idempotency (cache : gmap string Z) (now : Z)
    (key : string) : bool * gmap string Z :=
  if decide (key = EmptyString) then (true, cache)
  else
    match cache !! key with
    | Some _ => (false, cache)
    | None => (true, <[key := now]> cache)
    end.

(** One call of the guard, offered to the engine and to the mock alike. *)
Record GuardCall := {
  gc_key : string;
  gc_now1 : Z;
  gc_now2 : Z
}.

Definition guard_run (self : TradingEngine) (gs : list GuardCall) : TradingEngine :=
  fold_left
    (fun e g => (validate_idempotency e (gc_now1 g) (gc_now2 g) (gc_key g)).2)
    gs self.

Definition mock_guard_run (cache : gmap string Z) (gs : list GuardCall)
    : gmap string Z :=
  fold_left (fun c g => (mock_validate_idempotency c (gc_now1 g) (gc_key g)).2)
            gs cache.
(** ** Concrete worlds used by the examples *)

Module Sample.

(** The defaults of [Config] in [app/config.py]. *)
Definition default_config : Config :=
  {| MIN_LOT_SIZE := 0.01; MAX_LOT_SIZE := 100; LOT_STEP := 0.01;
     STOP_LEVEL_PIPS := 5 |}.

Definition eurusd : SymbolInfo :=
  {| name := "EURUSD"; digits := 5; point := 0.00001; tick_value := 1;
     contract_size := 100000; margin_required := 1000; spread := 10;
     is_trade_allowed := true |}.

(** An account with a balance of 10000 of which 4000 is free margin. *)
Definition account : AccountInfo :=
  {| login := 123456; server := "Demo-Server"; balance := 10000;
     equity := 10000; margin := 6000; free_margin := 4000;
     margin_level := 166; currency := "USD"; leverage := 100;
     profit := 0; company := "Demo"; account_name := "Demo";
     server_time := 0 |}.

Definition client : MT5Client :=
  {| get_symbol_info := fun s => if String.eqb s "EURUSD" then Some eurusd else None;
     get_account_info := Some account;
     subscribe_symbol := fun s => String.eqb s "EURUSD" |}.

(** [datetime.fromtimestamp] in a zone without offset: seconds from the
    epoch up to the end of the year 9999 become microseconds, anything
    else raises. *)
Definition utc_fromtimestamp (seconds : Z) : option Z :=
  if ((0 <=? seconds) && (seconds <? 253402300800))%Z
  then Some (seconds * 1000000)%Z else None.

(** A terminal that quotes EURUSD at 1.0999/1.1000 and answers every
    request with the return code [answer]. *)
Definition terminal (answer : Z) : MetaTrader5 :=
  {| TRADE_RETCODE_DONE := 10009;
     POSITION_TYPE_BUY := 0;
     SYMBOL_CALC_MODE_FOREX := 0;
     SYMBOL_CALC_MODE_FUTURES := 1;
     symbol_info := fun s =>
       if String.eqb s "EURUSD" then
         Some {| mt5_margin_required := 1000; mt5_margin_mode := 0;
                 mt5_margin_currency := "USD"; mt5_margin_rate := 1;
                 trade_contract_size := 100000 |}
       else None;
     symbol_info_tick := fun s =>
       if String.eqb s "EURUSD" then Some {| bid := 1.0999; ask := 1.1 |}
       else None;
     positions_get := fun ticket =>
       Some [ {| pos_ticket := ticket; pos_symbol := "EURUSD"; pos_type := 0;
                 pos_volume := 0.5; pos_sl := 1.0950; pos_tp := 1.1100;
                 pos_magic := 7 |} ];
     order_send := fun request =>
       Some {| retcode := answer; res_order := 1001; res_position := 1001;
               res_price := Py.or_else (req_price request) 0;
               res_comment := "done"; res_time := 0 |};
     datetime_fromtimestamp := utc_fromtimestamp |}.

(** A BUY signal risking 1 % with a 20 point stop and a 40 point target. *)
Definition signal (key : string) : TradingSignal :=
  {| strategy := "demo"; symbol := "EURUSD"; side := BUY;
     order_type := MARKET;
     risk := {| percent := 1; fixed_amount := None; max_risk_per_trade := 2 |};
     sl := {| sl_pips := Some 20%Z; sl_price_cfg := None; atr_multiplier := None |};
     tp := {| tp_pips := Some 40%Z; tp_price_cfg := None; risk_reward_ratio := None |};
     price := None; comment := "demo"; idempotency_key := key;
     magic_number := 7 |}.

(** A call of [signal key] at [seconds] after the epoch, both clock
    readings equal, against a terminal that fills the order. *)
Definition call_at (seconds : Z) (key : string) : Call :=
  {| call_mt5 := terminal 10009; call_client := client;
     call_now1 := seconds * 1000000; call_now2 := seconds * 1000000;
     call_signal := signal key |}.

End Sample.

(** ** The sizing rule in the words of the specification

    Section 4.2: the fixed amount if present, else the percentage of the
    balance; capped; divided by the loss per lot; clamped to the lot
    limits; rounded to the nearest multiple of the lot step, a tie going
    up. *)

Module Spec.

Definition round_half_up (x : Q) : Z := Qfloor (x + (1 # 2)).

Definition Size (symbol_metadata : SymbolInfo) (risk_spec : RiskConfig)
    (account_snapshot : AccountInfo) (stop_distance_in_points : Q)
    (config_limits : Config) : Q :=
  let risk_amount :=
    match fixed_amount risk_spec with
    | Some fixed => fixed
    | None => balance account_snapshot * percent risk_spec / 100
    end in
  let risk_amount :=
    Qmin risk_amount
         (balance account_snapshot * max_risk_per_trade risk_spec / 100) in
  let monetary_value_per_point_per_lot :=
    tick_value symbol_metadata * contract_size symbol_metadata in
  let loss_per_lot :=
    stop_distance_in_points * point symbol_metadata
    * monetary_value_per_point_per_lot in
  let lot := risk_amount / loss_per_lot in
  let lot := Qmin (Qmax lot (MIN_LOT_SIZE config_limits))
                  (MAX_LOT_SIZE config_limits) in
  inject_Z (round_half_up (lot / LOT_STEP config_limits))
  * LOT_STEP config_limits.

End Spec.

(** ** Proof automation *)

(** Walks through the stages of [execute_signal] in the goal: one subgoal
    for each place where the call can return. *)
Ltac execute_signal_stages mt5 mt5_client signal :=
  unfold execute_signal;
  let admitted := fresh "admitted" in
  let self' := fresh "self'" in
  match goal with
  | |- context [validate_idempotency ?e ?n1 ?n2 ?k] =>
      destruct (validate_idempotency e n1 n2 k) as [admitted self'] eqn:?
  end;
  destruct admitted; cbn [negb];
  [ destruct (subscribe_symbol mt5_client (symbol signal)) eqn:?; cbn [negb];
    [ destruct (get_symbol_info mt5_client (symbol signal)) eqn:?;
      [ destruct (symbol_info_tick mt5 (symbol signal)) eqn:?;
        [ match goal with
          | |- context [derive_sl_points ?s ?p ?i] =>
              destruct (derive_sl_points s p i) eqn:?
          end;
          [ match goal with
            | |- context [calculate_lot_size ?e ?c ?s ?r ?d] =>
                destruct (calculate_lot_size e c s r d) eqn:?
            end;
            [ match goal with
              | |- context [Py.truthy (Some ?l)] =>
                  destruct (Py.truthy (Some l)) eqn:?
              end; cbn [negb];
              [ match goal with
                | |- context [calculate_sl_tp_prices ?e ?c ?s ?d ?p ?a ?b] =>
                    destruct (calculate_sl_tp_prices e c s d p a b) eqn:?
                end;
                match goal with
                | |- context [order_send mt5 ?r] =>
                    destruct (order_send mt5 r) eqn:?
                end;
                [ match goal with
                  | |- context [(retcode ?res =? ?d)%Z] =>
                      destruct (retcode res =? d)%Z eqn:?
                  end; cbn [negb];
                  [ match goal with
                    | |- context [datetime_fromtimestamp mt5 ?s] =>
                        destruct (datetime_fromtimestamp mt5 s) eqn:?
                    end
                  | ]
                | ]
              | ]
            | cbn [Py.truthy Py.if_num negb] ]
          | ]
        | ]
      | ]
    | ]
  | ].

(** ** Further concrete worlds *)

Module World.

(** A symbol whose point size is zero, and a client that knows only it. *)
Definition flat : SymbolInfo :=
  {| name := "FLAT"; digits := 0; point := 0; tick_value := 1;
     contract_size := 1; margin_required := 0; spread := 0;
     is_trade_allowed := true |}.

Definition flat_client : MT5Client :=
  {| get_symbol_info := fun _ => Some flat;
     get_account_info := Some Sample.account;
     subscribe_symbol := fun _ => true |}.

(** The sample signal with its stop given as the price 1.09. *)
Definition price_stop_signal : TradingSignal :=
  {| strategy := "demo"; symbol := "EURUSD"; side := BUY; order_type := MARKET;
     risk := risk (Sample.signal "sig-1");
     sl := {| sl_pips := None; sl_price_cfg := Some 1.09; atr_multiplier := None |};
     tp := tp (Sample.signal "sig-1");
     price := None; comment := "demo"; idempotency_key := "sig-1";
     magic_number := 7 |}.

(** A direct order for 3 lots of EURUSD, with and without a stop. *)
Definition direct_order (stop : option Q) : OrderRequest :=
  {| or_symbol := "EURUSD"; or_side := BUY; or_type := MARKET; or_volume := 3;
     or_price := None; or_sl := stop; or_tp := None; or_comment := "direct";
     or_magic_number := 0 |}.

End World.

(** ** A terminal with three deals and a calendar day *)

Module Ledger.

Definition deal (ticket time : Z) : Deal :=
  {| deal_ticket := ticket; deal_order := ticket; deal_symbol := "EURUSD";
     deal_type := 0; deal_volume := 0.1; deal_price := 1.1; deal_profit := 0;
     deal_swap := 0; deal_commission := 0; deal_comment := "demo";
     deal_magic := 7; deal_time := time |}.

Definition terminal : HistoryTerminal :=
  {| DEAL_TYPE_BUY := 0;
     ORDER_TYPE_BUY_code := 0;
     history_deals_get := fun _ _ => Some [deal 1 100; deal 2 300; deal 3 200];
     history_orders_get := fun _ _ => Some [];
     local_time := Sample.utc_fromtimestamp |}.

(** Noon on a day of March 2024. *)
Definition march (day : Z) : DateTime :=
  {| dt_year := 2024; dt_month := 3; dt_day := day; dt_hour := 12;
     dt_minute := 0; dt_second := 0; dt_microsecond := 0 |}.

End Ledger.

(** ** Terminals as the client sees them *)

Module Desk.

Definition eurusd_raw : TerminalSymbol :=
  {| ts_digits := 5; ts_point := 0.00001; ts_trade_tick_value := 1;
     ts_trade_contract_size := 100000; ts_margin_required := 1000;
     ts_spread := 10; ts_trade_mode := 4 |}.

Definition account_raw : TerminalAccount :=
  {| ta_login := 123456; ta_server := "Demo-Server"; ta_balance := 10000;
     ta_equity := 10000; ta_margin := 6000; ta_margin_free := 4000;
     ta_margin_level := 166; ta_currency := "USD"; ta_leverage := 100;
     ta_profit := 0; ta_company := "Demo"; ta_name := "Demo";
     ta_server_time := 0 |}.

(** A terminal in working order. *)
Definition up : ClientTerminal :=
  {| SYMBOL_TRADE_MODE_FULL := 4; mt5_initialize := true; mt5_login := true;
     mt5_symbol_info := fun s => if String.eqb s "EURUSD" then Some eurusd_raw else None;
     mt5_account_info := Some account_raw;
     mt5_symbol_select := fun s => String.eqb s "EURUSD";
     fromtimestamp := Sample.utc_fromtimestamp |}.

(** A terminal that answers nothing. *)
Definition down : ClientTerminal :=
  {| SYMBOL_TRADE_MODE_FULL := 4; mt5_initialize := false; mt5_login := false;
     mt5_symbol_info := fun _ => None;
     mt5_account_info := None;
     mt5_symbol_select := fun _ => false;
     fromtimestamp := Sample.utc_fromtimestamp |}.

(** The client after a successful [initialize] at time 0. *)
Definition connected : ClientState := (client_initialize up 0 init_client).2.

End Desk.

(** ** Worlds whose numbers are doubles *)

Module Doubles.

(** The double a decimal literal denotes. *)
Definition float (literal : Q) : Q := Fp.lit Fp.binary64 literal.

(** The default limits as the doubles [0.01], [100.0] and [0.01]. *)
Definition default_config : Config :=
  {| MIN_LOT_SIZE := float 0.01; MAX_LOT_SIZE := 100; LOT_STEP := float 0.01;
     STOP_LEVEL_PIPS := 5 |}.

Definition eurusd : SymbolInfo :=
  {| name := "EURUSD"; digits := 5; point := float 0.00001; tick_value := 1;
     contract_size := 100000; margin_required := 1000; spread := 10;
     is_trade_allowed := true |}.

(** An account with the given balance, free margin and leverage. *)
Definition account (bal free : Q) (lev : Z) : AccountInfo :=
  {| login := 123456; server := "Demo-Server"; balance := bal;
     equity := bal; margin := 0; free_margin := free;
     margin_level := 1000; currency := "USD"; leverage := lev;
     profit := 0; company := "Demo"; account_name := "Demo";
     server_time := 0 |}.

Definition client (acc : AccountInfo) : MT5Client :=
  {| get_symbol_info := fun s => if String.eqb s "EURUSD" then Some eurusd else None;
     get_account_info := Some acc;
     subscribe_symbol := fun s => String.eqb s "EURUSD" |}.

(** A risk of [pct] percent of the balance, capped at 2 percent. *)
Definition percent_risk (pct : Q) : RiskConfig :=
  {| percent := pct; fixed_amount := None; max_risk_per_trade := 2 |}.

End Doubles.
(** * Properties *)

(** ** The idempotency guard *)

Lemma validate_idempotency_known (self : TradingEngine) (now1 now2 : Z)
    (key : string) (t : Z) :
  key ≠ EmptyString ->
  idempotency_cache self !! key = Some t ->
  validate_idempotency self now1 now2 key = (false, self).
Proof.
  intros Hne Hin. unfold validate_idempotency.
  destruct (decide (key = EmptyString)) as [->|_]; [congruence|].
  now rewrite Hin.
Qed.

Lemma validate_idempotency_fresh (self : TradingEngine) (now1 now2 : Z)
    (key : string) :
  key ≠ EmptyString ->
  idempotency_cache self !! key = None ->
  validate_idempotency self now1 now2 key =
    (true,
     set_cache self
       (filter (λ kv, (now2 - Py.timedelta_seconds (idempotency_ttl self) < kv.2)%Z)
               (<[key := now1]> (idempotency_cache self)))).
Proof.
  intros Hne Hout. unfold validate_idempotency.
  destruct (decide (key = EmptyString)) as [->|_]; [congruence|].
  now rewrite Hout.
Qed.

Lemma validate_idempotency_ttl (self : TradingEngine) (now1 now2 : Z)
    (key : string) :
  idempotency_ttl (validate_idempotency self now1 now2 key).2
  = idempotency_ttl self.
Proof.
  unfold validate_idempotency.
  destruct (decide (key = EmptyString)); [reflexivity|].
  destruct (idempotency_cache self !! key); reflexivity.
Qed.

(** A record younger than the retention window at the sweep survives
    any call of the guard, with its stamp. *)
Lemma validate_idempotency_keeps (self : TradingEngine) (now1 now2 : Z)
    (key k : string) (t : Z) :
  idempotency_cache self !! k = Some t ->
  (now2 - Py.timedelta_seconds (idempotency_ttl self) < t)%Z ->
  idempotency_cache (validate_idempotency self now1 now2 key).2 !! k = Some t.
Proof.
  intros Hk Hyoung. unfold validate_idempotency.
  destruct (decide (key = EmptyString)); [exact Hk|].
  destruct (idempotency_cache self !! key) eqn:Hkey; [exact Hk|].
  cbn. apply map_lookup_filter_Some. split; [|exact Hyoung].
  rewrite lookup_insert_ne; [exact Hk|]. intros ->. congruence.
Qed.

(** A rejected key leaves the engine as it was. *)
Lemma validate_idempotency_rejected (self : TradingEngine) (now1 now2 : Z)
    (key : string) :
  (validate_idempotency self now1 now2 key).1 = false ->
  (validate_idempotency self now1 now2 key).2 = self.
Proof.
  unfold validate_idempotency.
  destruct (decide (key = EmptyString)); [discriminate|].
  destruct (idempotency_cache self !! key); [reflexivity|discriminate].
Qed.

(** An admitted non-empty key was not stored before. *)
Lemma validate_idempotency_admitted (self : TradingEngine) (now1 now2 : Z)
    (key : string) :
  key ≠ EmptyString ->
  (validate_idempotency self now1 now2 key).1 = true ->
  idempotency_cache self !! key = None.
Proof.
  intros Hne. unfold validate_idempotency.
  destruct (decide (key = EmptyString)); [congruence|].
  destruct (idempotency_cache self !! key); [discriminate|reflexivity].
Qed.

(** ** [execute_signal] and the guard *)

(** The only change a call makes to the engine is the guard's. *)
Lemma execute_signal_engine (mt5 : MetaTrader5) (mt5_client : MT5Client)
    (now1 now2 : Z) (self : TradingEngine) (signal : TradingSignal) :
  engine (execute_signal mt5 mt5_client now1 now2 self signal)
  = (validate_idempotency self now1 now2 (idempotency_key signal)).2.
Proof.
  unfold execute_signal.
  destruct (validate_idempotency self now1 now2 (idempotency_key signal))
    as [admitted self'].
  cbn [snd].
  destruct admitted; cbn [negb]; [|reflexivity].
  destruct (subscribe_symbol mt5_client (symbol signal)); cbn [negb]; [|reflexivity].
  destruct (get_symbol_info mt5_client (symbol signal)); [|reflexivity].
  destruct (symbol_info_tick mt5 (symbol signal)); [|reflexivity].
  destruct (derive_sl_points _ _ _); [|reflexivity].
  destruct (negb (Py.truthy _)); [reflexivity|].
  destruct (calculate_sl_tp_prices _ _ _ _ _ _ _).
  destruct (order_send mt5 _); [|reflexivity].
  destruct (negb _); [reflexivity|].
  destruct (datetime_fromtimestamp mt5 _); reflexivity.
Qed.

(** A key the guard rejects ends the call at once. *)
Lemma execute_signal_duplicate (mt5 : MetaTrader5) (mt5_client : MT5Client)
    (now1 now2 : Z) (self : TradingEngine) (signal : TradingSignal) :
  (validate_idempotency self now1 now2 (idempotency_key signal)).1 = false ->
  execute_signal mt5 mt5_client now1 now2 self signal
  = {| returned := failure KeyAlreadyUsed; engine := self; calls := [] |}.
Proof.
  intros Hrej. pose proof (validate_idempotency_rejected _ _ _ _ Hrej) as Hself.
  unfold execute_signal.
  destruct (validate_idempotency self now1 now2 (idempotency_key signal))
    as [admitted self'].
  cbn in Hrej, Hself. subst. reflexivity.
Qed.

(** Over a list of calls, a record keeps its stamp as long as every sweep
    finds it younger than the retention window. *)
Lemma run_keeps (calls : list Call) :
  forall (self : TradingEngine) (k : string) (t : Z),
    idempotency_cache self !! k = Some t ->
    Forall (fun c => (call_now2 c - Py.timedelta_seconds (idempotency_ttl self) < t)%Z)
           calls ->
    idempotency_cache (run self calls) !! k = Some t.
Proof.
  induction calls as [|c rest IH]; intros self k t Hk Hall; [exact Hk|].
  inversion Hall as [|? ? Hc Hrest]; subst. cbn [run].
  unfold step. apply IH.
  - rewrite execute_signal_engine. now apply validate_idempotency_keeps.
  - rewrite execute_signal_engine, validate_idempotency_ttl. exact Hrest.
Qed.

(** C9. For every state of the guard, admitting the empty key answers
    "admitted" and returns the engine, hence its record set, unchanged:
    nothing is inserted, removed or modified. *)
Theorem validate_idempotency_empty_key (self : TradingEngine) (now1 now2 : Z) :
  validate_idempotency self now1 now2 EmptyString = (true, self).
Proof. reflexivity. Qed.

(** C3, evaluated on the code.  A key admitted at time 0 and offered again
    two hours later, no other key having been admitted meanwhile, has a
    stored record older than the 3600 s window; the guard still rejects
    it and leaves the record as it was. *)
Theorem validate_idempotency_stale_record_rejected :
  let self := (validate_idempotency (init_engine Sample.default_config) 0 0 "sig-1").2 in
  let now := (7200 * 1000000)%Z in
  idempotency_cache self !! "sig-1" = Some 0%Z
  /\ (Py.timedelta_seconds (idempotency_ttl self) < now - 0)%Z
  /\ validate_idempotency self now now "sig-1" = (false, self).
Proof.
  cbv zeta. split; [|split].
  - vm_compute. reflexivity.
  - vm_compute. reflexivity.
  - apply validate_idempotency_known with (t := 0%Z); [discriminate|].
    vm_compute. reflexivity.
Qed.

(** C2 (amended).  Two calls carry the same non-empty key; the guard
    admitted the first; any calls may come between them; the clock does
    not run backwards, and at the second call the record is strictly
    younger than the retention window.  Then the second call returns the
    duplicate-key failure, makes no call on the terminal and leaves the
    engine unchanged, whatever the terminal answered to the first call. *)
Theorem execute_signal_duplicate_within_window
    (self : TradingEngine) (first : Call) (between : list Call) (second : Call) :
  idempotency_key (call_signal first) ≠ EmptyString ->
  idempotency_key (call_signal second) = idempotency_key (call_signal first) ->
  (validate_idempotency self (call_now1 first) (call_now2 first)
     (idempotency_key (call_signal first))).1 = true ->
  Forall (fun c => (call_now2 c <= call_now1 second)%Z) (first :: between) ->
  (call_now1 second - call_now1 first
   < Py.timedelta_seconds (idempotency_ttl self))%Z ->
  step (run self (first :: between)) second
  = {| returned := failure KeyAlreadyUsed;
       engine := run self (first :: between);
       calls := [] |}.
Proof.
  intros Hne Hsame Hadm Hclock Hage.
  set (key := idempotency_key (call_signal first)) in *.
  inversion Hclock as [|? ? Hfirst Hbetween]; subst.
  pose proof (validate_idempotency_admitted _ _ _ _ Hne Hadm) as Hfresh.
  assert (Hstored : idempotency_cache (engine (step self first)) !! key
                    = Some (call_now1 first)).
  { unfold step. rewrite execute_signal_engine. fold key.
    rewrite (validate_idempotency_fresh _ _ _ _ Hne Hfresh). cbn.
    apply map_lookup_filter_Some. split; [apply lookup_insert_eq|]. cbn. lia. }
  assert (Httl : idempotency_ttl (engine (step self first)) = idempotency_ttl self).
  { unfold step. now rewrite execute_signal_engine, validate_idempotency_ttl. }
  assert (Hkept : idempotency_cache (run self (first :: between)) !! key
                  = Some (call_now1 first)).
  { cbn [run]. apply run_keeps; [exact Hstored|]. rewrite Httl.
    eapply Forall_impl; [exact Hbetween|]. cbn. intros c Hc. lia. }
  unfold step at 1. apply execute_signal_duplicate. rewrite Hsame. fold key.
  now rewrite (validate_idempotency_known _ _ _ _ _ Hne Hkept).
Qed.

(** The theorem at work: key [sig-1] at 0 s, another key at 1800 s, key
    [sig-1] again at 3599 s. *)
Lemma execute_signal_duplicate_within_window_witness :
  let first := Sample.call_at 0 "sig-1" in
  let between := [Sample.call_at 1800 "sig-2"] in
  let second := Sample.call_at 3599 "sig-1" in
  let self := init_engine Sample.default_config in
  step (run self (first :: between)) second
  = {| returned := failure KeyAlreadyUsed;
       engine := run self (first :: between);
       calls := [] |}.
Proof.
  cbv zeta.
  apply (execute_signal_duplicate_within_window
           (init_engine Sample.default_config)
           (Sample.call_at 0 "sig-1") [Sample.call_at 1800 "sig-2"]
           (Sample.call_at 3599 "sig-1")).
  - discriminate.
  - reflexivity.
  - vm_compute. reflexivity.
  - repeat constructor; vm_compute; discriminate.
  - vm_compute. reflexivity.
Defined.

(** C2 as stated fails at the edge of the window.  Key [sig-1] is admitted
    at 0 s; key [sig-2] is admitted at 3600 s, and its sweep drops every
    record that is not strictly younger than 3600 s; key [sig-1] offered
    again at that same instant has a record of age 3600 s, within the
    window, and is admitted and submitted a second time. *)
Lemma execute_signal_duplicate_admitted_at_window_edge :
  let first := Sample.call_at 0 "sig-1" in
  let between := [Sample.call_at 3600 "sig-2"] in
  let second := Sample.call_at 3600 "sig-1" in
  let self := init_engine Sample.default_config in
  (validate_idempotency self (call_now1 first) (call_now2 first) "sig-1").1 = true
  /\ (call_now1 second - call_now1 first
      <= Py.timedelta_seconds (idempotency_ttl self))%Z
  /\ success (returned (step self first)) = true
  /\ success (returned (step (run self (first :: between)) second)) = true
  /\ length (orders (calls (step (run self (first :: between)) second))) = 1%nat.
Proof.
  cbv zeta. repeat split; vm_compute; try reflexivity; discriminate.
Qed.

(** ** Position sizing *)

Lemma py_min_Qmin (a b : Q) : Py.min a b == Qmin a b.
Proof.
  unfold Py.min, Py.ltb. destruct (Qle_bool a b) eqn:Hab; cbn.
  - apply Qle_bool_iff in Hab. symmetry. now apply Q.min_l.
  - assert (b <= a).
    { apply Qlt_le_weak, Qnot_le_lt. intros H.
      apply Qle_bool_iff in H. congruence. }
    symmetry. now apply Q.min_r.
Qed.

Lemma py_max_Qmax (a b : Q) : Py.max a b == Qmax a b.
Proof.
  unfold Py.max, Py.ltb. destruct (Qle_bool b a) eqn:Hba; cbn.
  - apply Qle_bool_iff in Hba. symmetry. now apply Q.max_l.
  - assert (a <= b).
    { apply Qlt_le_weak, Qnot_le_lt. intros H.
      apply Qle_bool_iff in H. congruence. }
    symmetry. now apply Q.max_r.
Qed.

Lemma py_div_nonzero (a b : Q) : ~ b == 0 -> Py.div a b = Some (a / b).
Proof.
  intros Hb. unfold Py.div. destruct (Qeq_bool b 0) eqn:E; [|reflexivity].
  apply Qeq_bool_iff in E. contradiction.
Qed.

(** [round] lands within one half of its argument... *)
Lemma py_round_nearest (x : Q) : Qabs (x - inject_Z (Py.round x)) <= 1 # 2.
Proof.
  unfold Py.round.
  pose proof (Qfloor_le x) as Hlo. pose proof (Qlt_floor x) as Hhi.
  rewrite inject_Z_plus in Hhi. change (inject_Z 1) with 1 in Hhi.
  apply Qabs_Qle_condition.
  destruct (Qcompare (x - inject_Z (Qfloor x)) (1 # 2)) eqn:C.
  - apply Qeq_alt in C.
    destruct (Z.even (Qfloor x));
      [|rewrite inject_Z_plus; change (inject_Z 1) with 1]; split; lra.
  - apply Qlt_alt in C. split; lra.
  - apply Qgt_alt in C. rewrite inject_Z_plus. change (inject_Z 1) with 1.
    split; lra.
Qed.

(** ... and on a tie it picks the even neighbour. *)
Lemma py_round_tie_even (x : Q) :
  Qabs (x - inject_Z (Py.round x)) == 1 # 2 -> Z.even (Py.round x) = true.
Proof.
  unfold Py.round.
  pose proof (Qfloor_le x) as Hlo. pose proof (Qlt_floor x) as Hhi.
  rewrite inject_Z_plus in Hhi. change (inject_Z 1) with 1 in Hhi.
  destruct (Qcompare (x - inject_Z (Qfloor x)) (1 # 2)) eqn:C.
  - intros _. destruct (Z.even (Qfloor x)) eqn:E; [exact E|].
    rewrite Z.even_add, E. reflexivity.
  - apply Qlt_alt in C. intros H.
    rewrite Qabs_pos in H by lra. lra.
  - apply Qgt_alt in C. rewrite inject_Z_plus. change (inject_Z 1) with 1.
    intros H. rewrite Qabs_neg in H by lra. lra.
Qed.

(** The exact-arithmetic functions are the [_fp] ones at [Fp.exact]. *)
Lemma calculate_lot_size_fp_exact (self : TradingEngine)
    (mt5_client : MT5Client) (sym : string) (risk_config : RiskConfig)
    (sl_points : Q) :
  calculate_lot_size_fp Fp.exact self mt5_client sym risk_config sl_points
  = calculate_lot_size self mt5_client sym risk_config sl_points.
Proof.
  unfold calculate_lot_size_fp, calculate_lot_size, Py.div.
  destruct (get_symbol_info mt5_client sym); [|reflexivity].
  destruct (get_account_info mt5_client); [|reflexivity].
  cbv zeta. destruct (Qle_bool _ 0); [reflexivity|].
  destruct (Qeq_bool (LOT_STEP (config self)) 0); reflexivity.
Qed.

(** C4 (amended).  With the symbol and the account available, a positive
    loss per lot and a non-zero lot step, [calculate_lot_size] returns a
    lot size, computed in float arithmetic: the risk amount is the fixed
    amount when that is present and not zero, else
    balance * (percent / 100), capped at
    balance * (max_risk_per_trade / 100); it is divided by the loss per
    lot and clamped to the configured limits.  The clamped lot is divided
    by the lot step, and that quotient, as computed, is rounded to the
    nearest whole number of steps, a tie going to the even number; the
    result is that number times the lot step.  The statement holds for
    every rounding of the float operations. *)
Theorem calculate_lot_size_formula
    (fp : Fp.arith) (self : TradingEngine) (mt5_client : MT5Client)
    (sym : string) (risk_config : RiskConfig) (sl_points : Q)
    (si : SymbolInfo) (acc : AccountInfo) :
  get_symbol_info mt5_client sym = Some si ->
  get_account_info mt5_client = Some acc ->
  let loss_per_lot :=
    Fp.mul fp (Fp.mul fp sl_points (point si))
      (Fp.mul fp (tick_value si) (contract_size si)) in
  0 < loss_per_lot ->
  ~ LOT_STEP (config self) == 0 ->
  let by_percent :=
    Fp.mul fp (balance acc)
      (Fp.div fp (percent risk_config) (Fp.of_int fp 100)) in
  let risk_amount :=
    Py.min (match fixed_amount risk_config with
            | Some fixed => if Qeq_bool fixed 0 then by_percent else fixed
            | None => by_percent
            end)
           (Fp.mul fp (balance acc)
              (Fp.div fp (max_risk_per_trade risk_config) (Fp.of_int fp 100))) in
  let clamped :=
    Py.min (Py.max (Fp.div fp risk_amount loss_per_lot)
                   (MIN_LOT_SIZE (config self)))
           (MAX_LOT_SIZE (config self)) in
  let quotient := Fp.div fp clamped (LOT_STEP (config self)) in
  exists (lot : Q) (steps : Z),
    calculate_lot_size_fp fp self mt5_client sym risk_config sl_points = Some lot
    /\ lot = Fp.mul fp (Fp.of_int fp steps) (LOT_STEP (config self))
    /\ Qabs (quotient - inject_Z steps) <= 1 # 2
    /\ (Qabs (quotient - inject_Z steps) == 1 # 2 -> Z.even steps = true).
Proof.
  intros Hsi Hacc loss_per_lot Hloss Hstep by_percent risk_amount clamped
    quotient.
  unfold calculate_lot_size_fp. rewrite Hsi, Hacc. cbv zeta.
  fold loss_per_lot. fold by_percent.
  assert (Hrisk : Py.if_num (fixed_amount risk_config) (fun fixed => fixed)
                    by_percent
                  = match fixed_amount risk_config with
                    | Some fixed => if Qeq_bool fixed 0 then by_percent else fixed
                    | None => by_percent
                    end).
  { unfold Py.if_num, Py.truthy_num.
    destruct (fixed_amount risk_config) as [fixed|]; [|reflexivity].
    destruct (Qeq_bool fixed 0); reflexivity. }
  rewrite Hrisk. fold risk_amount.
  destruct (Qle_bool loss_per_lot 0) eqn:Hle.
  { apply Qle_bool_iff in Hle. lra. }
  destruct (Qeq_bool (LOT_STEP (config self)) 0) eqn:Hzero.
  { apply Qeq_bool_iff in Hzero. contradiction. }
  fold clamped. fold quotient.
  exists (Fp.mul fp (Fp.of_int fp (Py.round quotient)) (LOT_STEP (config self))),
         (Py.round quotient).
  split; [reflexivity|]. split; [reflexivity|].
  split; [apply py_round_nearest|apply py_round_tie_even].
Qed.

(** The theorem in the arithmetic of doubles: a balance of 10000, a risk
    of 0.9 %, EURUSD and a stop of 16 points.  Without rounding the lot
    is 5.625, a tie between 562 and 563 steps; the quotient the doubles
    give lies above 562.5 and the lot size is 563 steps. *)
Lemma calculate_lot_size_formula_witness :
  exists (lot : Q) (steps : Z),
    calculate_lot_size_fp Fp.binary64 (init_engine Doubles.default_config)
      (Doubles.client (Doubles.account 10000 10000 100)) "EURUSD"
      (Doubles.percent_risk (Doubles.float 0.9)) 16 = Some lot
    /\ lot = Fp.mul Fp.binary64 (Fp.of_int Fp.binary64 steps)
               (LOT_STEP Doubles.default_config)
    /\ lot == Doubles.float 5.63.
Proof.
  destruct (calculate_lot_size_formula Fp.binary64
              (init_engine Doubles.default_config)
              (Doubles.client (Doubles.account 10000 10000 100)) "EURUSD"
              (Doubles.percent_risk (Doubles.float 0.9)) 16
              Doubles.eurusd (Doubles.account 10000 10000 100))
    as (lot & steps & Hlot & Hsteps & _).
  - reflexivity.
  - reflexivity.
  - vm_compute. reflexivity.
  - vm_compute. discriminate.
  - exists lot, steps. split; [exact Hlot|]. split; [exact Hsteps|].
    revert Hlot. vm_compute. intros H. injection H as <-. reflexivity.
Defined.

(** The specification's example (balance 10000, 1 %, a stop of 20
    points, the default limits) in the arithmetic of doubles: 5.0. *)
Example calculate_lot_size_example_doubles :
  match calculate_lot_size_fp Fp.binary64 (init_engine Doubles.default_config)
          (Doubles.client (Doubles.account 10000 10000 100)) "EURUSD"
          (Doubles.percent_risk 1) 20 with
  | Some lot => lot == 5
  | None => False
  end.
Proof. vm_compute. reflexivity. Qed.

(** The example of the specification evaluates to a lot size of 5. *)
Example calculate_lot_size_example :
  match calculate_lot_size (init_engine Sample.default_config) Sample.client
          "EURUSD" (risk (Sample.signal "sig-1")) 20 with
  | Some lot => lot == 5
  | None => False
  end.
Proof. vm_compute. reflexivity. Qed.

(** C4 as stated fails on a tie.  With a fixed risk amount of 2.5 in the
    same example the raw lot size is 0.125, that is 12.5 lot steps: the
    code rounds to 12 steps and returns 0.12, where rounding half up gives
    13 steps, 0.13. *)
Lemma calculate_lot_size_tie_not_rounded_up :
  let risk_config :=
    {| percent := 1; fixed_amount := Some 2.5; max_risk_per_trade := 2 |} in
  match calculate_lot_size (init_engine Sample.default_config) Sample.client
          "EURUSD" risk_config 20 with
  | Some lot =>
      lot == 0.12
      /\ Spec.Size Sample.eurusd risk_config Sample.account 20
           Sample.default_config == 0.13
  | None => False
  end.
Proof. vm_compute. split; reflexivity. Qed.

(** ** Stop and target resolution *)

Lemma truthy_num_true (x : Q) : ~ x == 0 -> Py.truthy_num x = true.
Proof.
  intros H. unfold Py.truthy_num. destruct (Qeq_bool x 0) eqn:E; [|reflexivity].
  apply Qeq_bool_iff in E. contradiction.
Qed.

Lemma truthy_num_false (x : Q) : x == 0 -> Py.truthy_num x = false.
Proof.
  intros H. unfold Py.truthy_num. apply Qeq_bool_iff in H. now rewrite H.
Qed.

Lemma ltb_true (a b : Q) : a < b -> Py.ltb a b = true.
Proof.
  intros H. unfold Py.ltb. destruct (Qle_bool b a) eqn:E; [|reflexivity].
  apply Qle_bool_iff in E. lra.
Qed.

Lemma ltb_false (a b : Q) : b <= a -> Py.ltb a b = false.
Proof.
  intros H. unfold Py.ltb. apply Qle_bool_iff in H. now rewrite H.
Qed.

Lemma if_num_falsy {A : Type} (o : option Q) (f : Q -> A) (d : A) :
  Py.falsy o -> Py.if_num o f d = d.
Proof.
  destruct o as [x|]; cbn; [|reflexivity].
  intros H. now rewrite (truthy_num_false _ H).
Qed.

Lemma if_num_truthy {A : Type} (x : Q) (f : Q -> A) (d : A) :
  ~ x == 0 -> Py.if_num (Some x) f d = f x.
Proof. intros H. cbn. now rewrite (truthy_num_true _ H). Qed.

Lemma if_int_falsy {A : Type} (o : option Z) (f : Z -> A) (d : A) :
  Py.falsy_int o -> Py.if_int o f d = d.
Proof. intros [->| ->]; reflexivity. Qed.

Lemma if_int_truthy {A : Type} (n : Z) (f : Z -> A) (d : A) :
  n <> 0%Z -> Py.if_int (Some n) f d = f n.
Proof. intros H. cbn. apply Z.eqb_neq in H. now rewrite H. Qed.

(** The two results of [calculate_sl_tp_prices] in terms of its blocks. *)
Lemma calculate_sl_tp_prices_blocks (self : TradingEngine) (mt5_client : MT5Client)
    (sym : string) (sd : OrderSide) (entry_price : Q)
    (sl_config : StopLossConfig) (tp_config : TakeProfitConfig) (si : SymbolInfo) :
  get_symbol_info mt5_client sym = Some si ->
  calculate_sl_tp_prices self mt5_client sym sd entry_price sl_config tp_config
  = (check_min_distance_sl sd entry_price
       (inject_Z (STOP_LEVEL_PIPS (config self)) * point si)
       (compute_stop_loss si sd entry_price sl_config),
     check_min_distance_tp sd entry_price
       (inject_Z (STOP_LEVEL_PIPS (config self)) * point si)
       (compute_take_profit si sd entry_price tp_config
          (compute_stop_loss si sd entry_price sl_config))).
Proof. intros H. unfold calculate_sl_tp_prices. now rewrite H. Qed.

(** C5 (amended).  The target, before the minimum distance is enforced,
    comes from the first source that is present and not zero, in this
    order: the pip distance (added to the entry on BUY, subtracted on
    SELL); the explicit price; the risk:reward ratio, when the stop
    resolved to a non-zero price (entry plus or minus
    |entry - stop| * ratio).  With no such source the target is unset. *)
Theorem take_profit_precedence
    (self : TradingEngine) (mt5_client : MT5Client) (sym : string)
    (sd : OrderSide) (entry_price : Q) (sl_config : StopLossConfig)
    (tp_config : TakeProfitConfig) (si : SymbolInfo) :
  get_symbol_info mt5_client sym = Some si ->
  let min_distance := inject_Z (STOP_LEVEL_PIPS (config self)) * point si in
  let stop := compute_stop_loss si sd entry_price sl_config in
  let away d := match sd with BUY => entry_price + d | SELL => entry_price - d end in
  exists target : option Q,
    (calculate_sl_tp_prices self mt5_client sym sd entry_price
       sl_config tp_config).2
    = check_min_distance_tp sd entry_price min_distance target
    /\ (forall n, tp_pips tp_config = Some n -> n <> 0%Z ->
          target = Some (away (inject_Z n * point si)))
    /\ (Py.falsy_int (tp_pips tp_config) ->
        forall p, tp_price_cfg tp_config = Some p -> ~ p == 0 ->
          target = Some p)
    /\ (Py.falsy_int (tp_pips tp_config) -> Py.falsy (tp_price_cfg tp_config) ->
        forall r s, risk_reward_ratio tp_config = Some r -> ~ r == 0 ->
          stop = Some s -> ~ s == 0 ->
          target = Some (away (Qabs (entry_price - s) * r)))
    /\ (Py.falsy_int (tp_pips tp_config) -> Py.falsy (tp_price_cfg tp_config) ->
        Py.falsy (risk_reward_ratio tp_config) \/ Py.falsy stop ->
        target = None).
Proof.
  intros Hsi min_distance stop away.
  exists (compute_take_profit si sd entry_price tp_config stop).
  split; [now rewrite (calculate_sl_tp_prices_blocks _ _ _ _ _ _ _ _ Hsi)|].
  unfold compute_take_profit. repeat split.
  - intros n Hn Hnz. rewrite Hn, (if_int_truthy _ _ _ Hnz).
    destruct sd; reflexivity.
  - intros Hpips p Hp Hpz.
    now rewrite (if_int_falsy _ _ _ Hpips), Hp, (if_num_truthy _ _ _ Hpz).
  - intros Hpips Hprice r s Hr Hrz Hs Hsz.
    rewrite (if_int_falsy _ _ _ Hpips), (if_num_falsy _ _ _ Hprice).
    rewrite Hr, (if_num_truthy _ _ _ Hrz), Hs, (if_num_truthy _ _ _ Hsz).
    destruct sd; reflexivity.
  - intros Hpips Hprice Hnone.
    rewrite (if_int_falsy _ _ _ Hpips), (if_num_falsy _ _ _ Hprice).
    destruct Hnone as [Hr|Hs].
    + now apply if_num_falsy.
    + destruct (risk_reward_ratio tp_config) as [r|]; [|reflexivity].
      cbn. destruct (Py.truthy_num r); [|reflexivity].
      now apply if_num_falsy.
Qed.

(** The theorem on a BUY at 1.1000 with a target of 40 points: the target
    is 1.1004. *)
Lemma take_profit_precedence_witness :
  exists t : Q,
    (calculate_sl_tp_prices (init_engine Sample.default_config) Sample.client
       "EURUSD" BUY 1.1 (sl (Sample.signal "sig-1")) (tp (Sample.signal "sig-1"))).2
    = Some t /\ t == 1.1004.
Proof.
  destruct (take_profit_precedence
              (init_engine Sample.default_config) Sample.client "EURUSD" BUY 1.1
              (sl (Sample.signal "sig-1")) (tp (Sample.signal "sig-1"))
              Sample.eurusd)
    as (target & Hout & Hpips & _).
  - reflexivity.
  - rewrite Hout, (Hpips 40%Z); [|reflexivity|discriminate].
    eexists. split; [vm_compute; reflexivity|reflexivity].
Defined.

(** C5 as stated fails when both an explicit target price and a pip
    distance are given: on a BUY at 1.1000 with a target price of 1.2000
    and a target of 40 points, the code returns 1.1004, the pip target. *)
Lemma take_profit_pips_win_over_price :
  let tp_config :=
    {| tp_pips := Some 40%Z; tp_price_cfg := Some 1.2; risk_reward_ratio := None |} in
  match (calculate_sl_tp_prices (init_engine Sample.default_config) Sample.client
           "EURUSD" BUY 1.1 (sl (Sample.signal "sig-1")) tp_config).2 with
  | Some t => t == 1.1004 /\ ~ t == 1.2
  | None => False
  end.
Proof. vm_compute. split; [reflexivity|discriminate]. Qed.

Lemma check_min_distance_sl_near (sd : OrderSide) (entry_price min_distance p : Q) :
  ~ p == 0 -> Qabs (entry_price - p) < min_distance ->
  check_min_distance_sl sd entry_price min_distance (Some p)
  = Some (match sd with
          | BUY => entry_price - min_distance
          | SELL => entry_price + min_distance
          end).
Proof.
  intros Hp Hnear. unfold check_min_distance_sl.
  rewrite (if_num_truthy _ _ _ Hp), (ltb_true _ _ Hnear).
  destruct sd; reflexivity.
Qed.

Lemma check_min_distance_sl_far (sd : OrderSide) (entry_price min_distance p : Q) :
  min_distance <= Qabs (entry_price - p) ->
  check_min_distance_sl sd entry_price min_distance (Some p) = Some p.
Proof.
  intros Hfar. unfold check_min_distance_sl, Py.if_num.
  rewrite (ltb_false _ _ Hfar). now destruct (Py.truthy_num p).
Qed.

Lemma check_min_distance_sl_zero (sd : OrderSide) (entry_price min_distance p : Q) :
  p == 0 ->
  check_min_distance_sl sd entry_price min_distance (Some p) = Some p.
Proof. intros Hz. unfold check_min_distance_sl. now apply if_num_falsy. Qed.

Lemma check_min_distance_tp_near (sd : OrderSide) (entry_price min_distance p : Q) :
  ~ p == 0 -> Qabs (entry_price - p) < min_distance ->
  check_min_distance_tp sd entry_price min_distance (Some p)
  = Some (match sd with
          | BUY => entry_price + min_distance
          | SELL => entry_price - min_distance
          end).
Proof.
  intros Hp Hnear. unfold check_min_distance_tp.
  rewrite (if_num_truthy _ _ _ Hp), (ltb_true _ _ Hnear).
  destruct sd; reflexivity.
Qed.

Lemma check_min_distance_tp_far (sd : OrderSide) (entry_price min_distance p : Q) :
  min_distance <= Qabs (entry_price - p) ->
  check_min_distance_tp sd entry_price min_distance (Some p) = Some p.
Proof.
  intros Hfar. unfold check_min_distance_tp, Py.if_num.
  rewrite (ltb_false _ _ Hfar). now destruct (Py.truthy_num p).
Qed.

Lemma check_min_distance_tp_zero (sd : OrderSide) (entry_price min_distance p : Q) :
  p == 0 ->
  check_min_distance_tp sd entry_price min_distance (Some p) = Some p.
Proof. intros Hz. unfold check_min_distance_tp. now apply if_num_falsy. Qed.

(** C6 (amended).  Let [stop] and [target] be the prices resolved from the
    signal, and [min_distance] = STOP_LEVEL_PIPS * point.  A resolved
    price that is not zero and lies strictly closer to the entry than
    [min_distance] is replaced by the price at exactly [min_distance]
    from the entry: below the entry for a BUY stop and a SELL target,
    above it for a BUY target and a SELL stop.  A price at or beyond
    [min_distance] is returned unchanged, and so is a price of exactly
    zero and an unset price.  The returned stop does not depend on the
    target specification, and the returned target depends on the stop
    only through the stop as resolved, before its own clamping. *)
Theorem min_distance_enforced
    (self : TradingEngine) (mt5_client : MT5Client) (sym : string)
    (sd : OrderSide) (entry_price : Q) (sl_config : StopLossConfig)
    (tp_config : TakeProfitConfig) (si : SymbolInfo) :
  get_symbol_info mt5_client sym = Some si ->
  let min_distance := inject_Z (STOP_LEVEL_PIPS (config self)) * point si in
  let stop := compute_stop_loss si sd entry_price sl_config in
  let target := compute_take_profit si sd entry_price tp_config stop in
  let out :=
    calculate_sl_tp_prices self mt5_client sym sd entry_price sl_config tp_config in
  (forall p, stop = Some p -> ~ p == 0 -> Qabs (entry_price - p) < min_distance ->
     out.1 = Some (match sd with
                   | BUY => entry_price - min_distance
                   | SELL => entry_price + min_distance
                   end))
  /\ (forall p, stop = Some p -> min_distance <= Qabs (entry_price - p) ->
        out.1 = Some p)
  /\ (forall p, stop = Some p -> p == 0 -> out.1 = Some p)
  /\ (stop = None -> out.1 = None)
  /\ (forall p, target = Some p -> ~ p == 0 ->
        Qabs (entry_price - p) < min_distance ->
        out.2 = Some (match sd with
                      | BUY => entry_price + min_distance
                      | SELL => entry_price - min_distance
                      end))
  /\ (forall p, target = Some p -> min_distance <= Qabs (entry_price - p) ->
        out.2 = Some p)
  /\ (forall p, target = Some p -> p == 0 -> out.2 = Some p)
  /\ (target = None -> out.2 = None)
  /\ (forall tp_config',
        (calculate_sl_tp_prices self mt5_client sym sd entry_price
           sl_config tp_config').1 = out.1).
Proof.
  intros Hsi min_distance stop target out.
  assert (Hout : out = (check_min_distance_sl sd entry_price min_distance stop,
                        check_min_distance_tp sd entry_price min_distance target)).
  { apply calculate_sl_tp_prices_blocks. exact Hsi. }
  rewrite Hout. cbn [fst snd]. repeat split.
  - intros p -> Hp Hnear. now apply check_min_distance_sl_near.
  - intros p -> Hfar. now apply check_min_distance_sl_far.
  - intros p -> Hz. now apply check_min_distance_sl_zero.
  - intros ->. reflexivity.
  - intros p -> Hp Hnear. now apply check_min_distance_tp_near.
  - intros p -> Hfar. now apply check_min_distance_tp_far.
  - intros p -> Hz. now apply check_min_distance_tp_zero.
  - intros ->. reflexivity.
  - intros tp_config'.
    now rewrite (calculate_sl_tp_prices_blocks _ _ _ _ _ _ tp_config' _ Hsi).
Qed.

(** The theorem on the specification's example: BUY, entry 1.1000, an
    explicit stop of 1.09998, five points of 0.00001 as minimum distance;
    the stop is moved to 1.09995. *)
Lemma min_distance_enforced_witness :
  let sl_config :=
    {| sl_pips := None; sl_price_cfg := Some 1.09998; atr_multiplier := None |} in
  exists s : Q,
    (calculate_sl_tp_prices (init_engine Sample.default_config) Sample.client
       "EURUSD" BUY 1.1 sl_config (tp (Sample.signal "sig-1"))).1
    = Some s /\ s == 1.09995.
Proof.
  cbv zeta.
  destruct (min_distance_enforced
              (init_engine Sample.default_config) Sample.client "EURUSD" BUY 1.1
              {| sl_pips := None; sl_price_cfg := Some 1.09998;
                 atr_multiplier := None |}
              (tp (Sample.signal "sig-1")) Sample.eurusd)
    as (Hnear & _).
  - reflexivity.
  - eexists. split.
    + apply (Hnear 1.09998); [reflexivity|discriminate|reflexivity].
    + reflexivity.
Defined.

(** C6 as stated fails for a stop that resolves to exactly zero.  BUY at
    an entry of 0.00002 with a stop of 2 points of 0.00001: the stop
    resolves to 0, at a distance of 0.00002 from the entry, less than the
    minimum of 0.00005; the code returns it as it is, not the price at
    the minimum distance. *)
Lemma min_distance_not_enforced_on_zero :
  let sl_config :=
    {| sl_pips := Some 2%Z; sl_price_cfg := None; atr_multiplier := None |} in
  let min_distance :=
    inject_Z (STOP_LEVEL_PIPS Sample.default_config) * point Sample.eurusd in
  match compute_stop_loss Sample.eurusd BUY 0.00002 sl_config,
        (calculate_sl_tp_prices (init_engine Sample.default_config) Sample.client
           "EURUSD" BUY 0.00002 sl_config (tp (Sample.signal "sig-1"))).1 with
  | Some resolved, Some returned_stop =>
      Qabs (0.00002 - resolved) < min_distance
      /\ returned_stop == 0
      /\ ~ returned_stop == 0.00002 - min_distance
  | _, _ => False
  end.
Proof. vm_compute. repeat split; discriminate. Qed.

(** ** The orchestration: [execute_signal] *)



(** A non-positive loss per lot makes sizing fail. *)
Lemma calculate_lot_size_invalid_stop (self : TradingEngine)
    (mt5_client : MT5Client) (sym : string) (risk_config : RiskConfig)
    (sl_points : Q) (si : SymbolInfo) :
  get_symbol_info mt5_client sym = Some si ->
  sl_points * point si * (tick_value si * contract_size si) <= 0 ->
  calculate_lot_size self mt5_client sym risk_config sl_points = None.
Proof.
  intros Hsi Hloss. unfold calculate_lot_size. rewrite Hsi.
  destruct (get_account_info mt5_client); [|reflexivity].
  cbv zeta. apply Qle_bool_iff in Hloss. now rewrite Hloss.
Qed.

(** C7.  A signal reaches the sizing stage (its key is admitted, the
    symbol is subscribed, the symbol data and a tick are available) and
    its stop distance in points is derived.  If the loss per lot,
    stop points * point * tick value * contract size, is not positive,
    [execute_signal] returns the failure of the sizing stage; its only
    call on the terminal is the subscription, no order is sent.  A signal
    without a stop has a distance of 0 points and falls under this. *)
Theorem execute_signal_invalid_stop
    (mt5 : MetaTrader5) (mt5_client : MT5Client) (now1 now2 : Z)
    (self : TradingEngine) (signal : TradingSignal)
    (si : SymbolInfo) (tick : Tick) (sl_points : Q) :
  (validate_idempotency self now1 now2 (idempotency_key signal)).1 = true ->
  subscribe_symbol mt5_client (symbol signal) = true ->
  get_symbol_info mt5_client (symbol signal) = Some si ->
  symbol_info_tick mt5 (symbol signal) = Some tick ->
  derive_sl_points signal
    (match side signal with BUY => ask tick | SELL => bid tick end) si
  = Some sl_points ->
  sl_points * point si * (tick_value si * contract_size si) <= 0 ->
  execute_signal mt5 mt5_client now1 now2 self signal
  = {| returned := failure LotSizeNotComputed;
       engine := (validate_idempotency self now1 now2 (idempotency_key signal)).2;
       calls := [SymbolSelect (symbol signal)] |}.
Proof.
  intros Hadm Hsub Hsi Htick Hpoints Hloss. unfold execute_signal.
  destruct (validate_idempotency self now1 now2 (idempotency_key signal))
    as [admitted self'].
  cbn in Hadm. subst admitted. cbn [negb snd].
  rewrite Hsub, Hsi, Htick, Hpoints. cbn [negb].
  now rewrite (calculate_lot_size_invalid_stop _ _ _ _ _ _ Hsi Hloss).
Qed.

(** The theorem on a signal that names neither stop pips nor a stop price:
    its stop distance is 0 points. *)
Lemma execute_signal_invalid_stop_witness :
  let signal :=
    {| strategy := "demo"; symbol := "EURUSD"; side := BUY; order_type := MARKET;
       risk := risk (Sample.signal "sig-1");
       sl := {| sl_pips := None; sl_price_cfg := None; atr_multiplier := None |};
       tp := tp (Sample.signal "sig-1");
       price := None; comment := "demo"; idempotency_key := "sig-1";
       magic_number := 7 |} in
  let out :=
    execute_signal (Sample.terminal 10009) Sample.client 0 0
      (init_engine Sample.default_config) signal in
  returned out = failure LotSizeNotComputed /\ orders (calls out) = [].
Proof.
  cbv zeta.
  rewrite (execute_signal_invalid_stop (Sample.terminal 10009) Sample.client 0 0
             (init_engine Sample.default_config) _ Sample.eurusd
             {| bid := 1.0999; ask := 1.1 |} 0).
  - split; reflexivity.
  - reflexivity.
  - reflexivity.
  - reflexivity.
  - reflexivity.
  - reflexivity.
  - discriminate.
Defined.




(** ** The margin checker *)

Lemma calculate_margin_required_fp_exact (mt5 : MetaTrader5)
    (mt5_client : MT5Client) (sym : string) (volume price : Q) :
  calculate_margin_required_fp Fp.exact mt5 mt5_client sym volume price
  = calculate_margin_required mt5 mt5_client sym volume price.
Proof.
  unfold calculate_margin_required_fp, calculate_margin_required, Py.div.
  destruct (get_margin_info mt5 sym) as [margin_info|]; [|reflexivity].
  destruct (_ =? SYMBOL_CALC_MODE_FOREX mt5)%Z; [|reflexivity].
  destruct (get_account_summary mt5_client) as [acc|]; [|reflexivity].
  destruct (symbol_info mt5 sym); [|reflexivity].
  cbn [Fp.exact Fp.div Fp.mul Fp.of_int].
  destruct (leverage acc); reflexivity.
Qed.

Lemma check_margin_sufficient_fp_exact (mt5 : MetaTrader5)
    (mt5_client : MT5Client) (sym : string) (volume price : Q) :
  check_margin_sufficient_fp Fp.exact mt5 mt5_client sym volume price
  = check_margin_sufficient mt5 mt5_client sym volume price.
Proof.
  unfold check_margin_sufficient_fp, check_margin_sufficient.
  now rewrite calculate_margin_required_fp_exact.
Qed.

(** C8.  With the symbol and the account available (and, for a forex
    symbol, a leverage that is not zero), the required margin is,
    computed in float arithmetic, contract size * volume / leverage in
    forex mode, contract size * volume * margin rate in futures mode and
    margin_required * volume in any other mode; the check answers [True]
    exactly when the free margin is at least that computed amount.  The
    statement holds for every rounding of the float operations. *)
Theorem check_margin_sufficient_spec
    (fp : Fp.arith) (mt5 : MetaTrader5) (mt5_client : MT5Client) (sym : string)
    (volume price : Q) (si : Mt5SymbolInfo) (acc : AccountInfo) :
  symbol_info mt5 sym = Some si ->
  get_account_info mt5_client = Some acc ->
  (mt5_margin_mode si = SYMBOL_CALC_MODE_FOREX mt5 -> leverage acc <> 0%Z) ->
  exists required : Q,
    calculate_margin_required_fp fp mt5 mt5_client sym volume price
    = Some required
    /\ (mt5_margin_mode si = SYMBOL_CALC_MODE_FOREX mt5 ->
        required = Fp.div fp (Fp.mul fp (trade_contract_size si) volume)
                     (Fp.of_int fp (leverage acc)))
    /\ (mt5_margin_mode si <> SYMBOL_CALC_MODE_FOREX mt5 ->
        mt5_margin_mode si = SYMBOL_CALC_MODE_FUTURES mt5 ->
        required = Fp.mul fp (Fp.mul fp (trade_contract_size si) volume)
                     (mt5_margin_rate si))
    /\ (mt5_margin_mode si <> SYMBOL_CALC_MODE_FOREX mt5 ->
        mt5_margin_mode si <> SYMBOL_CALC_MODE_FUTURES mt5 ->
        required = Fp.mul fp (mt5_margin_required si) volume)
    /\ (check_margin_sufficient_fp fp mt5 mt5_client sym volume price = true
        <-> required <= free_margin acc).
Proof.
  intros Hsi Hacc Hlev.
  unfold check_margin_sufficient_fp, calculate_margin_required_fp,
    get_margin_info, get_account_summary.
  rewrite Hsi, Hacc. cbn [mi_margin_mode mi_margin_rate mi_margin_required].
  destruct (mt5_margin_mode si =? SYMBOL_CALC_MODE_FOREX mt5)%Z eqn:Hforex.
  - apply Z.eqb_eq in Hforex. specialize (Hlev Hforex).
    apply Z.eqb_neq in Hlev. rewrite Hlev.
    eexists. split; [reflexivity|]. repeat split; try congruence.
    + apply Qle_bool_iff.
    + apply Qle_bool_iff.
  - apply Z.eqb_neq in Hforex.
    destruct (mt5_margin_mode si =? SYMBOL_CALC_MODE_FUTURES mt5)%Z eqn:Hfut.
    + apply Z.eqb_eq in Hfut.
      eexists. split; [reflexivity|]. repeat split; try congruence.
      * apply Qle_bool_iff.
      * apply Qle_bool_iff.
    + apply Z.eqb_neq in Hfut.
      eexists. split; [reflexivity|]. repeat split; try congruence.
      * apply Qle_bool_iff.
      * apply Qle_bool_iff.
Qed.

(** The theorem in the arithmetic of doubles, on EURUSD (forex mode,
    contract size 100000) with a volume of 3 lots, a leverage of 33 and
    a free margin of 9090.90909090909.  The quotient 300000 / 33 lies
    above the free margin; the double computed for it is the free margin
    itself, and the check answers [True]. *)
Lemma check_margin_sufficient_spec_witness :
  let free := Doubles.float 9090.90909090909 in
  let mt5_client := Doubles.client (Doubles.account 10000 free 33) in
  exists required : Q,
    calculate_margin_required_fp Fp.binary64 (Sample.terminal 10009)
      mt5_client "EURUSD" 3 1.1 = Some required
    /\ required == free
    /\ free < 100000 * 3 / 33
    /\ check_margin_sufficient_fp Fp.binary64 (Sample.terminal 10009)
         mt5_client "EURUSD" 3 1.1 = true.
Proof.
  cbv zeta.
  destruct (check_margin_sufficient_spec Fp.binary64
              (Sample.terminal 10009)
              (Doubles.client
                 (Doubles.account 10000 (Doubles.float 9090.90909090909) 33))
              "EURUSD" 3 1.1
              {| mt5_margin_required := 1000; mt5_margin_mode := 0;
                 mt5_margin_currency := "USD"; mt5_margin_rate := 1;
                 trade_contract_size := 100000 |}
              (Doubles.account 10000 (Doubles.float 9090.90909090909) 33))
    as (required & Hreq & Hforex & _ & _ & Hcheck).
  - reflexivity.
  - reflexivity.
  - discriminate.
  - exists required. split; [exact Hreq|].
    assert (Hval : required == Doubles.float 9090.90909090909).
    { rewrite (Hforex eq_refl). vm_compute. reflexivity. }
    split; [exact Hval|]. split; [vm_compute; reflexivity|].
    apply Hcheck. rewrite Hval. apply Qle_refl.
Defined.

(** In the other direction: 0.07 lots at a leverage of 10 against a free
    margin of 700.  The doubles give a required margin above 700 and the
    check answers [False]. *)
Example check_margin_sufficient_doubles_above :
  check_margin_sufficient_fp Fp.binary64 (Sample.terminal 10009)
    (Doubles.client (Doubles.account 10000 700 10)) "EURUSD"
    (Doubles.float 0.07) 1.1 = false
  /\ 100000 * 0.07 / 10 == 700.
Proof. vm_compute. split; reflexivity. Qed.

(** ** The position pass-throughs *)

(** C10.  For an existing position, [modify_position] sends one request
    to the terminal: the modification of the stops of that position, by
    ticket and symbol.  A stop-loss (take-profit) argument of [None] or
    zero puts the position's current stop-loss (take-profit) in the
    request, so zero cannot clear it.  [close_position] called with a
    volume of [None] or zero sends one closing deal for that ticket, in
    the direction opposite to the position, with the position's full
    volume.  Either call returns [True] exactly when the terminal answers
    its request with DONE. *)
Theorem pass_through_zero_means_current
    (mt5 : MetaTrader5) (self : TradingEngine) (ticket : Z)
    (pos : Position) (others : list Position) :
  positions_get mt5 ticket = Some (pos :: others) ->
  (forall new_sl new_tp,
     let out := modify_position mt5 self ticket new_sl new_tp in
     exists request,
       calls out = [OrderSend request]
       /\ req_action request = TRADE_ACTION_SLTP
       /\ req_symbol request = pos_symbol pos
       /\ req_position request = Some ticket
       /\ (Py.falsy new_sl -> req_sl request = Some (pos_sl pos))
       /\ (Py.falsy new_tp -> req_tp request = Some (pos_tp pos))
       /\ (returned out = true
           <-> exists result, order_send mt5 request = Some result
                              /\ retcode result = TRADE_RETCODE_DONE mt5))
  /\ (forall volume, Py.falsy volume ->
        let out := close_position mt5 self ticket volume in
        exists request,
          calls out = [OrderSend request]
          /\ req_action request = TRADE_ACTION_DEAL
          /\ req_symbol request = pos_symbol pos
          /\ req_position request = Some ticket
          /\ req_magic request = Some (pos_magic pos)
          /\ req_volume request = Some (pos_volume pos)
          /\ (req_type request = Some ORDER_TYPE_SELL
              <-> pos_type pos = POSITION_TYPE_BUY mt5)
          /\ (req_type request = Some ORDER_TYPE_BUY
              <-> pos_type pos <> POSITION_TYPE_BUY mt5)
          /\ (returned out = true
              <-> exists result, order_send mt5 request = Some result
                                 /\ retcode result = TRADE_RETCODE_DONE mt5)).
Proof.
  intros Hpos. split.
  - intros new_sl new_tp out. subst out. unfold modify_position. rewrite Hpos.
    match goal with |- context [order_send mt5 ?r] => set (request := r) end.
    exists request.
    assert (Hsl : Py.falsy new_sl -> req_sl request = Some (pos_sl pos)).
    { intros H. subst request. cbn. unfold Py.or_else.
      now rewrite (if_num_falsy _ _ _ H). }
    assert (Htp : Py.falsy new_tp -> req_tp request = Some (pos_tp pos)).
    { intros H. subst request. cbn. unfold Py.or_else.
      now rewrite (if_num_falsy _ _ _ H). }
    destruct (order_send mt5 request) as [result|] eqn:Hsend;
      cbn [calls returned]; repeat split; try reflexivity; try assumption.
    + intros Hdone. exists result. split; [reflexivity|]. now apply Z.eqb_eq.
    + intros (result' & Heq & Hdone). injection Heq as <-. now apply Z.eqb_eq.
    + discriminate.
    + intros (result' & Heq & _). discriminate.
  - intros volume Hvol out. subst out. unfold close_position. rewrite Hpos.
    unfold Py.or_else. rewrite (if_num_falsy _ _ _ Hvol).
    match goal with |- context [order_send mt5 ?r] => set (request := r) end.
    exists request.
    assert (Htype : (req_type request = Some ORDER_TYPE_SELL
                     <-> pos_type pos = POSITION_TYPE_BUY mt5)
                    /\ (req_type request = Some ORDER_TYPE_BUY
                        <-> pos_type pos <> POSITION_TYPE_BUY mt5)).
    { subst request. cbn.
      destruct (pos_type pos =? POSITION_TYPE_BUY mt5)%Z eqn:E.
      - apply Z.eqb_eq in E. split; split; try tauto; try discriminate.
      - apply Z.eqb_neq in E. split; split; try tauto; try discriminate. }
    destruct Htype as [Hsell Hbuy].
    destruct (order_send mt5 request) as [result|] eqn:Hsend;
      cbn [calls returned].
    + repeat split; try reflexivity; try apply Hsell; try apply Hbuy.
      * intros Hdone. exists result. split; [reflexivity|]. now apply Z.eqb_eq.
      * intros (result' & Heq & Hdone). injection Heq as <-. now apply Z.eqb_eq.
    + repeat split; try reflexivity; try apply Hsell; try apply Hbuy;
        try discriminate.
      intros (result' & Heq & _). discriminate.
Qed.

(** The theorem on a buy position of 0.5 lots with a stop of 1.0950: a
    request to set the stop to 0.0 sends 1.0950, and a request to close
    a volume of 0.0 sells 0.5 lots. *)
Lemma pass_through_zero_means_current_witness :
  (exists request,
     calls (modify_position (Sample.terminal 10009)
              (init_engine Sample.default_config) 42 (Some 0) None)
     = [OrderSend request]
     /\ req_action request = TRADE_ACTION_SLTP
     /\ req_sl request = Some 1.0950)
  /\ (exists request,
        calls (close_position (Sample.terminal 10009)
                 (init_engine Sample.default_config) 42 (Some 0))
        = [OrderSend request]
        /\ req_action request = TRADE_ACTION_DEAL
        /\ req_position request = Some 42%Z
        /\ req_type request = Some ORDER_TYPE_SELL
        /\ req_volume request = Some 0.5).
Proof.
  destruct (pass_through_zero_means_current (Sample.terminal 10009)
              (init_engine Sample.default_config) 42
              {| pos_ticket := 42; pos_symbol := "EURUSD"; pos_type := 0;
                 pos_volume := 0.5; pos_sl := 1.0950; pos_tp := 1.1100;
                 pos_magic := 7 |} [])
    as (Hmodify & Hclose).
  - reflexivity.
  - split.
    + destruct (Hmodify (Some 0) None)
        as (request & Hcalls & Haction & _ & _ & Hsl & _).
      exists request. split; [exact Hcalls|]. split; [exact Haction|].
      apply Hsl. reflexivity.
    + destruct (Hclose (Some 0))
        as (request & Hcalls & Haction & _ & Hticket & _ & Hvol & Hsell & _).
      * reflexivity.
      * exists request. repeat split; try assumption.
        apply Hsell. reflexivity.
Defined.

(** * Further properties *)

(** ** The guard's sweep *)

(** X1.  After a non-empty key is admitted, every record left in the cache
    is strictly younger than the retention window at the sweep's clock
    reading: the admit path leaves no expired record behind. *)
Theorem validate_idempotency_sweep_leaves_young
    (self : TradingEngine) (now1 now2 : Z) (key k : string) (t : Z) :
  key ≠ EmptyString ->
  (validate_idempotency self now1 now2 key).1 = true ->
  idempotency_cache (validate_idempotency self now1 now2 key).2 !! k = Some t ->
  (now2 - Py.timedelta_seconds (idempotency_ttl self) < t)%Z.
Proof.
  intros Hne Hadm.
  pose proof (validate_idempotency_admitted _ _ _ _ Hne Hadm) as Hfresh.
  rewrite (validate_idempotency_fresh _ _ _ _ Hne Hfresh). cbn.
  intros Hk. apply map_lookup_filter_Some in Hk. now destruct Hk.
Qed.

Lemma validate_idempotency_sweep_leaves_young_witness :
  (0 - Py.timedelta_seconds 3600 < 0)%Z.
Proof.
  apply (validate_idempotency_sweep_leaves_young
           (init_engine Sample.default_config) 0 0 "sig-1" "sig-1" 0).
  - discriminate.
  - reflexivity.
  - vm_compute. reflexivity.
Defined.

(** X2.  One call of the guard adds at most the offered key, stamped with
    the first clock reading, and never changes the stamp of a record it
    keeps. *)
Theorem validate_idempotency_adds_only_key
    (self : TradingEngine) (now1 now2 : Z) (key k : string) (t : Z) :
  idempotency_cache (validate_idempotency self now1 now2 key).2 !! k = Some t ->
  (k = key /\ t = now1 /\ key ≠ EmptyString
   /\ idempotency_cache self !! key = None)
  \/ idempotency_cache self !! k = Some t.
Proof.
  unfold validate_idempotency.
  destruct (decide (key = EmptyString)); [now right|].
  destruct (idempotency_cache self !! key) eqn:Hkey; [now right|].
  cbn. intros Hk. apply map_lookup_filter_Some in Hk. destruct Hk as [Hk _].
  destruct (decide (k = key)) as [->|Hne].
  - rewrite lookup_insert_eq in Hk. injection Hk as <-. now left.
  - rewrite lookup_insert_ne in Hk by congruence. now right.
Qed.

Lemma validate_idempotency_adds_only_key_witness :
  ("sig-1" = "sig-1" /\ 5%Z = 5%Z /\ "sig-1" ≠ EmptyString
   /\ idempotency_cache (init_engine Sample.default_config) !! "sig-1" = None)
  \/ idempotency_cache (init_engine Sample.default_config) !! "sig-1" = Some 5%Z.
Proof.
  apply (validate_idempotency_adds_only_key
           (init_engine Sample.default_config) 5 5 "sig-1" "sig-1" 5).
  vm_compute. reflexivity.
Defined.

(** X3.  Expiry takes effect through the admission of another key: if a
    record is not younger than the retention window when a different,
    new key is admitted, the sweep drops it, and the old key is admitted
    again at any later call. *)
Theorem validate_idempotency_readmits_after_sweep
    (self : TradingEngine) (now1 now2 later1 later2 : Z)
    (key other : string) (t : Z) :
  key ≠ EmptyString ->
  other ≠ EmptyString ->
  other ≠ key ->
  idempotency_cache self !! key = Some t ->
  idempotency_cache self !! other = None ->
  (t <= now2 - Py.timedelta_seconds (idempotency_ttl self))%Z ->
  let swept := (validate_idempotency self now1 now2 other).2 in
  idempotency_cache swept !! key = None
  /\ (validate_idempotency swept later1 later2 key).1 = true.
Proof.
  intros Hkey Hother Hdiff Hstored Hnew Hold swept.
  assert (Hgone : idempotency_cache swept !! key = None).
  { subst swept. rewrite (validate_idempotency_fresh _ _ _ _ Hother Hnew). cbn.
    apply map_lookup_filter_None. right. intros t' Ht'.
    rewrite lookup_insert_ne in Ht' by congruence.
    rewrite Hstored in Ht'. injection Ht' as <-. cbn. lia. }
  split; [exact Hgone|].
  now rewrite (validate_idempotency_fresh _ _ _ _ Hkey Hgone).
Qed.

Lemma validate_idempotency_readmits_after_sweep_witness :
  let self := (validate_idempotency (init_engine Sample.default_config)
                 0 0 "sig-1").2 in
  let swept := (validate_idempotency self 3600000000 3600000000 "sig-2").2 in
  idempotency_cache swept !! "sig-1" = None
  /\ (validate_idempotency swept 3600000001 3600000001 "sig-1").1 = true.
Proof.
  cbv zeta.
  apply (validate_idempotency_readmits_after_sweep
           (validate_idempotency (init_engine Sample.default_config) 0 0 "sig-1").2
           3600000000 3600000000 3600000001 3600000001 "sig-1" "sig-2" 0).
  - discriminate.
  - discriminate.
  - discriminate.
  - vm_compute. reflexivity.
  - vm_compute. reflexivity.
  - vm_compute. discriminate.
Defined.

(** ** The mock guard against the engine's *)

Lemma guard_step_simulated (self : TradingEngine) (cache : gmap string Z)
    (g : GuardCall) :
  (forall k, is_Some (idempotency_cache self !! k) -> is_Some (cache !! k)) ->
  forall k,
    is_Some (idempotency_cache
               (validate_idempotency self (gc_now1 g) (gc_now2 g) (gc_key g)).2 !! k) ->
    is_Some ((mock_validate_idempotency cache (gc_now1 g) (gc_key g)).2 !! k).
Proof.
  intros Hsub k. unfold validate_idempotency, mock_validate_idempotency.
  destruct (decide (gc_key g = EmptyString)); [apply Hsub|].
  destruct (idempotency_cache self !! gc_key g) eqn:Hreal.
  - intros Hk. apply Hsub in Hk.
    destruct (cache !! gc_key g) eqn:Hmock; [exact Hk|]. cbn.
    destruct (decide (k = gc_key g)) as [->|Hne].
    + rewrite lookup_insert_eq. eauto.
    + now rewrite lookup_insert_ne by congruence.
  - cbn. intros [t Hk]. apply map_lookup_filter_Some in Hk. destruct Hk as [Hk _].
    destruct (decide (k = gc_key g)) as [->|Hne].
    + destruct (cache !! gc_key g) eqn:Hmock; cbn; [eauto|].
      rewrite lookup_insert_eq. eauto.
    + rewrite lookup_insert_ne in Hk by congruence.
      assert (Hin : is_Some (cache !! k)) by (apply Hsub; eauto).
      destruct (cache !! gc_key g); cbn; [exact Hin|].
      now rewrite lookup_insert_ne by congruence.
Qed.

Lemma guard_run_simulated (gs : list GuardCall) :
  forall (self : TradingEngine) (cache : gmap string Z),
    (forall k, is_Some (idempotency_cache self !! k) -> is_Some (cache !! k)) ->
    forall k,
      is_Some (idempotency_cache (guard_run self gs) !! k) ->
      is_Some (mock_guard_run cache gs !! k).
Proof.
  induction gs as [|g rest IH]; intros self cache Hsub; [exact Hsub|].
  cbn. apply IH. now apply guard_step_simulated.
Qed.

(** X4.  The engine's guard and the test double's are fed the same calls
    from empty caches.  Whatever key the engine then rejects, the mock
    rejects too: the mock, which never sweeps, is at least as strict. *)
Theorem mock_guard_rejects_what_engine_rejects
    (cfg : Config) (gs : list GuardCall) (g : GuardCall) :
  (validate_idempotency (guard_run (init_engine cfg) gs)
     (gc_now1 g) (gc_now2 g) (gc_key g)).1 = false ->
  (mock_validate_idempotency (mock_guard_run ∅ gs) (gc_now1 g) (gc_key g)).1
  = false.
Proof.
  intros Hrej.
  assert (Hin : is_Some (idempotency_cache (guard_run (init_engine cfg) gs)
                           !! gc_key g)).
  { revert Hrej. unfold validate_idempotency.
    destruct (decide (gc_key g = EmptyString)); [discriminate|].
    destruct (idempotency_cache _ !! gc_key g); [eauto|discriminate]. }
  assert (Hne : gc_key g ≠ EmptyString).
  { intros He. revert Hrej. unfold validate_idempotency.
    destruct (decide (gc_key g = EmptyString)); [discriminate|contradiction]. }
  apply (guard_run_simulated gs (init_engine cfg) ∅) in Hin.
  - unfold mock_validate_idempotency.
    destruct (decide (gc_key g = EmptyString)); [contradiction|].
    destruct Hin as [t Ht]. now rewrite Ht.
  - intros k [t Ht]. cbn in Ht. rewrite lookup_empty in Ht. discriminate.
Qed.

Lemma mock_guard_rejects_what_engine_rejects_witness :
  let gs := [ {| gc_key := "sig-1"; gc_now1 := 0; gc_now2 := 0 |} ] in
  let g := {| gc_key := "sig-1"; gc_now1 := 10; gc_now2 := 10 |} in
  (mock_validate_idempotency (mock_guard_run ∅ gs) (gc_now1 g) (gc_key g)).1
  = false.
Proof.
  cbv zeta.
  apply (mock_guard_rejects_what_engine_rejects Sample.default_config
           [ {| gc_key := "sig-1"; gc_now1 := 0; gc_now2 := 0 |} ]
           {| gc_key := "sig-1"; gc_now1 := 10; gc_now2 := 10 |}).
  vm_compute. reflexivity.
Defined.

(** ** Sizing: failure, limits, monotonicity *)


Lemma py_round_inject (n : Z) : Py.round (inject_Z n) = n.
Proof.
  unfold Py.round. rewrite Qfloor_Z.
  destruct (Qcompare (inject_Z n - inject_Z n) (1 # 2)) eqn:C.
  - apply Qeq_alt in C. lra.
  - reflexivity.
  - apply Qgt_alt in C. lra.
Qed.

Lemma py_round_mono (x y : Q) : x <= y -> (Py.round x <= Py.round y)%Z.
Proof.
  intros Hxy. pose proof (Qfloor_resp_le _ _ Hxy) as Hf.
  unfold Py.round.
  destruct (Z.eq_dec (Qfloor x) (Qfloor y)) as [He|Hne].
  - rewrite He.
    assert (Hr : x - inject_Z (Qfloor y) <= y - inject_Z (Qfloor y)) by lra.
    destruct (Qcompare_spec (x - inject_Z (Qfloor y)) (1 # 2));
      destruct (Qcompare_spec (y - inject_Z (Qfloor y)) (1 # 2));
      try (exfalso; lra); destruct (Z.even (Qfloor y)); lia.
  - assert (Qfloor x + 1 <= Qfloor y)%Z by lia.
    destruct (Qcompare (x - inject_Z (Qfloor x)) (1 # 2));
      destruct (Qcompare (y - inject_Z (Qfloor y)) (1 # 2));
      destruct (Z.even (Qfloor x)); destruct (Z.even (Qfloor y)); lia.
Qed.

Lemma py_min_mono (a a' b : Q) : a <= a' -> Py.min a b <= Py.min a' b.
Proof. intros H. rewrite !py_min_Qmin. now apply Q.min_le_compat_r. Qed.

Lemma py_max_mono (a a' b : Q) : a <= a' -> Py.max a b <= Py.max a' b.
Proof. intros H. rewrite !py_max_Qmax. now apply Q.max_le_compat_r. Qed.

(** X5.  [calculate_lot_size] fails in exactly four cases: the symbol is
    unknown, the account is unavailable, the loss per lot is not
    positive, or the configured lot step is zero. *)
Theorem calculate_lot_size_none_iff
    (self : TradingEngine) (mt5_client : MT5Client) (sym : string)
    (risk_config : RiskConfig) (sl_points : Q) :
  calculate_lot_size self mt5_client sym risk_config sl_points = None
  <-> (get_symbol_info mt5_client sym = None
       \/ get_account_info mt5_client = None
       \/ (exists si, get_symbol_info mt5_client sym = Some si
                      /\ sl_points * point si
                         * (tick_value si * contract_size si) <= 0)
       \/ LOT_STEP (config self) == 0).
Proof.
  unfold calculate_lot_size.
  destruct (get_symbol_info mt5_client sym) as [si|]; [|tauto].
  destruct (get_account_info mt5_client) as [acc|]; [|tauto].
  cbv zeta.
  destruct (Qle_bool _ 0) eqn:Hle.
  { apply Qle_bool_iff in Hle. split; [|reflexivity].
    intros _. right. right. left. eauto. }
  assert (Hpos : ~ sl_points * point si * (tick_value si * contract_size si) <= 0).
  { intros H. apply Qle_bool_iff in H. congruence. }
  unfold Py.div. destruct (Qeq_bool (LOT_STEP (config self)) 0) eqn:Hstep.
  - apply Qeq_bool_iff in Hstep. split; [|reflexivity]. intros _. tauto.
  - split; [discriminate|].
    intros [H|[H|[(si' & Hsi & H)|H]]]; try discriminate.
    + injection Hsi as <-. contradiction.
    + apply Qeq_bool_iff in H. congruence.
Qed.

(** X6.  The lot size is a whole number of lot steps, and that number
    lies between the step counts of the two limits: between
    [round(MIN_LOT_SIZE / LOT_STEP)] and [round(MAX_LOT_SIZE / LOT_STEP)],
    the quotients being the computed ones.  This holds for every
    arithmetic whose division by the lot step is monotone in the
    dividend, when the minimum is not above the maximum. *)
Theorem calculate_lot_size_within_limits
    (fp : Fp.arith) (self : TradingEngine) (mt5_client : MT5Client)
    (sym : string) (risk_config : RiskConfig) (sl_points lot : Q) :
  calculate_lot_size_fp fp self mt5_client sym risk_config sl_points = Some lot ->
  (forall x y, x <= y ->
     Fp.div fp x (LOT_STEP (config self)) <= Fp.div fp y (LOT_STEP (config self))) ->
  MIN_LOT_SIZE (config self) <= MAX_LOT_SIZE (config self) ->
  exists steps : Z,
    lot = Fp.mul fp (Fp.of_int fp steps) (LOT_STEP (config self))
    /\ (Py.round (Fp.div fp (MIN_LOT_SIZE (config self)) (LOT_STEP (config self)))
        <= steps
        <= Py.round (Fp.div fp (MAX_LOT_SIZE (config self))
                       (LOT_STEP (config self))))%Z.
Proof.
  intros Hlot Hmono Hlohi. unfold calculate_lot_size_fp in Hlot.
  destruct (get_symbol_info mt5_client sym) as [si|]; [|discriminate].
  destruct (get_account_info mt5_client) as [acc|]; [|discriminate].
  cbv zeta in Hlot. destruct (Qle_bool _ 0); [discriminate|].
  destruct (Qeq_bool (LOT_STEP (config self)) 0); [discriminate|].
  injection Hlot as <-.
  match goal with
  | |- context [Py.round (Fp.div fp (Py.min (Py.max ?r _) _) _)] =>
      set (raw := r)
  end.
  set (lo := MIN_LOT_SIZE (config self)) in *.
  set (hi := MAX_LOT_SIZE (config self)) in *.
  assert (Hc : lo <= Py.min (Py.max raw lo) hi <= hi).
  { rewrite py_min_Qmin, py_max_Qmax. split.
    - apply Q.min_glb; [apply Q.le_max_r|exact Hlohi].
    - apply Q.le_min_r. }
  destruct Hc as [Hc1 Hc2].
  eexists. split; [reflexivity|].
  split; apply py_round_mono, Hmono; assumption.
Qed.

(** With the default limits 0.01, 100 and step 0.01 in exact arithmetic
    the lot size of the example is between 1 and 10000 steps. *)
Lemma calculate_lot_size_within_limits_witness :
  exists steps : Z,
    inject_Z 500 * 0.01 = inject_Z steps * 0.01 /\ (1 <= steps <= 10000)%Z.
Proof.
  destruct (calculate_lot_size_within_limits Fp.exact
              (init_engine Sample.default_config) Sample.client "EURUSD"
              (risk (Sample.signal "sig-1")) 20 (inject_Z 500 * 0.01))
    as (steps & Hlot & Hsteps).
  - reflexivity.
  - intros x y Hxy. apply Qmult_le_compat_r; [exact Hxy|discriminate].
  - discriminate.
  - exists steps. split; [exact Hlot|exact Hsteps].
Defined.

(** The capped risk amount of [calculate_lot_size] is not negative when
    its inputs are not. *)
Lemma risk_amount_nonneg (risk_config : RiskConfig) (bal : Q) :
  0 <= bal -> 0 <= percent risk_config -> 0 <= max_risk_per_trade risk_config ->
  (forall fixed, fixed_amount risk_config = Some fixed -> 0 <= fixed) ->
  0 <= Py.min
         (Py.if_num (fixed_amount risk_config) (fun fixed => fixed)
            (bal * (percent risk_config / 100)))
         (bal * (max_risk_per_trade risk_config / 100)).
Proof.
  intros Hbal Hpct Hmax Hfixed. rewrite py_min_Qmin. apply Q.min_glb.
  - unfold Py.if_num. destruct (fixed_amount risk_config) as [fixed|].
    + destruct (Py.truthy_num fixed); [now apply Hfixed|].
      apply Qmult_le_0_compat; [exact Hbal|]. apply Qle_shift_div_l; lra.
    + apply Qmult_le_0_compat; [exact Hbal|]. apply Qle_shift_div_l; lra.
  - apply Qmult_le_0_compat; [exact Hbal|]. apply Qle_shift_div_l; lra.
Qed.

(** X7.  For an account and a risk specification without negative entries
    and a positive lot step, a wider stop never gives a larger lot: with
    a positive value per point, stop distances 0 < d1 <= d2 are both
    sized, and the lot for d2 is at most the lot for d1. *)
Theorem calculate_lot_size_wider_stop_not_larger
    (self : TradingEngine) (mt5_client : MT5Client) (sym : string)
    (risk_config : RiskConfig) (d1 d2 : Q) (si : SymbolInfo) (acc : AccountInfo) :
  get_symbol_info mt5_client sym = Some si ->
  get_account_info mt5_client = Some acc ->
  0 < point si * (tick_value si * contract_size si) ->
  0 < LOT_STEP (config self) ->
  0 <= balance acc -> 0 <= percent risk_config ->
  0 <= max_risk_per_trade risk_config ->
  (forall fixed, fixed_amount risk_config = Some fixed -> 0 <= fixed) ->
  0 < d1 -> d1 <= d2 ->
  exists lot1 lot2,
    calculate_lot_size self mt5_client sym risk_config d1 = Some lot1
    /\ calculate_lot_size self mt5_client sym risk_config d2 = Some lot2
    /\ lot2 <= lot1.
Proof.
  intros Hsi Hacc Hunit Hstep Hbal Hpct Hmax Hfixed Hd1 Hd12.
  unfold calculate_lot_size. rewrite Hsi, Hacc. cbv zeta.
  pose proof (risk_amount_nonneg risk_config (balance acc) Hbal Hpct Hmax Hfixed)
    as Hrisk.
  set (risk_amount := Py.min _ _) in *.
  set (unit_value := tick_value si * contract_size si) in *.
  assert (Hl1 : 0 < d1 * point si * unit_value).
  { rewrite <- Qmult_assoc. apply Qmult_lt_0_compat; assumption. }
  assert (Hl12 : d1 * point si * unit_value <= d2 * point si * unit_value).
  { rewrite <- !Qmult_assoc. apply Qmult_le_compat_r; [exact Hd12|lra]. }
  assert (Hl2 : 0 < d2 * point si * unit_value) by lra.
  destruct (Qle_bool (d1 * point si * unit_value) 0) eqn:E1.
  { apply Qle_bool_iff in E1. lra. }
  destruct (Qle_bool (d2 * point si * unit_value) 0) eqn:E2.
  { apply Qle_bool_iff in E2. lra. }
  rewrite !py_div_nonzero by lra.
  eexists. eexists. split; [reflexivity|]. split; [reflexivity|].
  apply Qmult_le_compat_r; [|lra]. rewrite <- Zle_Qle. apply py_round_mono.
  apply Qmult_le_compat_r; [|apply Qlt_le_weak, Qinv_lt_0_compat; exact Hstep].
  apply py_min_mono, py_max_mono.
  apply Qle_shift_div_l; [exact Hl1|].
  set (loss1 := d1 * point si * unit_value) in *.
  set (loss2 := d2 * point si * unit_value) in *.
  assert (Hratio : loss1 / loss2 <= 1) by (apply Qle_shift_div_r; lra).
  assert (Heq : risk_amount / loss2 * loss1 == risk_amount * (loss1 / loss2)).
  { field. intros H. rewrite H in Hl2. lra. }
  rewrite Heq, (Qmult_comm risk_amount).
  apply Qle_trans with (1 * risk_amount).
  - apply Qmult_le_compat_r; assumption.
  - rewrite Qmult_1_l. apply Qle_refl.
Qed.

(** The theorem on the example: stops of 20 and of 40 points. *)
Lemma calculate_lot_size_wider_stop_not_larger_witness :
  exists lot1 lot2,
    calculate_lot_size (init_engine Sample.default_config) Sample.client
      "EURUSD" (risk (Sample.signal "sig-1")) 20 = Some lot1
    /\ calculate_lot_size (init_engine Sample.default_config) Sample.client
         "EURUSD" (risk (Sample.signal "sig-1")) 40 = Some lot2
    /\ lot2 <= lot1.
Proof.
  apply (calculate_lot_size_wider_stop_not_larger
           (init_engine Sample.default_config) Sample.client "EURUSD"
           (risk (Sample.signal "sig-1")) 20 40 Sample.eurusd Sample.account).
  - reflexivity.
  - reflexivity.
  - reflexivity.
  - reflexivity.
  - discriminate.
  - discriminate.
  - discriminate.
  - intros fixed H. discriminate H.
  - reflexivity.
  - discriminate.
Defined.

(** X8.  The test double's sizing agrees with the engine's whenever the
    engine runs with the limits 0.01, 100 and step 0.01 that the mock
    hard-codes, the signal has no (or a zero) fixed risk amount, and the
    percentage risk does not exceed the cap the mock does not know. *)
Theorem mock_calculate_lot_size_agrees
    (self : TradingEngine) (mt5_client : MT5Client) (sym : string)
    (risk_config : RiskConfig) (sl_points : Q) :
  config self = Sample.default_config ->
  Py.falsy (fixed_amount risk_config) ->
  (forall acc, get_account_info mt5_client = Some acc ->
     balance acc * (percent risk_config / 100)
     <= balance acc * (max_risk_per_trade risk_config / 100)) ->
  mock_calculate_lot_size mt5_client sym risk_config sl_points
  = calculate_lot_size self mt5_client sym risk_config sl_points.
Proof.
  intros Hcfg Hfixed Hcap. unfold mock_calculate_lot_size, calculate_lot_size.
  destruct (get_symbol_info mt5_client sym) as [si|]; [|reflexivity].
  destruct (get_account_info mt5_client) as [acc|]; [|reflexivity].
  specialize (Hcap acc eq_refl). cbv zeta.
  destruct (Qle_bool _ 0); [reflexivity|].
  rewrite Hcfg, (if_num_falsy _ _ _ Hfixed). cbn [Sample.default_config
    MIN_LOT_SIZE MAX_LOT_SIZE LOT_STEP].
  unfold Py.min at 3. rewrite (ltb_false _ _ Hcap).
  reflexivity.
Qed.

Lemma mock_calculate_lot_size_agrees_witness :
  mock_calculate_lot_size Sample.client "EURUSD" (risk (Sample.signal "sig-1")) 20
  = calculate_lot_size (init_engine Sample.default_config) Sample.client
      "EURUSD" (risk (Sample.signal "sig-1")) 20.
Proof.
  apply (mock_calculate_lot_size_agrees
           (init_engine Sample.default_config) Sample.client "EURUSD"
           (risk (Sample.signal "sig-1")) 20).
  - reflexivity.
  - exact I.
  - intros acc H. injection H as <-. discriminate.
Defined.

(** ** Stop and target: sides and the realised ratio *)

(** After the minimum-distance block a price stays on its side of the
    entry: the block either keeps the price or moves it to a positive
    distance on the side of the order. *)
Lemma check_min_distance_sl_side (sd : OrderSide) (entry_price min_distance p : Q) :
  match sd with BUY => p < entry_price | SELL => entry_price < p end ->
  exists s,
    check_min_distance_sl sd entry_price min_distance (Some p) = Some s
    /\ match sd with BUY => s < entry_price | SELL => entry_price < s end.
Proof.
  intros Hside. unfold check_min_distance_sl, Py.if_num.
  destruct (Py.truthy_num p); [|eauto].
  destruct (Py.ltb (Qabs (entry_price - p)) min_distance) eqn:Hnear; [|eauto].
  assert (Hpos : 0 < min_distance).
  { unfold Py.ltb in Hnear. apply negb_true_iff in Hnear.
    assert (~ min_distance <= Qabs (entry_price - p)).
    { intros H. apply Qle_bool_iff in H. congruence. }
    pose proof (Qabs_nonneg (entry_price - p)). lra. }
  destruct sd; eexists; (split; [reflexivity|lra]).
Qed.

Lemma check_min_distance_tp_side (sd : OrderSide) (entry_price min_distance p : Q) :
  match sd with BUY => entry_price < p | SELL => p < entry_price end ->
  exists t,
    check_min_distance_tp sd entry_price min_distance (Some p) = Some t
    /\ match sd with BUY => entry_price < t | SELL => t < entry_price end.
Proof.
  intros Hside. unfold check_min_distance_tp, Py.if_num.
  destruct (Py.truthy_num p); [|eauto].
  destruct (Py.ltb (Qabs (entry_price - p)) min_distance) eqn:Hnear; [|eauto].
  assert (Hpos : 0 < min_distance).
  { unfold Py.ltb in Hnear. apply negb_true_iff in Hnear.
    assert (~ min_distance <= Qabs (entry_price - p)).
    { intros H. apply Qle_bool_iff in H. congruence. }
    pose proof (Qabs_nonneg (entry_price - p)). lra. }
  destruct sd; eexists; (split; [reflexivity|lra]).
Qed.

(** X9.  With a positive point size, a stop and a target given as positive
    pip distances come back on the right sides of the entry: on a BUY the
    stop strictly below and the target strictly above, on a SELL the
    other way round, whatever the minimum distance is. *)
Theorem pip_stop_and_target_sides
    (self : TradingEngine) (mt5_client : MT5Client) (sym : string)
    (sd : OrderSide) (entry_price : Q) (sl_config : StopLossConfig)
    (tp_config : TakeProfitConfig) (si : SymbolInfo) (n m : Z) :
  get_symbol_info mt5_client sym = Some si ->
  0 < point si ->
  sl_pips sl_config = Some n -> (0 < n)%Z ->
  tp_pips tp_config = Some m -> (0 < m)%Z ->
  exists s t,
    calculate_sl_tp_prices self mt5_client sym sd entry_price sl_config tp_config
    = (Some s, Some t)
    /\ match sd with
       | BUY => s < entry_price /\ entry_price < t
       | SELL => t < entry_price /\ entry_price < s
       end.
Proof.
  intros Hsi Hpoint Hn Hnpos Hm Hmpos.
  rewrite (calculate_sl_tp_prices_blocks _ _ _ _ _ _ _ _ Hsi).
  unfold compute_stop_loss, compute_take_profit. rewrite Hn, Hm.
  rewrite !if_int_truthy by lia.
  assert (Hdn : 0 < inject_Z n * point si).
  { apply Qmult_lt_0_compat; [|exact Hpoint].
    change 0 with (inject_Z 0). now rewrite <- Zlt_Qlt. }
  assert (Hdm : 0 < inject_Z m * point si).
  { apply Qmult_lt_0_compat; [|exact Hpoint].
    change 0 with (inject_Z 0). now rewrite <- Zlt_Qlt. }
  set (md := inject_Z (STOP_LEVEL_PIPS (config self)) * point si).
  destruct sd.
  - destruct (check_min_distance_sl_side BUY entry_price md
                (entry_price - inject_Z n * point si)) as (s & Hs & Hs');
      [cbn; lra|].
    destruct (check_min_distance_tp_side BUY entry_price md
                (entry_price + inject_Z m * point si)) as (t & Ht & Ht');
      [cbn; lra|].
    exists s, t. rewrite Hs, Ht. auto.
  - destruct (check_min_distance_sl_side SELL entry_price md
                (entry_price + inject_Z n * point si)) as (s & Hs & Hs');
      [cbn; lra|].
    destruct (check_min_distance_tp_side SELL entry_price md
                (entry_price - inject_Z m * point si)) as (t & Ht & Ht');
      [cbn; lra|].
    exists s, t. rewrite Hs, Ht. auto.
Qed.

(** The theorem on the sample signal: a BUY at 1.1000 with 20 and 40
    points. *)
Lemma pip_stop_and_target_sides_witness :
  exists s t,
    calculate_sl_tp_prices (init_engine Sample.default_config) Sample.client
      "EURUSD" BUY 1.1 (sl (Sample.signal "sig-1")) (tp (Sample.signal "sig-1"))
    = (Some s, Some t)
    /\ s < 1.1 /\ 1.1 < t.
Proof.
  apply (pip_stop_and_target_sides
           (init_engine Sample.default_config) Sample.client "EURUSD" BUY 1.1
           (sl (Sample.signal "sig-1")) (tp (Sample.signal "sig-1"))
           Sample.eurusd 20 40).
  - reflexivity.
  - reflexivity.
  - reflexivity.
  - lia.
  - reflexivity.
  - lia.
Defined.

(** X10.  A target taken from the risk:reward ratio realises the ratio
    when the minimum distance moves neither price: its distance from the
    entry is the stop's distance times the ratio, on the profit side. *)
Theorem risk_reward_ratio_realised
    (self : TradingEngine) (mt5_client : MT5Client) (sym : string)
    (sd : OrderSide) (entry_price : Q) (sl_config : StopLossConfig)
    (tp_config : TakeProfitConfig) (si : SymbolInfo) (r s : Q) :
  get_symbol_info mt5_client sym = Some si ->
  Py.falsy_int (tp_pips tp_config) ->
  Py.falsy (tp_price_cfg tp_config) ->
  risk_reward_ratio tp_config = Some r -> 0 < r ->
  compute_stop_loss si sd entry_price sl_config = Some s -> ~ s == 0 ->
  let min_distance := inject_Z (STOP_LEVEL_PIPS (config self)) * point si in
  min_distance <= Qabs (entry_price - s) ->
  min_distance <= Qabs (entry_price - s) * r ->
  exists t,
    calculate_sl_tp_prices self mt5_client sym sd entry_price sl_config tp_config
    = (Some s, Some t)
    /\ Qabs (entry_price - t) == Qabs (entry_price - s) * r
    /\ match sd with BUY => entry_price <= t | SELL => t <= entry_price end.
Proof.
  intros Hsi Hpips Hprice Hr Hrpos Hs Hsz min_distance Hfar_s Hfar_t.
  rewrite (calculate_sl_tp_prices_blocks _ _ _ _ _ _ _ _ Hsi). rewrite Hs.
  unfold compute_take_profit.
  rewrite (if_int_falsy _ _ _ Hpips), (if_num_falsy _ _ _ Hprice), Hr.
  rewrite if_num_truthy by lra. rewrite (if_num_truthy _ _ _ Hsz).
  fold min_distance. rewrite (check_min_distance_sl_far _ _ _ _ Hfar_s).
  pose proof (Qabs_nonneg (entry_price - s)) as Hd.
  assert (Hreward : 0 <= Qabs (entry_price - s) * r).
  { apply Qmult_le_0_compat; lra. }
  destruct sd.
  - assert (Hdist : Qabs (entry_price - (entry_price + Qabs (entry_price - s) * r))
                    == Qabs (entry_price - s) * r).
    { rewrite Qabs_neg by lra. ring. }
    exists (entry_price + Qabs (entry_price - s) * r).
    rewrite check_min_distance_tp_far by (rewrite Hdist; exact Hfar_t).
    split; [reflexivity|]. split; [exact Hdist|lra].
  - assert (Hdist : Qabs (entry_price - (entry_price - Qabs (entry_price - s) * r))
                    == Qabs (entry_price - s) * r).
    { rewrite Qabs_pos by lra. ring. }
    exists (entry_price - Qabs (entry_price - s) * r).
    rewrite check_min_distance_tp_far by (rewrite Hdist; exact Hfar_t).
    split; [reflexivity|]. split; [exact Hdist|lra].
Qed.

(** The theorem on a BUY at 1.1000 with a stop of 20 points and a ratio of
    2: the target is 40 points above the entry. *)
Lemma risk_reward_ratio_realised_witness :
  let tp_config :=
    {| tp_pips := None; tp_price_cfg := None; risk_reward_ratio := Some 2 |} in
  exists t,
    calculate_sl_tp_prices (init_engine Sample.default_config) Sample.client
      "EURUSD" BUY 1.1 (sl (Sample.signal "sig-1")) tp_config
    = (Some (1.1 - inject_Z 20 * 0.00001), Some t)
    /\ Qabs (1.1 - t) == Qabs (1.1 - (1.1 - inject_Z 20 * 0.00001)) * 2
    /\ 1.1 <= t.
Proof.
  cbv zeta.
  apply (risk_reward_ratio_realised
           (init_engine Sample.default_config) Sample.client "EURUSD" BUY 1.1
           (sl (Sample.signal "sig-1"))
           {| tp_pips := None; tp_price_cfg := None; risk_reward_ratio := Some 2 |}
           Sample.eurusd 2 (1.1 - inject_Z 20 * 0.00001)).
  - reflexivity.
  - now left.
  - exact I.
  - reflexivity.
  - reflexivity.
  - reflexivity.
  - discriminate.
  - vm_compute. discriminate.
  - vm_compute. discriminate.
Defined.

(** ** [execute_signal]: what a result means *)

(** X11.  A call succeeds exactly when it has subscribed the symbol, sent
    one order, the terminal has answered that order with the return code
    DONE and the time of the answer could be converted to a [datetime].
    When the conversion raises after a DONE answer, the order has been
    sent and the call returns the internal error. *)
Theorem execute_signal_success_iff
    (mt5 : MetaTrader5) (mt5_client : MT5Client) (now1 now2 : Z)
    (self : TradingEngine) (signal : TradingSignal) :
  let out := execute_signal mt5 mt5_client now1 now2 self signal in
  (success (returned out) = true
   <-> exists request result time,
         calls out = [SymbolSelect (symbol signal); OrderSend request]
         /\ order_send mt5 request = Some result
         /\ retcode result = TRADE_RETCODE_DONE mt5
         /\ datetime_fromtimestamp mt5 (res_time result) = Some time)
  /\ (forall request result,
        calls out = [SymbolSelect (symbol signal); OrderSend request] ->
        order_send mt5 request = Some result ->
        retcode result = TRADE_RETCODE_DONE mt5 ->
        datetime_fromtimestamp mt5 (res_time result) = None ->
        returned out = failure InternalError).
Proof.
  cbv zeta. execute_signal_stages mt5 mt5_client signal; cbn;
    try (split;
         [ split; [discriminate|intros (? & ? & ? & ? & _); discriminate]
         | intros ? ? ?; discriminate ]).
  - split.
    + split; [intros _|reflexivity].
      do 3 eexists. split; [reflexivity|]. split; [eassumption|].
      split; [now apply Z.eqb_eq|eassumption].
    + intros request result Hcalls Hsend _ Htime.
      inversion Hcalls; subst request. congruence.
  - split; [|reflexivity].
    split; [discriminate|].
    intros (request & result & time & Hcalls & Hsend & _ & Htime).
    inversion Hcalls; subst request. congruence.
  - split.
    + split; [discriminate|].
      intros (request & result & time & Hcalls & Hsend & Hdone & _).
      inversion Hcalls; subst request.
      apply Z.eqb_eq in Hdone. congruence.
    + intros request result Hcalls Hsend Hdone _.
      inversion Hcalls; subst request.
      apply Z.eqb_eq in Hdone. congruence.
  - split; [|reflexivity].
    split; [discriminate|].
    intros (request & result & time & Hcalls & Hsend & _).
    inversion Hcalls; subst request. congruence.
Qed.

(** The second part at work: a terminal that fills the order and stamps
    its answer with the first second of the year 10000. *)
Example execute_signal_time_rejected :
  let mt5 :=
    {| TRADE_RETCODE_DONE := 10009;
       POSITION_TYPE_BUY := 0;
       SYMBOL_CALC_MODE_FOREX := 0;
       SYMBOL_CALC_MODE_FUTURES := 1;
       symbol_info := symbol_info (Sample.terminal 10009);
       symbol_info_tick := symbol_info_tick (Sample.terminal 10009);
       positions_get := positions_get (Sample.terminal 10009);
       order_send := fun request =>
         Some {| retcode := 10009; res_order := 1001; res_position := 1001;
                 res_price := 1.1; res_comment := "done";
                 res_time := 253402300800 |};
       datetime_fromtimestamp := Sample.utc_fromtimestamp |} in
  let out :=
    execute_signal mt5 Sample.client 0 0 (init_engine Sample.default_config)
      (Sample.signal "sig-1") in
  returned out = failure InternalError
  /\ length (orders (calls out)) = 1%nat.
Proof. vm_compute. split; reflexivity. Qed.

(** X12.  Every result is of one of two shapes.  A failure carries an
    error message and no order data at all; a success carries no error
    message, the terminal's order and position ids and fill price, and a
    lot size that is not zero. *)
Theorem execute_signal_result_shape
    (mt5 : MetaTrader5) (mt5_client : MT5Client) (now1 now2 : Z)
    (self : TradingEngine) (signal : TradingSignal) :
  let result := returned (execute_signal mt5 mt5_client now1 now2 self signal) in
  (success result = false /\ (exists msg, result = failure msg))
  \/ (success result = true
      /\ error_message result = None
      /\ is_Some (order_id result)
      /\ is_Some (position_id result)
      /\ is_Some (executed_price result)
      /\ Py.truthy (lot_size result) = true).
Proof.
  cbv zeta. execute_signal_stages mt5 mt5_client signal; cbn;
    try (left; split; [reflexivity|eauto]).
  right. repeat split; eauto.
Qed.

(** X13.  One call sends at most one order, and none at all when it
    returns one of the failures that precede the submission: a used key,
    an unavailable symbol, symbol data or price, or a lot size that could
    not be computed. *)
Theorem execute_signal_orders
    (mt5 : MetaTrader5) (mt5_client : MT5Client) (now1 now2 : Z)
    (self : TradingEngine) (signal : TradingSignal) :
  let out := execute_signal mt5 mt5_client now1 now2 self signal in
  (length (orders (calls out)) <= 1)%nat
  /\ (forall msg,
        error_message (returned out) = Some msg ->
        msg = KeyAlreadyUsed
        \/ msg = SymbolNotAvailable (symbol signal)
        \/ msg = SymbolInfoNotAvailable (symbol signal)
        \/ msg = PriceNotAvailable (symbol signal)
        \/ msg = LotSizeNotComputed ->
        orders (calls out) = []).
Proof.
  cbv zeta. execute_signal_stages mt5 mt5_client signal; cbn;
    (split; [lia|]); intros msg Hmsg Hkind; try reflexivity;
    try discriminate Hmsg; injection Hmsg as <-; intuition discriminate.
Qed.

(** X14.  A symbol with a point size of zero and a stop given as a price:
    the stop distance is a division by zero, which the call reports as an
    internal error; no order is sent. *)
Theorem execute_signal_zero_point
    (mt5 : MetaTrader5) (mt5_client : MT5Client) (now1 now2 : Z)
    (self : TradingEngine) (signal : TradingSignal)
    (si : SymbolInfo) (tick : Tick) (p : Q) :
  (validate_idempotency self now1 now2 (idempotency_key signal)).1 = true ->
  subscribe_symbol mt5_client (symbol signal) = true ->
  get_symbol_info mt5_client (symbol signal) = Some si ->
  symbol_info_tick mt5 (symbol signal) = Some tick ->
  Py.falsy_int (sl_pips (sl signal)) ->
  sl_price_cfg (sl signal) = Some p -> ~ p == 0 ->
  point si == 0 ->
  let out := execute_signal mt5 mt5_client now1 now2 self signal in
  returned out = failure InternalError
  /\ calls out = [SymbolSelect (symbol signal)].
Proof.
  intros Hadm Hsub Hsi Htick Hpips Hprice Hp Hpoint out. subst out.
  unfold execute_signal.
  destruct (validate_idempotency self now1 now2 (idempotency_key signal))
    as [admitted self'].
  cbn in Hadm. subst admitted. cbn [negb].
  rewrite Hsub, Hsi, Htick. cbn [negb].
  unfold derive_sl_points.
  rewrite (if_int_falsy _ _ _ Hpips), Hprice, (if_num_truthy _ _ _ Hp).
  unfold Py.div. apply Qeq_bool_iff in Hpoint. rewrite Hpoint.
  split; reflexivity.
Qed.

Lemma execute_signal_zero_point_witness :
  let out :=
    execute_signal (Sample.terminal 10009) World.flat_client 0 0
      (init_engine Sample.default_config) World.price_stop_signal in
  returned out = failure InternalError
  /\ calls out = [SymbolSelect (symbol World.price_stop_signal)].
Proof.
  apply (execute_signal_zero_point (Sample.terminal 10009) World.flat_client 0 0
           (init_engine Sample.default_config) World.price_stop_signal
           World.flat {| bid := 1.0999; ask := 1.1 |} 1.09).
  - reflexivity.
  - reflexivity.
  - reflexivity.
  - reflexivity.
  - now left.
  - reflexivity.
  - discriminate.
  - reflexivity.
Defined.

(** X15.  A signal with an empty idempotency key is never rejected as a
    duplicate and leaves the engine exactly as it was, so any number of
    such signals can follow one another. *)
Theorem execute_signal_empty_key
    (mt5 : MetaTrader5) (mt5_client : MT5Client) (now1 now2 : Z)
    (self : TradingEngine) (signal : TradingSignal) :
  idempotency_key signal = EmptyString ->
  engine (execute_signal mt5 mt5_client now1 now2 self signal) = self
  /\ error_message (returned (execute_signal mt5 mt5_client now1 now2 self signal))
     <> Some KeyAlreadyUsed.
Proof.
  intros Hkey. split.
  - rewrite execute_signal_engine, Hkey. reflexivity.
  - execute_signal_stages mt5 mt5_client signal; cbn; try discriminate.
    rewrite Hkey in *. discriminate.
Qed.

Lemma execute_signal_empty_key_witness :
  engine (execute_signal (Sample.terminal 10009) Sample.client 0 0
            (init_engine Sample.default_config) (Sample.signal EmptyString))
  = init_engine Sample.default_config.
Proof.
  apply (execute_signal_empty_key (Sample.terminal 10009) Sample.client 0 0
           (init_engine Sample.default_config) (Sample.signal EmptyString)).
  reflexivity.
Defined.

(** ** Direct orders *)


(** A stop distance of zero points is never sized. *)
Lemma calculate_lot_size_zero_points (self : TradingEngine) (mt5_client : MT5Client)
    (sym : string) (risk_config : RiskConfig) :
  calculate_lot_size self mt5_client sym risk_config 0 = None.
Proof.
  destruct (get_symbol_info mt5_client sym) as [si|] eqn:Hsi.
  - apply (calculate_lot_size_invalid_stop _ _ _ _ _ si Hsi). lra.
  - unfold calculate_lot_size. now rewrite Hsi.
Qed.

(** X16.  A direct order without a stop-loss (none given, or 0.0) is never
    executed: the route builds a signal whose stop distance is 0 points,
    so the call fails and no order reaches the terminal. *)
Theorem direct_order_without_stop_never_sent
    (mt5 : MetaTrader5) (mt5_client : MT5Client) (now1 now2 : Z)
    (self : TradingEngine) (order_data : OrderRequest) :
  Py.falsy (or_sl order_data) ->
  let out :=
    execute_signal mt5 mt5_client now1 now2 self (direct_order_signal order_data) in
  success (returned out) = false /\ orders (calls out) = [].
Proof.
  intros Hstop out. subst out. unfold execute_signal.
  change (validate_idempotency self now1 now2
            (idempotency_key (direct_order_signal order_data)))
    with (true, self).
  cbn [negb].
  destruct (subscribe_symbol mt5_client _); cbn [negb]; [|now split].
  destruct (get_symbol_info mt5_client _) as [si|]; [|now split].
  destruct (symbol_info_tick mt5 _) as [tick|]; [|now split].
  unfold derive_sl_points. cbn [direct_order_signal sl sl_pips sl_price_cfg Py.if_int].
  rewrite (if_num_falsy _ _ _ Hstop), calculate_lot_size_zero_points.
  now split.
Qed.

Lemma direct_order_without_stop_never_sent_witness :
  let out :=
    execute_signal (Sample.terminal 10009) Sample.client 0 0
      (init_engine Sample.default_config)
      (direct_order_signal (World.direct_order None)) in
  success (returned out) = false /\ orders (calls out) = [].
Proof.
  apply (direct_order_without_stop_never_sent (Sample.terminal 10009)
           Sample.client 0 0 (init_engine Sample.default_config)
           (World.direct_order None)).
  exact I.
Defined.



(** ** The position pass-throughs: unknown tickets and closing *)

(** X18.  When the terminal knows no position for the ticket (it answers
    [None] or an empty tuple), [modify_position] and [close_position]
    return [False] and make no call on the terminal. *)
Theorem pass_through_unknown_ticket
    (mt5 : MetaTrader5) (self : TradingEngine) (ticket : Z) :
  positions_get mt5 ticket = None \/ positions_get mt5 ticket = Some [] ->
  (forall new_sl new_tp,
     modify_position mt5 self ticket new_sl new_tp
     = {| returned := false; engine := self; calls := [] |})
  /\ (forall volume,
        close_position mt5 self ticket volume
        = {| returned := false; engine := self; calls := [] |}).
Proof.
  intros Hnone. unfold modify_position, close_position.
  destruct Hnone as [-> | ->]; split; reflexivity.
Qed.

(** X19.  Closing an existing position sends one deal in the opposite
    direction (a sell for a buy position, a buy for any other), naming the
    ticket and carrying the position's symbol and magic number.  A volume
    that is not zero is sent as given, without comparison with the
    position's volume.  The result is [True] exactly when the terminal
    answers DONE. *)
Theorem close_position_request
    (mt5 : MetaTrader5) (self : TradingEngine) (ticket : Z)
    (pos : Position) (others : list Position) (volume : Q) :
  positions_get mt5 ticket = Some (pos :: others) ->
  ~ volume == 0 ->
  let out := close_position mt5 self ticket (Some volume) in
  exists request,
    calls out = [OrderSend request]
    /\ req_action request = TRADE_ACTION_DEAL
    /\ req_symbol request = pos_symbol pos
    /\ req_position request = Some ticket
    /\ req_magic request = Some (pos_magic pos)
    /\ req_volume request = Some volume
    /\ (req_type request = Some ORDER_TYPE_SELL
        <-> pos_type pos = POSITION_TYPE_BUY mt5)
    /\ (req_type request = Some ORDER_TYPE_BUY
        <-> pos_type pos <> POSITION_TYPE_BUY mt5)
    /\ (returned out = true
        <-> exists result, order_send mt5 request = Some result
                           /\ retcode result = TRADE_RETCODE_DONE mt5).
Proof.
  intros Hpos Hvol out. subst out. unfold close_position. rewrite Hpos.
  unfold Py.or_else. rewrite (if_num_truthy _ _ _ Hvol).
  match goal with |- context [order_send mt5 ?r] => set (request := r) end.
  exists request.
  assert (Htype : (req_type request = Some ORDER_TYPE_SELL
                   <-> pos_type pos = POSITION_TYPE_BUY mt5)
                  /\ (req_type request = Some ORDER_TYPE_BUY
                      <-> pos_type pos <> POSITION_TYPE_BUY mt5)).
  { subst request. cbn.
    destruct (pos_type pos =? POSITION_TYPE_BUY mt5)%Z eqn:E.
    - apply Z.eqb_eq in E. split; split; try tauto; try discriminate.
    - apply Z.eqb_neq in E. split; split; try tauto; try discriminate. }
  destruct Htype as [Hsell Hbuy].
  destruct (order_send mt5 request) as [result|] eqn:Hsend; cbn [calls returned].
  - repeat split; try reflexivity; try apply Hsell; try apply Hbuy.
    + intros Hdone. exists result. split; [reflexivity|]. now apply Z.eqb_eq.
    + intros (result' & Heq & Hdone). injection Heq as <-. now apply Z.eqb_eq.
  - repeat split; try reflexivity; try apply Hsell; try apply Hbuy;
      try discriminate.
    intros (result' & Heq & _). discriminate.
Qed.

(** The theorem on a position of 0.5 lots: a request to close 2 lots is
    sent with a volume of 2. *)
Lemma close_position_request_witness :
  let out :=
    close_position (Sample.terminal 10009) (init_engine Sample.default_config)
      42 (Some 2) in
  exists request,
    calls out = [OrderSend request]
    /\ req_volume request = Some 2
    /\ req_type request = Some ORDER_TYPE_SELL.
Proof.
  cbv zeta.
  destruct (close_position_request (Sample.terminal 10009)
              (init_engine Sample.default_config) 42
              {| pos_ticket := 42; pos_symbol := "EURUSD"; pos_type := 0;
                 pos_volume := 0.5; pos_sl := 1.0950; pos_tp := 1.1100;
                 pos_magic := 7 |} [] 2)
    as (request & Hcalls & _ & _ & _ & _ & Hvol & Hsell & _).
  - reflexivity.
  - discriminate.
  - exists request. split; [exact Hcalls|]. split; [exact Hvol|].
    apply Hsell. reflexivity.
Defined.

Lemma pass_through_unknown_ticket_witness :
  let mt5 :=
    {| TRADE_RETCODE_DONE := 10009; POSITION_TYPE_BUY := 0;
       SYMBOL_CALC_MODE_FOREX := 0; SYMBOL_CALC_MODE_FUTURES := 1;
       symbol_info := fun _ => None; symbol_info_tick := fun _ => None;
       positions_get := fun _ => None; order_send := fun _ => None;
       datetime_fromtimestamp := Sample.utc_fromtimestamp |} in
  modify_position mt5 (init_engine Sample.default_config) 42 (Some 1.09) None
  = {| returned := false; engine := init_engine Sample.default_config;
       calls := [] |}.
Proof.
  cbv zeta.
  match goal with
  | |- modify_position ?m ?e ?t ?s ?p = _ =>
      destruct (pass_through_unknown_ticket m e t (or_introl eq_refl))
        as [Hmodify _]; apply Hmodify
  end.
Defined.

(** ** The margin checker: failing closed, monotone, proportional *)

(** X20.  The margin check never answers "sufficient" without data: a
    positive answer means the terminal knew the symbol, the account was
    available and, for a forex symbol, the leverage was not zero. *)
Theorem check_margin_sufficient_needs_data
    (mt5 : MetaTrader5) (mt5_client : MT5Client) (sym : string) (volume price : Q) :
  check_margin_sufficient mt5 mt5_client sym volume price = true ->
  exists si acc,
    symbol_info mt5 sym = Some si
    /\ get_account_info mt5_client = Some acc
    /\ (mt5_margin_mode si = SYMBOL_CALC_MODE_FOREX mt5 -> leverage acc <> 0%Z).
Proof.
  unfold check_margin_sufficient, calculate_margin_required, get_margin_info,
    get_account_summary.
  destruct (get_account_info mt5_client) as [acc|]; [|discriminate].
  destruct (symbol_info mt5 sym) as [si|]; [|discriminate].
  cbn [mi_margin_mode]. intros Hcheck. exists si, acc.
  split; [reflexivity|]. split; [reflexivity|].
  intros Hforex Hlev. apply Z.eqb_eq in Hforex. rewrite Hforex, Hlev in Hcheck.
  discriminate.
Qed.

Lemma check_margin_sufficient_needs_data_witness :
  exists si acc,
    symbol_info (Sample.terminal 10009) "EURUSD" = Some si
    /\ get_account_info Sample.client = Some acc
    /\ (mt5_margin_mode si = SYMBOL_CALC_MODE_FOREX (Sample.terminal 10009) ->
        leverage acc <> 0%Z).
Proof.
  apply (check_margin_sufficient_needs_data (Sample.terminal 10009)
           Sample.client "EURUSD" 1 1.1).
  reflexivity.
Defined.

(** The required margin as a multiple of the volume. *)
Lemma calculate_margin_required_scales
    (mt5 : MetaTrader5) (mt5_client : MT5Client) (sym : string)
    (si : Mt5SymbolInfo) (acc : AccountInfo) :
  symbol_info mt5 sym = Some si ->
  get_account_info mt5_client = Some acc ->
  (mt5_margin_mode si = SYMBOL_CALC_MODE_FOREX mt5 -> leverage acc <> 0%Z) ->
  exists per_lot,
    (forall volume price,
       exists required,
         calculate_margin_required mt5 mt5_client sym volume price = Some required
         /\ required == per_lot * volume)
    /\ (0 <= trade_contract_size si -> 0 <= mt5_margin_rate si ->
        0 <= mt5_margin_required si -> (0 <= leverage acc)%Z ->
        0 <= per_lot).
Proof.
  intros Hsi Hacc Hlev.
  unfold calculate_margin_required, get_margin_info, get_account_summary.
  rewrite Hsi, Hacc. cbn [mi_margin_mode mi_margin_rate mi_margin_required].
  destruct (mt5_margin_mode si =? SYMBOL_CALC_MODE_FOREX mt5)%Z eqn:Hforex.
  - apply Z.eqb_eq in Hforex. specialize (Hlev Hforex).
    assert (Hnz : ~ inject_Z (leverage acc) == 0).
    { intros H. apply Hlev. unfold Qeq in H. cbn in H. lia. }
    exists (trade_contract_size si / inject_Z (leverage acc)). split.
    + intros volume price. rewrite (py_div_nonzero _ _ Hnz).
      eexists. split; [reflexivity|]. field. exact Hnz.
    + intros Hc _ _ Hl. apply Qle_shift_div_l; [|lra].
      assert (0 <= inject_Z (leverage acc)).
      { change 0 with (inject_Z 0). now rewrite <- Zle_Qle. }
      destruct (Qlt_le_dec 0 (inject_Z (leverage acc))) as [Hpos|Hneg];
        [exact Hpos|].
      exfalso. apply Hnz. lra.
  - destruct (mt5_margin_mode si =? SYMBOL_CALC_MODE_FUTURES mt5)%Z.
    + exists (trade_contract_size si * mt5_margin_rate si). split.
      * intros volume price. eexists. split; [reflexivity|]. ring.
      * intros Hc Hr _ _. now apply Qmult_le_0_compat.
    + exists (mt5_margin_required si). split.
      * intros volume price. eexists. split; [reflexivity|]. ring.
      * intros _ _ Hm _. exact Hm.
Qed.

(** X21.  The required margin is proportional to the volume: with the
    symbol and the account available (and a non-zero leverage for a forex
    symbol), scaling the volume by a factor scales the requirement by the
    same factor, in every margin mode; the price is not used. *)
Theorem calculate_margin_required_proportional
    (mt5 : MetaTrader5) (mt5_client : MT5Client) (sym : string)
    (si : Mt5SymbolInfo) (acc : AccountInfo) (volume factor price price' : Q) :
  symbol_info mt5 sym = Some si ->
  get_account_info mt5_client = Some acc ->
  (mt5_margin_mode si = SYMBOL_CALC_MODE_FOREX mt5 -> leverage acc <> 0%Z) ->
  exists required scaled,
    calculate_margin_required mt5 mt5_client sym volume price = Some required
    /\ calculate_margin_required mt5 mt5_client sym (factor * volume) price'
       = Some scaled
    /\ scaled == factor * required.
Proof.
  intros Hsi Hacc Hlev.
  destruct (calculate_margin_required_scales mt5 mt5_client sym si acc Hsi Hacc Hlev)
    as (per_lot & Hscale & _).
  destruct (Hscale volume price) as (required & Hreq & Hr).
  destruct (Hscale (factor * volume) price') as (scaled & Hsc & Hs).
  exists required, scaled. split; [exact Hreq|]. split; [exact Hsc|].
  rewrite Hs, Hr. ring.
Qed.

Lemma calculate_margin_required_proportional_witness :
  exists required scaled,
    calculate_margin_required (Sample.terminal 10009) Sample.client
      "EURUSD" 1 1.1 = Some required
    /\ calculate_margin_required (Sample.terminal 10009) Sample.client
         "EURUSD" (5 * 1) 1.2 = Some scaled
    /\ scaled == 5 * required.
Proof.
  apply (calculate_margin_required_proportional (Sample.terminal 10009)
           Sample.client "EURUSD"
           {| mt5_margin_required := 1000; mt5_margin_mode := 0;
              mt5_margin_currency := "USD"; mt5_margin_rate := 1;
              trade_contract_size := 100000 |}
           Sample.account 1 5 1.1 1.2).
  - reflexivity.
  - reflexivity.
  - discriminate.
Defined.

(** A positive answer for a forex symbol excludes a zero leverage. *)
Lemma check_margin_excludes_zero_leverage
    (mt5 : MetaTrader5) (mt5_client : MT5Client) (sym : string) (volume price : Q)
    (si : Mt5SymbolInfo) (acc : AccountInfo) :
  symbol_info mt5 sym = Some si ->
  get_account_info mt5_client = Some acc ->
  check_margin_sufficient mt5 mt5_client sym volume price = true ->
  mt5_margin_mode si = SYMBOL_CALC_MODE_FOREX mt5 -> leverage acc <> 0%Z.
Proof.
  intros Hsi Hacc.
  unfold check_margin_sufficient, calculate_margin_required, get_margin_info,
    get_account_summary.
  rewrite Hacc, Hsi. cbn [mi_margin_mode].
  intros Hcheck Hforex Hlev. apply Z.eqb_eq in Hforex.
  rewrite Hforex, Hlev in Hcheck. discriminate.
Qed.

(** X22.  With a contract size, margin rate, quoted margin and leverage
    that are not negative, the check is monotone in the volume: if the
    free margin suffices for a volume, it suffices for every smaller
    one. *)
Theorem check_margin_sufficient_monotone
    (mt5 : MetaTrader5) (mt5_client : MT5Client) (sym : string)
    (si : Mt5SymbolInfo) (acc : AccountInfo) (volume smaller price : Q) :
  symbol_info mt5 sym = Some si ->
  get_account_info mt5_client = Some acc ->
  0 <= trade_contract_size si -> 0 <= mt5_margin_rate si ->
  0 <= mt5_margin_required si -> (0 <= leverage acc)%Z ->
  smaller <= volume ->
  check_margin_sufficient mt5 mt5_client sym volume price = true ->
  check_margin_sufficient mt5 mt5_client sym smaller price = true.
Proof.
  intros Hsi Hacc Hc Hr Hm Hl Hle Hcheck.
  pose proof (check_margin_excludes_zero_leverage mt5 mt5_client sym volume price
                si acc Hsi Hacc Hcheck) as Hlev.
  destruct (calculate_margin_required_scales mt5 mt5_client sym si acc Hsi Hacc Hlev)
    as (per_lot & Hscale & Hpos).
  specialize (Hpos Hc Hr Hm Hl).
  destruct (Hscale volume price) as (required & Hreq & Hreq').
  destruct (Hscale smaller price) as (required' & Hsm & Hsm').
  unfold check_margin_sufficient, get_account_summary in *.
  rewrite Hacc in *. rewrite Hreq in Hcheck. rewrite Hsm.
  apply Qle_bool_iff in Hcheck. apply Qle_bool_iff.
  rewrite Hsm'. rewrite Hreq' in Hcheck.
  eapply Qle_trans; [|exact Hcheck].
  rewrite !(Qmult_comm per_lot). now apply Qmult_le_compat_r.
Qed.

Lemma check_margin_sufficient_monotone_witness :
  check_margin_sufficient (Sample.terminal 10009) Sample.client "EURUSD" 2 1.1
  = true.
Proof.
  apply (check_margin_sufficient_monotone (Sample.terminal 10009) Sample.client
           "EURUSD"
           {| mt5_margin_required := 1000; mt5_margin_mode := 0;
              mt5_margin_currency := "USD"; mt5_margin_rate := 1;
              trade_contract_size := 100000 |}
           Sample.account 4 2 1.1).
  - reflexivity.
  - reflexivity.
  - discriminate.
  - discriminate.
  - discriminate.
  - vm_compute. discriminate.
  - discriminate.
  - reflexivity.
Defined.

(** ** Risk metrics *)

Lemma ltb_iff (a b : Q) : Py.ltb a b = true <-> a < b.
Proof.
  split; [|apply ltb_true].
  intros H. apply Qnot_le_lt. intros Hle. rewrite (ltb_false _ _ Hle) in H.
  discriminate.
Qed.

Lemma get_risk_metrics_fp_exact (mt5_client : MT5Client) :
  get_risk_metrics_fp Fp.exact mt5_client = get_risk_metrics mt5_client.
Proof. reflexivity. Qed.

(** X23.  For an available account the warnings are exactly these: the
    margin-level warning when the margin level is below 200, the
    margin-call warning when it is below 100, the free-margin warning
    when the free margin is below the product of the balance and 0.1 as
    the float arithmetic computes it.  Hence a margin-call warning never
    comes without the margin-level warning, and no warning is listed
    twice.  The statement holds for every rounding of the float
    operations. *)
Theorem get_risk_metrics_warnings (fp : Fp.arith) (mt5_client : MT5Client)
    (acc : AccountInfo) :
  get_account_info mt5_client = Some acc ->
  exists metrics,
    get_risk_metrics_fp fp mt5_client = Some metrics
    /\ (In MarginLevelBelow200 (rm_warnings metrics) <-> margin_level acc < 200)
    /\ (In MarginCallRisk (rm_warnings metrics) <-> margin_level acc < 100)
    /\ (In LowFreeMargin (rm_warnings metrics)
        <-> free_margin acc < Fp.mul fp (balance acc) (Fp.lit fp 0.1))
    /\ (In MarginCallRisk (rm_warnings metrics) ->
        In MarginLevelBelow200 (rm_warnings metrics))
    /\ NoDup (rm_warnings metrics).
Proof.
  intros Hacc. unfold get_risk_metrics_fp, get_account_summary. rewrite Hacc.
  eexists. split; [reflexivity|]. cbn [rm_warnings].
  set (threshold := Fp.mul fp (balance acc) (Fp.lit fp 0.1)).
  pose proof (ltb_iff (margin_level acc) 200) as H200.
  pose proof (ltb_iff (margin_level acc) 100) as H100.
  pose proof (ltb_iff (free_margin acc) threshold) as Hfree.
  assert (Hnest : margin_level acc < 100 -> margin_level acc < 200) by lra.
  destruct (Py.ltb (margin_level acc) 200);
    destruct (Py.ltb (margin_level acc) 100);
    destruct (Py.ltb (free_margin acc) threshold); cbn;
    (split; [intuition (try discriminate; auto)|]);
    (split; [intuition (try discriminate; auto)|]);
    (split; [intuition (try discriminate; auto)|]);
    (split; [intuition (try discriminate; auto)|]);
    repeat constructor; rewrite ?elem_of_cons, ?elem_of_nil;
    intuition discriminate.
Qed.

(** The theorem in the arithmetic of doubles: a balance of 1001 and a
    free margin of 100.1.  The product of 1001.0 and 0.1 is the double
    above 100.1, and the free-margin warning is given. *)
Lemma get_risk_metrics_warnings_witness :
  exists metrics,
    get_risk_metrics_fp Fp.binary64
      (Doubles.client (Doubles.account 1001 (Doubles.float 100.1) 100))
    = Some metrics
    /\ In LowFreeMargin (rm_warnings metrics).
Proof.
  destruct (get_risk_metrics_warnings Fp.binary64
              (Doubles.client (Doubles.account 1001 (Doubles.float 100.1) 100))
              (Doubles.account 1001 (Doubles.float 100.1) 100) eq_refl)
    as (metrics & Hm & _ & _ & Hfree & _).
  exists metrics. split; [exact Hm|]. apply Hfree.
  vm_compute. reflexivity.
Defined.

(** X24.  The two percentages are guarded against a division by zero:
    with a balance (an equity) that is not positive the profit percentage
    (the margin-use percentage) is 0; otherwise it is the profit (the
    margin) as a percentage of the balance (the equity). *)
Theorem get_risk_metrics_percentages (mt5_client : MT5Client) (acc : AccountInfo) :
  get_account_info mt5_client = Some acc ->
  exists metrics,
    get_risk_metrics mt5_client = Some metrics
    /\ (balance acc <= 0 -> rm_profit_percent metrics = 0)
    /\ (0 < balance acc ->
        rm_profit_percent metrics * balance acc == profit acc * 100)
    /\ (equity acc <= 0 -> rm_margin_used_percent metrics = 0)
    /\ (0 < equity acc ->
        rm_margin_used_percent metrics * equity acc == margin acc * 100).
Proof.
  intros Hacc. unfold get_risk_metrics, get_account_summary. rewrite Hacc.
  eexists. split; [reflexivity|].
  cbn [rm_profit_percent rm_margin_used_percent]. repeat split.
  - intros H. now rewrite (ltb_false _ _ H).
  - intros H. rewrite (ltb_true _ _ H). field. lra.
  - intros H. now rewrite (ltb_false _ _ H).
  - intros H. rewrite (ltb_true _ _ H). field. lra.
Qed.

Lemma get_risk_metrics_percentages_witness :
  exists metrics,
    get_risk_metrics Sample.client = Some metrics
    /\ rm_profit_percent metrics * balance Sample.account
       == profit Sample.account * 100.
Proof.
  destruct (get_risk_metrics_percentages Sample.client Sample.account eq_refl)
    as (metrics & Hm & _ & Hpct & _).
  exists metrics. split; [exact Hm|]. apply Hpct. reflexivity.
Defined.

(** ** The histories *)

Lemma insert_desc_perm {A : Type} (key : A -> Z) (x : A) (l : list A) :
  insert_desc key x l ≡ₚ x :: l.
Proof.
  induction l as [|y rest IH]; cbn; [reflexivity|].
  destruct (key y <=? key x)%Z; [reflexivity|].
  rewrite IH. apply Permutation_swap.
Qed.

Lemma sorted_reverse_perm {A : Type} (key : A -> Z) (l : list A) :
  sorted_reverse key l ≡ₚ l.
Proof.
  induction l as [|x rest IH]; cbn; [reflexivity|].
  now rewrite insert_desc_perm, IH.
Qed.

Lemma insert_desc_sorted {A : Type} (key : A -> Z) (x : A) (l : list A) :
  StronglySorted (fun a b => (key b <= key a)%Z) l ->
  StronglySorted (fun a b => (key b <= key a)%Z) (insert_desc key x l).
Proof.
  induction 1 as [|y rest Hsorted IH Hall]; cbn.
  - repeat constructor.
  - destruct (key y <=? key x)%Z eqn:E.
    + apply Z.leb_le in E. constructor; [now constructor|].
      constructor; [exact E|].
      eapply Forall_impl; [exact Hall|]. cbn. intros z Hz. lia.
    + apply Z.leb_gt in E. constructor; [exact IH|].
      rewrite (insert_desc_perm key x rest).
      constructor; [lia|exact Hall].
Qed.

Lemma sorted_reverse_sorted {A : Type} (key : A -> Z) (l : list A) :
  StronglySorted (fun a b => (key b <= key a)%Z) (sorted_reverse key l).
Proof.
  induction l as [|x rest IH]; cbn; [constructor|].
  now apply insert_desc_sorted.
Qed.

(** X25.  Both histories start their range at the day of the month minus
    [days].  When that is not at least 1 the date cannot be built, and
    the functions return an empty history without asking the terminal:
    whatever the terminal holds, the result is empty.  With the default
    of 30 days this is so on every day of a month but the 31st. *)
Theorem history_empty_when_range_leaves_month
    (t : HistoryTerminal) (now1 now2 : DateTime) (days : Z) :
  (dt_day now1 - days < 1)%Z ->
  get_trading_history t now1 now2 days = []
  /\ get_order_history t now1 now2 days = [].
Proof.
  intros Hday. unfold get_trading_history, get_order_history, replace_day.
  cbn [at_midnight dt_day dt_year dt_month].
  assert (Hlo : (1 <=? dt_day now1 - days)%Z = false) by (apply Z.leb_gt; lia).
  rewrite Hlo. split; reflexivity.
Qed.

(** When an entry is built, and when it is not. *)
Lemma deal_entry_is_Some (t : HistoryTerminal) (deal : Deal) :
  is_Some (local_time t (deal_time deal)) -> is_Some (deal_entry t deal).
Proof. unfold deal_entry. intros [time ->]. eauto. Qed.

Lemma deal_entry_None (t : HistoryTerminal) (deal : Deal) :
  local_time t (deal_time deal) = None -> deal_entry t deal = None.
Proof. unfold deal_entry. now intros ->. Qed.

Lemma order_entry_is_Some (t : HistoryTerminal) (order : HistoryOrder) :
  is_Some (local_time t (ho_time_setup order)) ->
  ((0 < ho_time_done order)%Z -> is_Some (local_time t (ho_time_done order))) ->
  is_Some (order_entry t order).
Proof.
  unfold order_entry. intros [time_setup ->] Hdone.
  destruct (0 <? ho_time_done order)%Z eqn:E; [|eauto].
  apply Z.ltb_lt in E. destruct (Hdone E) as [time_done ->]. eauto.
Qed.

Lemma order_entry_None (t : HistoryTerminal) (order : HistoryOrder) :
  local_time t (ho_time_setup order) = None
  \/ ((0 < ho_time_done order)%Z /\ local_time t (ho_time_done order) = None) ->
  order_entry t order = None.
Proof.
  unfold order_entry. intros [-> | [Hpos Hdone]]; [reflexivity|].
  destruct (local_time t (ho_time_setup order)); [|reflexivity].
  apply Z.ltb_lt in Hpos. now rewrite Hpos, Hdone.
Qed.

(** X26.  The start of the range can be built and the terminal answers.
    If every time of the answer can be converted to a [datetime], the
    trading history holds exactly the entries of the terminal's deals,
    one each, ordered by time with the newest first; if one time cannot,
    the history is empty.  The order history likewise, ordered by set-up
    time; the time an order was done is converted only when positive. *)
Theorem history_sorted_newest_first
    (t : HistoryTerminal) (now1 now2 from_date : DateTime) (days : Z) :
  replace_day (at_midnight now1) (dt_day now1 - days) = Some from_date ->
  (forall deals,
     history_deals_get t from_date now2 = Some deals ->
     (Forall (fun deal => is_Some (local_time t (deal_time deal))) deals ->
      exists entries,
        Forall2 (fun deal entry => deal_entry t deal = Some entry) deals entries
        /\ get_trading_history t now1 now2 days ≡ₚ entries
        /\ StronglySorted (fun a b => (de_time b <= de_time a)%Z)
             (get_trading_history t now1 now2 days))
     /\ (Exists (fun deal => local_time t (deal_time deal) = None) deals ->
         get_trading_history t now1 now2 days = []))
  /\ (forall orders,
        history_orders_get t from_date now2 = Some orders ->
        (Forall (fun order =>
                   is_Some (local_time t (ho_time_setup order))
                   /\ ((0 < ho_time_done order)%Z ->
                       is_Some (local_time t (ho_time_done order))))
                orders ->
         exists entries,
           Forall2 (fun order entry => order_entry t order = Some entry)
                   orders entries
           /\ get_order_history t now1 now2 days ≡ₚ entries
           /\ StronglySorted (fun a b => (oe_time_setup b <= oe_time_setup a)%Z)
                (get_order_history t now1 now2 days))
        /\ (Exists (fun order =>
                      local_time t (ho_time_setup order) = None
                      \/ ((0 < ho_time_done order)%Z
                          /\ local_time t (ho_time_done order) = None))
                   orders ->
            get_order_history t now1 now2 days = [])).
Proof.
  intros Hfrom. unfold get_trading_history, get_order_history.
  cbn [at_midnight dt_day] in *. rewrite Hfrom. split.
  - intros deals ->. split.
    + intros Hall.
      destruct (mapM_is_Some_2 (deal_entry t) deals) as [entries Hentries].
      { eapply Forall_impl; [exact Hall|]. intros deal. cbn.
        apply deal_entry_is_Some. }
      rewrite Hentries. exists entries. split; [now apply mapM_Some_1|].
      split; [apply sorted_reverse_perm|apply sorted_reverse_sorted].
    + intros Hone.
      rewrite (mapM_None_2 (deal_entry t) deals); [reflexivity|].
      eapply Exists_impl; [exact Hone|]. intros deal. apply deal_entry_None.
  - intros orders ->. split.
    + intros Hall.
      destruct (mapM_is_Some_2 (order_entry t) orders) as [entries Hentries].
      { eapply Forall_impl; [exact Hall|]. intros order [Hsetup Hdone]. cbn.
        now apply order_entry_is_Some. }
      rewrite Hentries. exists entries. split; [now apply mapM_Some_1|].
      split; [apply sorted_reverse_perm|apply sorted_reverse_sorted].
    + intros Hone.
      rewrite (mapM_None_2 (order_entry t) orders); [reflexivity|].
      eapply Exists_impl; [exact Hone|]. intros order. apply order_entry_None.
Qed.

(** On 15 March the default range of 30 days gives an empty history, with
    three deals at the terminal. *)
Lemma history_empty_when_range_leaves_month_witness :
  get_trading_history Ledger.terminal (Ledger.march 15) (Ledger.march 15) 30 = []
  /\ get_order_history Ledger.terminal (Ledger.march 15) (Ledger.march 15) 30 = [].
Proof.
  apply (history_empty_when_range_leaves_month
           Ledger.terminal (Ledger.march 15) (Ledger.march 15) 30).
  reflexivity.
Defined.

(** On 31 March the same call lists the three deals, newest first. *)
Lemma history_sorted_newest_first_witness :
  map de_ticket
    (get_trading_history Ledger.terminal (Ledger.march 31) (Ledger.march 31) 30)
  = [2%Z; 3%Z; 1%Z]
  /\ StronglySorted (fun a b => (de_time b <= de_time a)%Z)
       (get_trading_history Ledger.terminal (Ledger.march 31) (Ledger.march 31) 30).
Proof.
  destruct (history_sorted_newest_first Ledger.terminal
              (Ledger.march 31) (Ledger.march 31)
              {| dt_year := 2024; dt_month := 3; dt_day := 1; dt_hour := 0;
                 dt_minute := 0; dt_second := 0; dt_microsecond := 0 |} 30
              eq_refl) as [Hdeals _].
  destruct (Hdeals _ eq_refl) as [Hconverted _].
  destruct Hconverted as (entries & _ & _ & Hsorted).
  - repeat constructor; vm_compute; eauto.
  - split; [reflexivity|exact Hsorted].
Defined.

(** ** The client: symbol cache and connection state *)

(** X27.  A cached symbol younger than five minutes is served from the
    cache: the answer and the client's state do not depend on the
    terminal, which may no longer know the symbol. *)
Theorem client_get_symbol_info_cached
    (t : ClientTerminal) (now_check now_store : Z) (self : ClientState)
    (sym : string) (cached : CacheEntry) :
  symbols_cache self !! sym = Some cached ->
  (now_check - entry_timestamp cached < timedelta_minutes 5)%Z ->
  client_get_symbol_info t now_check now_store self sym
  = (Some (entry_info cached), self).
Proof.
  intros Hcached Hfresh. unfold client_get_symbol_info. rewrite Hcached.
  apply Z.ltb_lt in Hfresh. now rewrite Hfresh.
Qed.

(** X28.  A symbol that is not cached, or cached for five minutes or
    more, is fetched from the terminal.  If the terminal knows it, the
    answer is cached with the current time, and a second request within
    five minutes of that time gets the same answer from any terminal.  If
    the terminal does not know it, the answer is [None] and the client is
    unchanged. *)
Theorem client_get_symbol_info_refresh
    (t : ClientTerminal) (now_check now_store : Z) (self : ClientState)
    (sym : string) :
  (forall cached, symbols_cache self !! sym = Some cached ->
     (timedelta_minutes 5 <= now_check - entry_timestamp cached)%Z) ->
  match mt5_symbol_info t sym with
  | Some symbol_info =>
      let first := client_get_symbol_info t now_check now_store self sym in
      first.1 = Some (symbol_info_of t sym symbol_info)
      /\ forall t' later later_store,
           (later - now_store < timedelta_minutes 5)%Z ->
           client_get_symbol_info t' later later_store first.2 sym
           = (Some (symbol_info_of t sym symbol_info), first.2)
  | None =>
      client_get_symbol_info t now_check now_store self sym = (None, self)
  end.
Proof.
  intros Hstale.
  assert (Hfetch :
    client_get_symbol_info t now_check now_store self sym
    = match mt5_symbol_info t sym with
      | None => (None, self)
      | Some symbol_info =>
          (Some (symbol_info_of t sym symbol_info),
           {| is_connected := is_connected self;
              last_heartbeat := last_heartbeat self;
              symbols_cache :=
                <[sym := {| entry_info := symbol_info_of t sym symbol_info;
                            entry_timestamp := now_store |}]>
                  (symbols_cache self);
              client_account_info := client_account_info self |})
      end).
  { unfold client_get_symbol_info.
    destruct (symbols_cache self !! sym) as [cached|] eqn:Hc; [|reflexivity].
    specialize (Hstale cached eq_refl). apply Z.ltb_ge in Hstale.
    now rewrite Hstale. }
  rewrite Hfetch. destruct (mt5_symbol_info t sym) as [symbol_info|];
    [|reflexivity].
  cbn [fst snd]. split; [reflexivity|].
  intros t' later later_store Hlater.
  unfold client_get_symbol_info. cbn [symbols_cache].
  rewrite lookup_insert_eq. cbn [entry_timestamp entry_info].
  apply Z.ltb_lt in Hlater. now rewrite Hlater.
Qed.

Lemma client_run_disconnected (cs : list ClientCall) :
  forall self, is_connected self = false ->
               is_connected (client_run self cs) = false.
Proof.
  induction cs as [|c rest IH]; intros self Hoff; [exact Hoff|].
  cbn. apply IH. destruct c as [t now|t now|t now_check now_store sym|t sym]; cbn.
  - unfold client_heartbeat. now rewrite Hoff.
  - unfold client_get_account_info, client_heartbeat. now rewrite Hoff.
  - unfold client_get_symbol_info.
    destruct (symbols_cache self !! sym) as [cached|];
      [destruct (_ <? _)%Z; [exact Hoff|]|];
      destruct (mt5_symbol_info t sym); exact Hoff.
  - exact Hoff.
Qed.

(** X29.  A lost connection is sticky.  Once a heartbeat has found the
    terminal without an account, the client is disconnected, and through
    any later heartbeats, account, symbol and subscription requests it
    stays so: every later account request answers [None] and every later
    heartbeat [False], also when the terminal is back. *)
Theorem client_disconnect_is_sticky
    (t0 : ClientTerminal) (now0 : Z) (self : ClientState)
    (later : list ClientCall) (t : ClientTerminal) (now : Z) :
  mt5_account_info t0 = None ->
  let lost := (client_heartbeat t0 now0 self).2 in
  let after := client_run lost later in
  is_connected after = false
  /\ (client_heartbeat t now after).1 = false
  /\ (client_get_account_info t now after).1 = None.
Proof.
  intros Hnone lost after.
  assert (Hlost : is_connected lost = false).
  { subst lost. unfold client_heartbeat. rewrite Hnone.
    destruct (is_connected self) eqn:E; cbn; [reflexivity|exact E]. }
  assert (Hafter : is_connected after = false)
    by (apply client_run_disconnected; exact Hlost).
  split; [exact Hafter|].
  unfold client_get_account_info, client_heartbeat. rewrite Hafter.
  split; reflexivity.
Qed.

(** EURUSD fetched at time 0 is served one minute later by a terminal
    that is down. *)
Lemma client_get_symbol_info_cached_witness :
  let warm := (client_get_symbol_info Desk.up 0 0 Desk.connected "EURUSD").2 in
  client_get_symbol_info Desk.down 60000000 60000000 warm "EURUSD"
  = (Some (symbol_info_of Desk.up "EURUSD" Desk.eurusd_raw), warm).
Proof.
  cbv zeta.
  apply (client_get_symbol_info_cached Desk.down 60000000 60000000
           (client_get_symbol_info Desk.up 0 0 Desk.connected "EURUSD").2
           "EURUSD"
           {| entry_info := symbol_info_of Desk.up "EURUSD" Desk.eurusd_raw;
              entry_timestamp := 0 |}).
  - vm_compute. reflexivity.
  - vm_compute. reflexivity.
Defined.

Lemma client_get_symbol_info_refresh_witness :
  (client_get_symbol_info Desk.up 0 0 Desk.connected "EURUSD").1
  = Some (symbol_info_of Desk.up "EURUSD" Desk.eurusd_raw).
Proof.
  pose proof (client_get_symbol_info_refresh Desk.up 0 0 Desk.connected "EURUSD")
    as H.
  cbn [Desk.up mt5_symbol_info String.eqb] in H.
  apply H. intros cached Hc. vm_compute in Hc. discriminate Hc.
Defined.

(** A connected client loses the terminal at time 10; at time 20 the
    terminal is back, and the account request still answers [None]. *)
Lemma client_disconnect_is_sticky_witness :
  let lost := (client_heartbeat Desk.down 10 Desk.connected).2 in
  (client_get_account_info Desk.up 20 lost).1 = None.
Proof.
  cbv zeta.
  destruct (client_disconnect_is_sticky Desk.down 10 Desk.connected []
              Desk.up 20 eq_refl) as (_ & _ & Hnone).
  exact Hnone.
Defined.
